(** * MedAssist: diagnosis resolver, record gateway and snapshot store

    A shallow embedding of the TypeScript sources of MedAssist:
    - client: [offlineCache], [isOnline], [diagnoseOffline] (lib/offline.ts)
      and the [analyzeMutation] of pages/DiagnosisPage.tsx;
    - server: the [POST /api/diagnose] handler (server/routes.ts), the
      zod [symptomAnalysisSchema] (shared/schema.ts) and [SqliteStorage]
      (server/storage.ts) over the tables of server/db.ts. *)

From Stdlib Require Import QArith Lqa ZArith Sorting.Permutation Sorting.Sorted.
From stdpp Require Import base list gmap strings pretty.

Set Warnings "-register-all".
Open Scope string_scope.
Open Scope list_scope.

(* ------------------------------------------------------------------ *)
(** ** JavaScript values and JSON *)

(** Runtime JavaScript values that the code handles.  Numbers are kept as
    rationals (the code only compares and subtracts them); a [Date] is kept
    by its ISO text. *)
Inductive jsval :=
| VUndefined
| VNull
| VBool (b : bool)
| VNum (q : Q)
| VStr (s : string)
| VArr (xs : list jsval)
| VObj (kvs : list (string * jsval))
| VDate (iso : string).

(** JSON texts, represented by the tree they encode: [JSON.parse] of the
    text that [JSON.stringify] writes gives back exactly this tree. *)
Inductive json :=
| JNull
| JBool (b : bool)
| JNum (q : Q)
| JStr (s : string)
| JArr (xs : list json)
| JObj (kvs : list (string * json)).

(** [JSON.stringify]: [undefined] gives no text at all; [Date]s go through
    [toJSON] (their ISO text); [undefined] array slots become [null];
    object keys whose value is [undefined] are dropped. *)
Fixpoint stringify (v : jsval) : option json :=
  match v with
  | VUndefined => None
  | VNull => Some JNull
  | VBool b => Some (JBool b)
  | VNum q => Some (JNum q)
  | VStr s => Some (JStr s)
  | VDate iso => Some (JStr iso)
  | VArr xs =>
      Some (JArr ((fix go (l : list jsval) : list json :=
                     match l with
                     | [] => []
                     | x :: l' =>
                         match stringify x with
                         | Some j => j
                         | None => JNull
                         end :: go l'
                     end) xs))
  | VObj kvs =>
      Some (JObj ((fix go (l : list (string * jsval)) : list (string * json) :=
                     match l with
                     | [] => []
                     | (k, x) :: l' =>
                         match stringify x with
                         | Some j => (k, j) :: go l'
                         | None => go l'
                         end
                     end) kvs))
  end.

(** [JSON.parse] of a JSON text. *)
Fixpoint parse (j : json) : jsval :=
  match j with
  | JNull => VNull
  | JBool b => VBool b
  | JNum q => VNum q
  | JStr s => VStr s
  | JArr xs => VArr (map parse xs)
  | JObj kvs => VObj (map (fun '(k, x) => (k, parse x)) kvs)
  end.

(** Property read [o.k]; a missing property reads as [undefined]. *)
Fixpoint get_prop (kvs : list (string * jsval)) (k : string) : jsval :=
  match kvs with
  | [] => VUndefined
  | (k', x) :: kvs' => if String.eqb k k' then x else get_prop kvs' k
  end.

Definition prop (v : jsval) (k : string) : jsval :=
  match v with
  | VObj kvs => get_prop kvs k
  | _ => VUndefined
  end.

(** [k in o] for an object. *)
Definition has_prop (kvs : list (string * jsval)) (k : string) : bool :=
  existsb (fun '(k', _) => String.eqb k k') kvs.

(** [a ?? b] *)
Definition nullish_or (a b : jsval) : jsval :=
  match a with
  | VUndefined | VNull => b
  | _ => a
  end.

(** JavaScript truthiness. *)
Definition truthy (v : jsval) : bool :=
  match v with
  | VUndefined | VNull => false
  | VBool b => b
  | VNum q => negb (Qeq_bool q 0)
  | VStr s => negb (String.eqb s "")
  | _ => true
  end.

(* ------------------------------------------------------------------ *)
(** ** Client: the diagnosis resolver *)

Module Client.

(** Backend calls, in the order they are issued. *)
Inductive call := CallPrimary | CallFallback.

(** Exceptions thrown on the client. *)
Inductive exn :=
| TypeError
| FetchFailed                  (* fetch rejected: transport error, timeout *)
| HttpStatus (status : Z)      (* a non-2xx status turned into an Error *)
| SyntaxError.                 (* res.json() on a body that is not JSON *)

(** Async code that records its backend calls and may throw. *)
Definition M (A : Type) : Type := list call -> list call * (exn + A).

Definition ret {A} (a : A) : M A := fun tr => (tr, inr a).
Definition throw {A} (e : exn) : M A := fun tr => (tr, inl e).
Definition bind {A B} (m : M A) (k : A -> M B) : M B :=
  fun tr => match m tr with
            | (tr', inl e) => (tr', inl e)
            | (tr', inr a) => k a tr'
            end.
(** [try { m } catch (e) { h(e) }] *)
Definition try_catch {A} (m : M A) (h : exn -> M A) : M A :=
  fun tr => match m tr with
            | (tr', inl e) => h e tr'
            | (tr', inr a) => (tr', inr a)
            end.
Definition record (c : call) : M unit := fun tr => (app tr [c], inr tt).

Notation "m ;;; k" := (bind m (fun _ => k))
  (at level 100, right associativity).

(** What one HTTP exchange with a backend gives: a rejected fetch, or a
    response with its status and its body; the body is a JSON object (the
    response shape of both backends) or [None] when it is not JSON. *)
Inductive http_outcome :=
| NetworkError
| Response (status : Z) (body : option (list (string * jsval))).

(** [res.ok] *)
Definition ok_status (status : Z) : bool := (200 <=? status)%Z && (status <=? 299)%Z.

(** [isOnline()]: [navigator] is [None] when undefined. *)
Definition isOnline (navigator_onLine : option bool) : bool :=
  match navigator_onLine with
  | None => true
  | Some b => b
  end.

(** Modelled from the spec: [apiRequest] of client/src/lib/queryClient,
    which is not among the sources.  It calls the primary backend
    ([POST /api/diagnose]) and rejects on any failure (transport error,
    timeout, non-2xx status); otherwise it resolves with the response,
    represented by its JSON body. *)
Definition apiRequest (o : http_outcome) : M jsval :=
  record CallPrimary;;;
  match o with
  | NetworkError => throw FetchFailed
  | Response status body =>
      if ok_status status then
        match body with
        | Some kvs => ret (VObj kvs)
        | None => throw SyntaxError
        end
      else throw (HttpStatus status)
  end.

(** The result of [diagnoseOffline] when its call fails. *)
Definition offline_sentinel (input : jsval) : jsval :=
  VObj [("mode", VStr "offline");
        ("patientId", nullish_or (prop input "patientId") (VStr ""));
        ("primaryDiagnosis", VStr "Offline diagnosis service unavailable");
        ("differentialDiagnoses", VArr []);
        ("treatmentProtocol", VNull);
        ("requiresReferral", VBool false);
        ("referralReason", VStr "Error in local NLP service");
        ("knowledgeSnippets", VArr [])].

(** [diagnoseOffline(input)]: POST to the local service at
    localhost:8000/analyze. *)
Definition diagnoseOffline (input : jsval) (o : http_outcome) : M jsval :=
  try_catch
    (record CallFallback;;;
     match o with
     | NetworkError => throw FetchFailed
     | Response status body =>
         if negb (ok_status status) then throw (HttpStatus status)
         else
           match body with
           | None => throw SyntaxError
           | Some data =>
               if negb (has_prop data "mode")
               then ret (VObj (app data [("mode", VStr "offline")]))
               else ret (VObj data)
           end
     end)
    (fun _ => ret (offline_sentinel input)).

(** What the environment answers during one [analyze] call. *)
Record env := {
  navigator_onLine : option bool;
  primary : http_outcome;
  fallback : http_outcome;
}.

(** [analyzeMutation.mutationFn(data)]. *)
Definition analyze (e : env) (data : jsval) : M jsval :=
  if negb (isOnline (navigator_onLine e)) then
    diagnoseOffline data (fallback e)
  else
    try_catch (apiRequest (primary e))
              (fun _ => diagnoseOffline data (fallback e)).

(** Running [analyze] from an empty call log. *)
Definition run_analyze (e : env) (data : jsval) : list call * (exn + jsval) :=
  analyze e data [].

End Client.

Module ClientFacts.
Import Client.

(** The primary backend call rejects: [apiRequest] throws. *)
Definition primary_fails (o : http_outcome) : Prop :=
  o = NetworkError \/
  (exists status body, o = Response status body /\ ok_status status = false) \/
  (exists status, o = Response status None).

(** The local fallback backend is unreachable: its fetch rejects, answers
    a non-2xx status, or answers a body that is not JSON. *)
Definition fallback_unreachable (o : http_outcome) : Prop :=
  o = NetworkError \/
  (exists status body, o = Response status body /\ ok_status status = false) \/
  (exists status, o = Response status None /\ ok_status status = true).

(** Tagging of a successful fallback response. *)
Definition tag_offline (data : list (string * jsval)) : jsval :=
  if has_prop data "mode" then VObj data
  else VObj (app data [("mode", VStr "offline")]).

End ClientFacts.

(* ------------------------------------------------------------------ *)
(** ** Sorting as [Array.prototype.sort] and [ORDER BY] do it *)

(** Stable insertion sort: [lt a b] holds when [a] must come strictly
    before [b]; elements that compare equal keep their order. *)
Fixpoint insert_by {A} (lt : A -> A -> bool) (x : A) (l : list A) : list A :=
  match l with
  | [] => [x]
  | y :: l' => if lt y x then y :: insert_by lt x l' else x :: y :: l'
  end.

Definition sort_by {A} (lt : A -> A -> bool) (l : list A) : list A :=
  fold_right (insert_by lt) [] l.

(** Strict order on rationals. *)
Definition Qltb (a b : Q) : bool := negb (Qle_bool b a).

(* ------------------------------------------------------------------ *)
(** ** Server: shared/schema.ts *)

Module Schema.

(** A zod issue: its path and its message. *)
Definition issue : Type := (list string * string)%type.

Definition typeof (v : jsval) : string :=
  match v with
  | VUndefined => "undefined"
  | VNull => "null"
  | VBool _ => "boolean"
  | VNum _ => "number"
  | VStr _ => "string"
  | VArr _ => "array"
  | VObj _ => "object"
  | VDate _ => "date"
  end.

Definition type_issue (path : list string) (expected : string) (v : jsval) : issue :=
  match v with
  | VUndefined => (path, "Required")
  | _ => (path, String.append "Expected " (String.append expected (String.append ", received " (typeof v))))
  end.

(** [z.string()] *)
Definition z_string (path : list string) (v : jsval) : list issue + string :=
  match v with VStr s => inr s | _ => inl [type_issue path "string" v] end.

(** [z.number()] *)
Definition z_number (path : list string) (v : jsval) : list issue + Q :=
  match v with VNum q => inr q | _ => inl [type_issue path "number" v] end.

(** [.optional()] *)
Definition z_optional {A} (p : jsval -> list issue + A) (v : jsval)
  : list issue + option A :=
  match v with
  | VUndefined => inr None
  | _ => match p v with inl is => inl is | inr a => inr (Some a) end
  end.

Fixpoint index_strings (i : nat) (xs : list jsval) (path : list string)
  : list issue * list string :=
  match xs with
  | [] => ([], [])
  | x :: xs' =>
      let '(is, ss) := index_strings (S i) xs' path in
      match x with
      | VStr s => (is, s :: ss)
      | _ => (type_issue (path ++ [pretty i]) "string" x :: is, ss)
      end
  end.

(** [z.array(z.string()).min(1, "At least one symptom is required")]:
    the length check comes first, then the elements are checked. *)
Definition z_symptoms (v : jsval) : list issue + list string :=
  match v with
  | VArr xs =>
      let len_issues :=
        if (length xs <? 1)%nat
        then [(["symptoms"], "At least one symptom is required")] else [] in
      let '(el_issues, ss) := index_strings 0 xs ["symptoms"] in
      match len_issues ++ el_issues with
      | [] => inr ss
      | is => inl is
      end
  | _ => inl [type_issue ["symptoms"] "array" v]
  end.

Definition errors_of {A} (r : list issue + A) : list issue :=
  match r with inl is => is | inr _ => [] end.

(** The [vitalSigns] object schema (unknown keys stripped). *)
Definition z_vitalSigns (v : jsval) : list issue + list (string * jsval) :=
  match v with
  | VObj kvs =>
      let num k := z_optional (z_number ["vitalSigns"; k]) (get_prop kvs k) in
      let str k := z_optional (z_string ["vitalSigns"; k]) (get_prop kvs k) in
      let keep {A} k (r : list issue + option A) (f : A -> jsval) :=
        match r with inr (Some a) => [(k, f a)] | _ => [] end in
      let t := num "temperature" in
      let bp := str "bloodPressure" in
      let hr := num "heartRate" in
      let rr := num "respiratoryRate" in
      let ox := num "oxygenSaturation" in
      match errors_of t ++ errors_of bp ++ errors_of hr ++ errors_of rr
            ++ errors_of ox with
      | [] => inr (keep "temperature" t VNum ++ keep "bloodPressure" bp VStr
                   ++ keep "heartRate" hr VNum ++ keep "respiratoryRate" rr VNum
                   ++ keep "oxygenSaturation" ox VNum)
      | is => inl is
      end
  | _ => inl [type_issue ["vitalSigns"] "object" v]
  end.

(** [z.enum(["en", "hi", "ta", "te", "bn"]).default("en")] *)
Definition z_language (v : jsval) : list issue + string :=
  match v with
  | VUndefined => inr "en"
  | VStr s =>
      if existsb (String.eqb s) ["en"; "hi"; "ta"; "te"; "bn"] then inr s
      else inl [(["language"], String.append "Invalid enum value. Expected 'en' | 'hi' | 'ta' | 'te' | 'bn', received '" (String.append s "'"))]
  | _ => inl [(["language"], String.append "Expected 'en' | 'hi' | 'ta' | 'te' | 'bn', received " (typeof v))]
  end.

(** The output type of [symptomAnalysisSchema]. *)
Record SymptomAnalysis := {
  patientId : string;
  symptoms : list string;
  vitalSigns : option (list (string * jsval));
  patientAge : Q;
  patientGender : string;
  patientWeight : option Q;
  language : string;
}.

(** [symptomAnalysisSchema.parse(body)]: the validated value, or the
    [ZodError]'s issues (all of them, in the order of the schema's keys). *)
Definition parse_symptomAnalysis (body : jsval) : list issue + SymptomAnalysis :=
  match body with
  | VObj kvs =>
      let pid := z_string ["patientId"] (get_prop kvs "patientId") in
      let sy := z_symptoms (get_prop kvs "symptoms") in
      let vs := z_optional z_vitalSigns (get_prop kvs "vitalSigns") in
      let age := z_number ["patientAge"] (get_prop kvs "patientAge") in
      let gen := z_string ["patientGender"] (get_prop kvs "patientGender") in
      let w := z_optional (z_number ["patientWeight"]) (get_prop kvs "patientWeight") in
      let lang := z_language (get_prop kvs "language") in
      match pid, sy, vs, age, gen, w, lang with
      | inr a, inr b, inr c, inr d, inr e, inr f, inr g =>
          inr {| patientId := a; symptoms := b; vitalSigns := c; patientAge := d;
                 patientGender := e; patientWeight := f; language := g |}
      | _, _, _, _, _, _, _ =>
          inl (errors_of pid ++ errors_of sy ++ errors_of vs ++ errors_of age
               ++ errors_of gen ++ errors_of w ++ errors_of lang)
      end
  | _ => inl [([], String.append "Expected object, received " (typeof body))]
  end.

End Schema.

(* ------------------------------------------------------------------ *)
(** ** Server: the SQLite tables of server/db.ts and server/storage.ts *)

Module Storage.

(** A differential diagnosis as the diagnosis backends return it. *)
Record Differential := {
  condition : string;
  confidence : Q;
  reasoning : string;
}.

Definition differential_val (d : Differential) : jsval :=
  VObj [("condition", VStr (condition d)); ("confidence", VNum (confidence d));
        ("reasoning", VStr (reasoning d))].

(** Row of table [patients]. *)
Record PatientRow := {
  p_id : string;
  p_name : string;
  p_age : Q;
  p_gender : string;
  p_weight : option Q;
  p_contactNumber : option string;
  p_address : option string;
  p_createdAt : string;
}.

(** Row of table [diagnoses].  A TEXT column holding JSON is kept as the
    JSON tree of its text ([None] is SQL NULL); [requiresReferral] is the
    INTEGER column. *)
Record DiagRow := {
  d_id : string;
  d_patientId : string;
  d_symptoms : option json;
  d_vitalSigns : option json;
  d_primaryDiagnosis : string;
  d_differentialDiagnoses : option json;
  d_treatmentProtocol : option json;
  d_requiresReferral : Z;
  d_referralReason : option string;
  d_language : option string;
  d_createdAt : string;
}.

(** Row of table [knowledge_base]. *)
Record KbRow := {
  k_id : string;
  k_symptoms : option json;
  k_ageGroup : string;
  k_gender : string;
  k_diagnosis : string;
  k_confidence : Q;
  k_outcome : option string;
  k_createdAt : string;
}.

(** The database; each table lists its rows in rowid (insertion) order. *)
Record Db := {
  patients : list PatientRow;
  diagnoses : list DiagRow;
  knowledge_base : list KbRow;
}.

Definition empty_db : Db := {| patients := []; diagnoses := []; knowledge_base := [] |}.

(** Errors of a failing INSERT.  [SqliteIoErr] stands for a failure of the
    storage medium (disk full, database locked, ...). *)
Inductive sql_error :=
| SqliteIoErr
| SqliteConstraintNotNull
| SqliteConstraintPrimaryKey
| SqliteConstraintForeignKey.

(** The [Diagnosis] objects the storage hands out. *)
Record Diagnosis := {
  id : string;
  patientId : string;
  symptoms : jsval;
  vitalSigns : jsval;
  primaryDiagnosis : string;
  differentialDiagnoses : jsval;
  treatmentProtocol : jsval;
  requiresReferral : bool;
  referralReason : jsval;
  language : string;
  createdAt : string;
}.

(** The [KnowledgeBase] objects the storage hands out. *)
Record KnowledgeBase := {
  kb_id : string;
  kb_symptoms : jsval;
  ageGroup : string;
  gender : string;
  diagnosis : string;
  kb_confidence : Q;
  outcome : option string;
  kb_createdAt : string;
}.

(** [InsertDiagnosis], with the values [createDiagnosis] reads. *)
Record InsertDiagnosis := {
  i_patientId : string;
  i_symptoms : option (list string);
  i_vitalSigns : jsval;
  i_primaryDiagnosis : string;
  i_differentialDiagnoses : option (list Differential);
  i_treatmentProtocol : jsval;
  i_requiresReferral : option bool;
  i_referralReason : option string;
  i_language : option string;
}.

(** The entry [addKnowledgeEntry] receives. *)
Record KnowledgeEntry := {
  e_symptoms : list string;
  e_ageGroup : string;
  e_gender : string;
  e_diagnosis : string;
  e_confidence : Q;
  e_outcome : option string;
}.

Definition opt_str (o : option string) : jsval :=
  match o with Some s => VStr s | None => VNull end.

Definition str_array_json (xs : list string) : json := JArr (map JStr xs).

Definition differential_json (d : Differential) : json :=
  JObj [("condition", JStr (condition d)); ("confidence", JNum (confidence d));
        ("reasoning", JStr (reasoning d))].

(** [cond ? JSON.stringify(v) : null] *)
Definition stringify_if_truthy (v : jsval) : option json :=
  if truthy v then stringify v else None.

(** [rowToDiagnosis] *)
Definition rowToDiagnosis (row : DiagRow) : Diagnosis :=
  {| id := d_id row;
     patientId := d_patientId row;
     symptoms := match d_symptoms row with Some j => parse j | None => VArr [] end;
     vitalSigns := match d_vitalSigns row with Some j => parse j | None => VNull end;
     primaryDiagnosis := d_primaryDiagnosis row;
     differentialDiagnoses :=
       match d_differentialDiagnoses row with Some j => parse j | None => VArr [] end;
     treatmentProtocol :=
       match d_treatmentProtocol row with Some j => parse j | None => VNull end;
     requiresReferral := negb (Z.eqb (d_requiresReferral row) 0);
     referralReason := opt_str (d_referralReason row);
     language := match d_language row with Some l => l | None => "en" end;
     createdAt := d_createdAt row |}.

(** [rowToKnowledge] *)
Definition rowToKnowledge (row : KbRow) : KnowledgeBase :=
  {| kb_id := k_id row;
     kb_symptoms := match k_symptoms row with Some j => parse j | None => VArr [] end;
     ageGroup := k_ageGroup row;
     gender := k_gender row;
     diagnosis := k_diagnosis row;
     kb_confidence := k_confidence row;
     outcome := k_outcome row;
     kb_createdAt := k_createdAt row |}.

(** [datetime(createdAt)]: ISO text cut to whole seconds. *)
Definition datetime (iso : string) : string := String.substring 0 19 iso.

(** [ORDER BY datetime(createdAt) DESC] *)
Definition by_createdAt_desc (a b : DiagRow) : bool :=
  String.ltb (datetime (d_createdAt b)) (datetime (d_createdAt a)).

Definition getDiagnosis (db : Db) (key : string) : option Diagnosis :=
  match find (fun r => String.eqb (d_id r) key) (diagnoses db) with
  | Some r => Some (rowToDiagnosis r)
  | None => None
  end.

Definition getDiagnosesByPatient (db : Db) (pid : string) : list Diagnosis :=
  map rowToDiagnosis
      (sort_by by_createdAt_desc
               (List.filter (fun r => String.eqb (d_patientId r) pid) (diagnoses db))).

Definition getAllDiagnoses (db : Db) : list Diagnosis :=
  map rowToDiagnosis (sort_by by_createdAt_desc (diagnoses db)).

(** [createPatient], with [newId()] and [nowIso()] given. *)
Definition createPatient (db : Db) (newId now : string) (fault : bool)
  (name : string) (age : Q) (gender : string) (weight : option Q)
  : Db * (sql_error + PatientRow) :=
  let row := {| p_id := newId; p_name := name; p_age := age; p_gender := gender;
                p_weight := weight; p_contactNumber := None; p_address := None;
                p_createdAt := now |} in
  if fault then (db, inl SqliteIoErr)
  else if existsb (fun p => String.eqb (p_id p) newId) (patients db)
  then (db, inl SqliteConstraintPrimaryKey)
  else ({| patients := patients db ++ [row]; diagnoses := diagnoses db;
           knowledge_base := knowledge_base db |}, inr row).


(** [createDiagnosis], with [newId()] and [nowIso()] given.  With
    [PRAGMA foreign_keys = ON] the INSERT fails when [patientId] names no
    patient; a failing INSERT writes nothing. *)
Definition createDiagnosis (db : Db) (newId now : string) (fault : bool)
  (ins : InsertDiagnosis) : Db * (sql_error + Diagnosis) :=
  let referral := match i_requiresReferral ins with Some true => true | _ => false end in
  let row :=
    {| d_id := newId;
       d_patientId := i_patientId ins;
       d_symptoms := Some (str_array_json (default [] (i_symptoms ins)));
       d_vitalSigns := stringify_if_truthy (i_vitalSigns ins);
       d_primaryDiagnosis := i_primaryDiagnosis ins;
       d_differentialDiagnoses :=
         match i_differentialDiagnoses ins with
         | Some ds => Some (JArr (map differential_json ds))
         | None => None
         end;
       d_treatmentProtocol := stringify_if_truthy (i_treatmentProtocol ins);
       d_requiresReferral := if referral then 1%Z else 0%Z;
       d_referralReason := i_referralReason ins;
       d_language := Some (default "en" (i_language ins));
       d_createdAt := now |} in
  if fault then (db, inl SqliteIoErr)
  else if existsb (fun r => String.eqb (d_id r) newId) (diagnoses db)
  then (db, inl SqliteConstraintPrimaryKey)
  else if negb (existsb (fun p => String.eqb (p_id p) (i_patientId ins)) (patients db))
  then (db, inl SqliteConstraintForeignKey)
  else
    ({| patients := patients db; diagnoses := diagnoses db ++ [row];
        knowledge_base := knowledge_base db |},
     inr {| id := newId;
            patientId := i_patientId ins;
            symptoms := VArr (map VStr (default [] (i_symptoms ins)));
            vitalSigns := nullish_or (i_vitalSigns ins) VNull;
            primaryDiagnosis := i_primaryDiagnosis ins;
            differentialDiagnoses :=
              match i_differentialDiagnoses ins with
              | Some ds => VArr (map differential_val ds)
              | None => VArr []
              end;
            treatmentProtocol := nullish_or (i_treatmentProtocol ins) VNull;
            requiresReferral := referral;
            referralReason := opt_str (i_referralReason ins);
            language := default "en" (i_language ins);
            createdAt := now |}).

(** [addKnowledgeEntry], with [newId()] and [nowIso()] given. *)
Definition addKnowledgeEntry (db : Db) (newId now : string) (fault : bool)
  (e : KnowledgeEntry) : Db * (sql_error + KnowledgeBase) :=
  let row := {| k_id := newId; k_symptoms := Some (str_array_json (e_symptoms e));
                k_ageGroup := e_ageGroup e; k_gender := e_gender e;
                k_diagnosis := e_diagnosis e; k_confidence := e_confidence e;
                k_outcome := e_outcome e; k_createdAt := now |} in
  if fault then (db, inl SqliteIoErr)
  else if existsb (fun r => String.eqb (k_id r) newId) (knowledge_base db)
  then (db, inl SqliteConstraintPrimaryKey)
  else ({| patients := patients db; diagnoses := diagnoses db;
           knowledge_base := knowledge_base db ++ [row] |},
        inr (rowToKnowledge row)).

(** [rowSymptoms.includes(s)]: arrays compare elements with
    SameValueZero, strings search a substring, any other value has no
    [includes] method ([None]: a TypeError). *)
Definition includes (rs : jsval) (s : string) : option bool :=
  match rs with
  | VArr xs =>
      Some (existsb (fun x => match x with VStr s' => String.eqb s s' | _ => false end) xs)
  | VStr str => Some (match String.index 0 s str with Some _ => true | None => false end)
  | _ => None
  end.

(** [symptoms.some((s) => rowSymptoms.includes(s))] *)
Fixpoint some_includes (rs : jsval) (qs : list string) : option bool :=
  match qs with
  | [] => Some false
  | s :: qs' =>
      match includes rs s with
      | None => None
      | Some true => Some true
      | Some false => some_includes rs qs'
      end
  end.

(** [Array.prototype.filter] with a callback that may throw. *)
Fixpoint filter_opt {A} (f : A -> option bool) (l : list A) : option (list A) :=
  match l with
  | [] => Some []
  | x :: l' =>
      match f x with
      | None => None
      | Some b =>
          match filter_opt f l' with
          | None => None
          | Some r => Some (if b then x :: r else r)
          end
      end
  end.

(** [.sort((a, b) => b.confidence - a.confidence)]: [a] goes strictly
    before [b] when the comparator is negative. *)
Definition by_confidence_desc (a b : KnowledgeBase) : bool :=
  Qltb (kb_confidence b - kb_confidence a) 0.

(** [searchKnowledge(symptoms, ageGroup, gender)]; [None] when it throws. *)
Definition searchKnowledge (db : Db) (qsymptoms : list string) (qageGroup qgender : string)
  : option (list KnowledgeBase) :=
  let rows :=
    List.filter (fun r => String.eqb (k_ageGroup r) qageGroup &&
                     (String.eqb (k_gender r) qgender || String.eqb (k_gender r) "other"))
           (knowledge_base db) in
  match filter_opt (fun r => some_includes
                               (match k_symptoms r with Some j => parse j | None => VArr [] end)
                               qsymptoms) rows with
  | None => None
  | Some filtered => Some (sort_by by_confidence_desc (map rowToKnowledge filtered))
  end.

End Storage.

(* ------------------------------------------------------------------ *)
(** ** Server: the [POST /api/diagnose] handler of server/routes.ts *)

Module Routes.
Import Schema Storage.

(** The body [axios.post] resolves with (the backend response shape). *)
Record AiDiagnosis := {
  a_primaryDiagnosis : string;
  a_differentialDiagnoses : option (list Differential);
  a_treatmentProtocol : jsval;
  a_requiresReferral : option bool;
  a_referralReason : option string;
}.

(** What the environment answers during one request: the NLP service's
    answer ([None] when [axios.post] rejects: timeout, non-2xx, transport
    error), the values of [newId()] and [nowIso()], and whether each
    INSERT fails in the storage medium. *)
Record ServerEnv := {
  nlp : option AiDiagnosis;
  diag_newId : string;
  kb_newId : string;
  now : string;
  diag_fault : bool;
  kb_fault : bool;
}.

Inductive server_call := CallNlp.

Inductive response :=
| Status201 (d : Diagnosis)
| Status400 (message : string) (errors : list issue)
| Status500 (message : string).

(** [patientAge < 18 ? "child" : patientAge < 60 ? "adult" : "senior"] *)
Definition ageGroup_of (age : Q) : string :=
  if Qltb age 18 then "child" else if Qltb age 60 then "adult" else "senior".

(** [aiDiagnosis.differentialDiagnoses?.[0]?.confidence ?? 100] *)
Definition first_confidence (ds : option (list Differential)) : Q :=
  match ds with
  | Some (d :: _) => confidence d
  | _ => 100
  end.

Definition insert_of (v : SymptomAnalysis) (ai : AiDiagnosis) : InsertDiagnosis :=
  {| i_patientId := Schema.patientId v;
     i_symptoms := Some (Schema.symptoms v);
     i_vitalSigns := match Schema.vitalSigns v with Some kvs => VObj kvs | None => VNull end;
     i_primaryDiagnosis := a_primaryDiagnosis ai;
     i_differentialDiagnoses := a_differentialDiagnoses ai;
     i_treatmentProtocol := nullish_or (a_treatmentProtocol ai) VNull;
     i_requiresReferral := Some (default false (a_requiresReferral ai));
     i_referralReason := a_referralReason ai;
     i_language := Some (Schema.language v) |}.

Definition entry_of (v : SymptomAnalysis) (ai : AiDiagnosis) : KnowledgeEntry :=
  {| e_symptoms := Schema.symptoms v;
     e_ageGroup := ageGroup_of (patientAge v);
     e_gender := patientGender v;
     e_diagnosis := a_primaryDiagnosis ai;
     e_confidence := first_confidence (a_differentialDiagnoses ai);
     e_outcome := None |}.

(** The handler: the database after the request, the calls made to the
    NLP service, and the response. *)
Definition diagnose (db : Db) (env : ServerEnv) (body : jsval)
  : Db * list server_call * response :=
  match parse_symptomAnalysis body with
  | inl errors => (db, [], Status400 "Invalid diagnosis data" errors)
  | inr v =>
      match nlp env with
      | None => (db, [CallNlp], Status500 "NLP service unavailable")
      | Some ai =>
          match createDiagnosis db (diag_newId env) (now env) (diag_fault env)
                                (insert_of v ai) with
          | (db1, inl _) => (db1, [CallNlp], Status500 "NLP service unavailable")
          | (db1, inr d) =>
              match addKnowledgeEntry db1 (kb_newId env) (now env) (kb_fault env)
                                      (entry_of v ai) with
              | (db2, inl _) => (db2, [CallNlp], Status500 "NLP service unavailable")
              | (db2, inr _) => (db2, [CallNlp], Status201 d)
              end
          end
      end
  end.

End Routes.

(* ------------------------------------------------------------------ *)
(** ** What the record gateway promises *)

Module GatewaySpec.
Import Storage.

(** The symptoms column as [addKnowledgeEntry] writes it: the JSON text of
    an array of strings. *)
Definition kb_row_wf (r : KbRow) : Prop :=
  exists xs, k_symptoms r = Some (str_array_json xs).

(** The stored symptom list of a knowledge-base row. *)
Definition stored_symptom_list (r : KbRow) : list string :=
  match k_symptoms r with
  | Some (JArr xs) => flat_map (fun j => match j with JStr s => [s] | _ => [] end) xs
  | _ => []
  end.

(** Two symptom lists share at least one element. *)
Definition shares_element (xs ys : list string) : bool :=
  existsb (fun s => existsb (String.eqb s) ys) xs.

(** The entries [searchKnowledge] must return, from the spec: ageGroup
    equal to the query's, gender equal to the query's or "other", and a
    symptom in common with the query. *)
Definition kb_entry_matches (qsymptoms : list string) (qageGroup qgender : string)
  (r : KbRow) : bool :=
  String.eqb (k_ageGroup r) qageGroup &&
  (String.eqb (k_gender r) qgender || String.eqb (k_gender r) "other") &&
  shares_element qsymptoms (stored_symptom_list r).

(** The databases the gateway's writes can build from an empty one. *)
Inductive reachable : Db -> Prop :=
| reachable_empty : reachable empty_db
| reachable_patient db n t f name age g w :
    reachable db -> reachable (fst (createPatient db n t f name age g w))
| reachable_diagnosis db n t f ins :
    reachable db -> reachable (fst (createDiagnosis db n t f ins))
| reachable_knowledge db n t f e :
    reachable db -> reachable (fst (addKnowledgeEntry db n t f e)).

(** The diagnoses the three read operations hand out. *)
Definition read_diagnosis (db : Db) (d : Diagnosis) : Prop :=
  In d (getAllDiagnoses db) \/
  (exists key, getDiagnosis db key = Some d) \/
  (exists pid, In d (getDiagnosesByPatient db pid)).

Definition is_array (v : jsval) : Prop := exists xs, v = VArr xs.

End GatewaySpec.

(* ------------------------------------------------------------------ *)
(** ** Client: the snapshot store [offlineCache] of lib/offline.ts *)

Module OfflineCache.

Definition PATIENTS := "medassist-cache-patients".
Definition DIAGNOSES := "medassist-cache-diagnoses".
Definition LAST_SYNC := "medassist-last-sync".

(** A [localStorage] value: the text [JSON.stringify] wrote (kept as its
    JSON tree), or the ISO timestamp text, which is not JSON. *)
Inductive stored :=
| JsonText (j : json)
| IsoText (s : string).

Abbreviation local_storage := (gmap string stored).

Inductive collection := Patients | Diagnoses.

Definition key_of (c : collection) : string :=
  match c with Patients => PATIENTS | Diagnoses => DIAGNOSES end.

(** [savePatients(items)] / [saveDiagnoses(items)]: [accepted] is false
    when the first [setItem] throws (quota exceeded); the error is logged
    and nothing is written. *)
Definition save (c : collection) (ls : local_storage) (items : list jsval)
  (now : string) (accepted : bool) : local_storage :=
  match stringify (VArr items) with
  | Some j =>
      if accepted then <[LAST_SYNC := IsoText now]> (<[key_of c := JsonText j]> ls)
      else ls
  | None => ls
  end.

(** [getPatients()] / [getDiagnoses()]: [cached ? JSON.parse(cached) : null];
    a text that is not JSON makes [JSON.parse] throw, and the catch returns
    [null]. *)
Definition get (c : collection) (ls : local_storage) : jsval :=
  match ls !! key_of c with
  | Some (JsonText j) => parse j
  | Some (IsoText _) => VNull
  | None => VNull
  end.

(** [getLastSync()] *)
Definition getLastSync (ls : local_storage) : jsval :=
  match ls !! LAST_SYNC with
  | Some (IsoText s) => if String.eqb s "" then VNull else VDate s
  | Some (JsonText _) => VNull
  | None => VNull
  end.

(** [clearAll()] *)
Definition clearAll (ls : local_storage) : local_storage :=
  foldr delete ls [PATIENTS; DIAGNOSES; LAST_SYNC].

(** Values that survive a JSON round trip unchanged: no [undefined] and no
    [Date] anywhere inside. *)
Fixpoint plain (v : jsval) : bool :=
  match v with
  | VUndefined | VDate _ => false
  | VNull | VBool _ | VNum _ | VStr _ => true
  | VArr xs => forallb plain xs
  | VObj kvs => forallb (fun '(_, x) => plain x) kvs
  end.

(** What [JSON.parse(JSON.stringify(v))] gives back for a value that has a
    JSON text: a [Date] becomes its ISO string, an [undefined] array slot
    becomes [null], and an object key holding [undefined] is dropped. *)
Fixpoint json_norm (v : jsval) : jsval :=
  match v with
  | VDate iso => VStr iso
  | VArr xs =>
      VArr ((fix go (l : list jsval) : list jsval :=
               match l with
               | [] => []
               | VUndefined :: l' => VNull :: go l'
               | x :: l' => json_norm x :: go l'
               end) xs)
  | VObj kvs =>
      VObj ((fix go (l : list (string * jsval)) : list (string * jsval) :=
               match l with
               | [] => []
               | (_, VUndefined) :: l' => go l'
               | (k, x) :: l' => (k, json_norm x) :: go l'
               end) kvs)
  | _ => v
  end.

End OfflineCache.

(* ------------------------------------------------------------------ *)
(** ** Sample values used by the concrete runs below *)

Module Samples.
Import Schema Storage Routes.

Definition patient_p1 : PatientRow :=
  {| p_id := "p1"; p_name := "A"; p_age := 30; p_gender := "male"; p_weight := None;
     p_contactNumber := None; p_address := None;
     p_createdAt := "2024-01-01T00:00:00.000Z" |}.

Definition db_p1 : Db :=
  {| patients := [patient_p1]; diagnoses := []; knowledge_base := [] |}.

Definition ai_flu : AiDiagnosis :=
  {| a_primaryDiagnosis := "Influenza";
     a_differentialDiagnoses :=
       Some [{| condition := "Influenza"; confidence := 80; reasoning := "fever" |}];
     a_treatmentProtocol := VUndefined;
     a_requiresReferral := None;
     a_referralReason := None |}.

Definition env_flu (kb_write_fails : bool) : ServerEnv :=
  {| nlp := Some ai_flu; diag_newId := "d1"; kb_newId := "k1";
     now := "2024-01-02T10:00:00.000Z"; diag_fault := false;
     kb_fault := kb_write_fails |}.

Definition body_of (age : Q) (symptom_list : list jsval) : jsval :=
  VObj [("patientId", VStr "p1"); ("symptoms", VArr symptom_list);
        ("patientAge", VNum age); ("patientGender", VStr "male")].

Definition kb_row (key : string) (syms : list string) (ag g : string) (conf : Q) : KbRow :=
  {| k_id := key; k_symptoms := Some (str_array_json syms); k_ageGroup := ag;
     k_gender := g; k_diagnosis := "Influenza"; k_confidence := conf; k_outcome := None;
     k_createdAt := "2024-01-02T10:00:00.000Z" |}.

(** A knowledge base for the spec's query [(["fever"], "adult", "male")]. *)
Definition db_kb : Db :=
  {| patients := []; diagnoses := [];
     knowledge_base := [kb_row "k1" ["cough"; "fever"] "adult" "male" 70;
                        kb_row "k2" ["fever"] "adult" "other" 90;
                        kb_row "k3" ["fever"] "senior" "male" 50;
                        kb_row "k4" ["fever"] "adult" "female" 60;
                        kb_row "k5" ["cough"] "adult" "male" 95] |}.

End Samples.

(* ------------------------------------------------------------------ *)
(** ** Server: patients (shared/schema.ts, server/storage.ts, server/routes.ts) *)

Module Patients.
Import Schema Storage.

(** The output type of [insertPatientSchema].  [contactNumber] and
    [address] are nullable and optional; the code only reads them through
    [?? null], so [undefined] and [null] are both [None]. *)
Record InsertPatient := {
  ip_name : string;
  ip_age : Q;
  ip_gender : string;
  ip_weight : option Q;
  ip_contactNumber : option string;
  ip_address : option string;
}.

(** [z.string().min(1, "Name is required")] *)
Definition z_name (v : jsval) : list issue + string :=
  match z_string ["name"] v with
  | inl is => inl is
  | inr s => if (String.length s =? 0)%nat then inl [(["name"], "Name is required")] else inr s
  end.

(** [z.number().min(lo).max(hi)]: both checks run on a number. *)
Definition z_number_min_max (path : list string) (lo : Q) (lo_text : string)
  (hi : Q) (hi_text : string) (v : jsval) : list issue + Q :=
  match z_number path v with
  | inl is => inl is
  | inr q =>
      match (if Qltb q lo
             then [(path, String.append "Number must be greater than or equal to " lo_text)]
             else [])
            ++ (if Qltb hi q
                then [(path, String.append "Number must be less than or equal to " hi_text)]
                else []) with
      | [] => inr q
      | is => inl is
      end
  end.

(** [z.enum(["male", "female", "other"])] *)
Definition z_gender (v : jsval) : list issue + string :=
  match v with
  | VStr s =>
      if existsb (String.eqb s) ["male"; "female"; "other"] then inr s
      else inl [(["gender"], String.append "Invalid enum value. Expected 'male' | 'female' | 'other', received '" (String.append s "'"))]
  | VUndefined => inl [(["gender"], "Required")]
  | _ => inl [(["gender"], String.append "Expected 'male' | 'female' | 'other', received " (typeof v))]
  end.

(** A nullable TEXT column in [createInsertSchema]:
    [z.string().nullable().optional()]. *)
Definition z_nullish_string (path : list string) (v : jsval) : list issue + option string :=
  match v with
  | VUndefined | VNull => inr None
  | _ => match z_string path v with inl is => inl is | inr s => inr (Some s) end
  end.

(** [insertPatientSchema.parse(body)]: [createInsertSchema(patients)]
    without [id] and [createdAt], with [name], [age], [gender] and [weight]
    replaced by [.extend]; the keys keep the table's order. *)
Definition parse_insertPatient (body : jsval) : list issue + InsertPatient :=
  match body with
  | VObj kvs =>
      let nm := z_name (get_prop kvs "name") in
      let ag := z_number_min_max ["age"] 0 "0" 150 "150" (get_prop kvs "age") in
      let gd := z_gender (get_prop kvs "gender") in
      let wt := z_optional (z_number_min_max ["weight"] 1 "1" 300 "300")
                           (get_prop kvs "weight") in
      let cn := z_nullish_string ["contactNumber"] (get_prop kvs "contactNumber") in
      let ad := z_nullish_string ["address"] (get_prop kvs "address") in
      match nm, ag, gd, wt, cn, ad with
      | inr a, inr b, inr c, inr d, inr e, inr f =>
          inr {| ip_name := a; ip_age := b; ip_gender := c; ip_weight := d;
                 ip_contactNumber := e; ip_address := f |}
      | _, _, _, _, _, _ =>
          inl (errors_of nm ++ errors_of ag ++ errors_of gd ++ errors_of wt
               ++ errors_of cn ++ errors_of ad)
      end
  | _ => inl [([], String.append "Expected object, received " (typeof body))]
  end.

(** The [Patient] objects the storage hands out. *)
Record Patient := {
  pt_id : string;
  pt_name : string;
  pt_age : Q;
  pt_gender : string;
  pt_weight : jsval;
  pt_contactNumber : jsval;
  pt_address : jsval;
  pt_createdAt : string;
}.

Definition opt_num (o : option Q) : jsval :=
  match o with Some q => VNum q | None => VNull end.

(** [rowToPatient] *)
Definition rowToPatient (row : PatientRow) : Patient :=
  {| pt_id := p_id row;
     pt_name := p_name row;
     pt_age := p_age row;
     pt_gender := p_gender row;
     pt_weight := opt_num (p_weight row);
     pt_contactNumber := opt_str (p_contactNumber row);
     pt_address := opt_str (p_address row);
     pt_createdAt := p_createdAt row |}.

(** A [Patient] as a JavaScript object; [createdAt] is a [Date]. *)
Definition patient_val (p : Patient) : jsval :=
  VObj [("id", VStr (pt_id p)); ("name", VStr (pt_name p)); ("age", VNum (pt_age p));
        ("gender", VStr (pt_gender p)); ("weight", pt_weight p);
        ("contactNumber", pt_contactNumber p); ("address", pt_address p);
        ("createdAt", VDate (pt_createdAt p))].

Definition getPatient (db : Db) (key : string) : option Patient :=
  match find (fun r => String.eqb (p_id r) key) (patients db) with
  | Some r => Some (rowToPatient r)
  | None => None
  end.

(** [ORDER BY datetime(createdAt) DESC] on [patients] *)
Definition by_patient_createdAt_desc (a b : PatientRow) : bool :=
  String.ltb (datetime (p_createdAt b)) (datetime (p_createdAt a)).

Definition getAllPatients (db : Db) : list Patient :=
  map rowToPatient (sort_by by_patient_createdAt_desc (patients db)).

(** [createPatient(insertPatient)], with [newId()] and [nowIso()] given. *)
Definition createPatient (db : Db) (newId now : string) (fault : bool)
  (ins : InsertPatient) : Db * (sql_error + Patient) :=
  let row := {| p_id := newId; p_name := ip_name ins; p_age := ip_age ins;
                p_gender := ip_gender ins; p_weight := ip_weight ins;
                p_contactNumber := ip_contactNumber ins; p_address := ip_address ins;
                p_createdAt := now |} in
  if fault then (db, inl SqliteIoErr)
  else if existsb (fun p => String.eqb (p_id p) newId) (patients db)
  then (db, inl SqliteConstraintPrimaryKey)
  else ({| patients := patients db ++ [row]; diagnoses := diagnoses db;
           knowledge_base := knowledge_base db |},
        inr {| pt_id := newId;
               pt_name := ip_name ins;
               pt_age := ip_age ins;
               pt_gender := ip_gender ins;
               pt_weight := opt_num (ip_weight ins);
               pt_contactNumber := opt_str (ip_contactNumber ins);
               pt_address := opt_str (ip_address ins);
               pt_createdAt := now |}).

Inductive patient_response :=
| PStatus200 (p : Patient)
| PStatus201 (p : Patient)
| PStatus404 (message : string)
| PStatus400 (message : string) (errors : list issue)
| PStatus500 (message : string).

(** [POST /api/patients] *)
Definition post_patients (db : Db) (newId now : string) (fault : bool) (body : jsval)
  : Db * patient_response :=
  match parse_insertPatient body with
  | inl errors => (db, PStatus400 "Invalid patient data" errors)
  | inr ins =>
      match createPatient db newId now fault ins with
      | (db1, inl _) => (db1, PStatus500 "Failed to create patient")
      | (db1, inr p) => (db1, PStatus201 p)
      end
  end.

(** [GET /api/patients/:id] *)
Definition get_patient (db : Db) (key : string) : patient_response :=
  match getPatient db key with
  | None => PStatus404 "Patient not found"
  | Some p => PStatus200 p
  end.

End Patients.

(** [GET /api/diagnoses/:id] *)
Module DiagnosisRoutes.
Import Storage.

Inductive diagnosis_response :=
| DStatus200 (d : Diagnosis)
| DStatus404 (message : string).

Definition get_diagnosis (db : Db) (key : string) : diagnosis_response :=
  match getDiagnosis db key with
  | None => DStatus404 "Diagnosis not found"
  | Some d => DStatus200 d
  end.

End DiagnosisRoutes.

(** [drugInteractionSchema] and [POST /api/drug-interactions]. *)
Module DrugRoutes.
Import Schema.

(** [z.array(z.string()).min(1)] on [medications]: the length check comes
    first, with zod's default message, then the elements are checked. *)
Definition z_medications (v : jsval) : list issue + list string :=
  match v with
  | VArr xs =>
      let len_issues :=
        if (length xs <? 1)%nat
        then [(["medications"], "Array must contain at least 1 element(s)")] else [] in
      let '(el_issues, ss) := index_strings 0 xs ["medications"] in
      match len_issues ++ el_issues with
      | [] => inr ss
      | is => inl is
      end
  | _ => inl [type_issue ["medications"] "array" v]
  end.

(** The output type of [drugInteractionSchema]. *)
Record DrugInteraction := {
  medications : list string;
  patientAge : Q;
  patientWeight : option Q;
}.

(** [drugInteractionSchema.parse(body)] *)
Definition parse_drugInteraction (body : jsval) : list issue + DrugInteraction :=
  match body with
  | VObj kvs =>
      let md := z_medications (get_prop kvs "medications") in
      let ag := z_number ["patientAge"] (get_prop kvs "patientAge") in
      let wt := z_optional (z_number ["patientWeight"]) (get_prop kvs "patientWeight") in
      match md, ag, wt with
      | inr a, inr b, inr c => inr {| medications := a; patientAge := b; patientWeight := c |}
      | _, _, _ => inl (errors_of md ++ errors_of ag ++ errors_of wt)
      end
  | _ => inl [([], String.append "Expected object, received " (typeof body))]
  end.

(** A [DrugInteraction] as a JavaScript object; an absent weight is not set. *)
Definition drugInteraction_val (d : DrugInteraction) : jsval :=
  VObj [("medications", VArr (map VStr (medications d)));
        ("patientAge", VNum (patientAge d));
        ("patientWeight", match patientWeight d with Some w => VNum w | None => VUndefined end)].

Inductive drug_response :=
| DIStatus200 (message : string) (receivedPayload : DrugInteraction)
| DIStatus400 (message : string) (errors : list issue).

Definition drug_ok_message : string :=
  "Drug interaction API hit successfully. NLP not connected yet.".

(** [POST /api/drug-interactions]: the only exception the body can raise
    is the [ZodError] of [parse]. *)
Definition post_drug_interactions (body : jsval) : drug_response :=
  match parse_drugInteraction body with
  | inl errors => DIStatus400 "Invalid request data" errors
  | inr validatedData => DIStatus200 drug_ok_message validatedData
  end.

End DrugRoutes.

(** [POST /api/knowledge/search]. *)
Module KnowledgeRoutes.
Import Storage.

Inductive search_response :=
| KStatus200 (results : list KnowledgeBase)
| KStatus400 (message : string)
| KStatus500 (message : string).

Definition Array_isArray (v : jsval) : bool :=
  match v with VArr _ => true | _ => false end.

Definition array_length (v : jsval) : nat :=
  match v with VArr xs => length xs | _ => 0 end.

Section KnowledgeSearch.

(** [storage.searchKnowledge(symptoms, ageGroup, gender)] on the values
    read from the body, whatever their types; [None] when it throws. *)
Variable searchKnowledge_call : jsval -> jsval -> jsval -> option (list KnowledgeBase).

Definition post_knowledge_search (body : jsval) : search_response :=
  let symptoms := prop body "symptoms" in
  let ageGroup := prop body "ageGroup" in
  let gender := prop body "gender" in
  if negb (truthy symptoms) || negb (Array_isArray symptoms) || (array_length symptoms =? 0)%nat
  then KStatus400 "Symptoms are required"
  else match searchKnowledge_call symptoms ageGroup gender with
       | None => KStatus500 "Failed to search knowledge base"
       | Some results => KStatus200 results
       end.

End KnowledgeSearch.

End KnowledgeRoutes.

(* ------------------------------------------------------------------ *)
(** ** Client: the pages that use the resolver and the cache *)

Module Pages.
Import OfflineCache.

(** A non-empty text input is truthy. *)
Definition nonempty (s : string) : bool := negb (String.eqb s "").

(** [handleSymptomToggle(symptom)], applied to the previous selection. *)
Definition handleSymptomToggle (prev : list string) (symptom : string) : list string :=
  if existsb (String.eqb symptom) prev
  then List.filter (fun s => negb (String.eqb s symptom)) prev
  else prev ++ [symptom].

(** [[...v]]: an array spreads into its elements, a string into its
    characters; any other value is not iterable (a TypeError). *)
Definition spread (v : jsval) : option (list jsval) :=
  match v with
  | VArr xs => Some xs
  | VStr s => Some (map (fun c => VStr (String c EmptyString)) (String.list_ascii_of_string s))
  | _ => None
  end.

(** [analyzeMutation.onSuccess(data)]: the cache after it and the toast's
    description ([None] when spreading the cached value throws). *)
Definition onSuccess (ls : local_storage) (data : jsval) (now : string) (accepted : bool)
  : option (local_storage * string) :=
  let cached := get Diagnoses ls in
  let cachedDiagnoses := if truthy cached then cached else VArr [] in
  match spread cachedDiagnoses with
  | None => None
  | Some xs =>
      Some (save Diagnoses ls (xs ++ [data]) now accepted,
            if truthy data &&
               match prop data "mode" with VStr m => String.eqb m "offline" | _ => false end
            then "Diagnosis completed in offline mode"
            else "Diagnosis completed successfully")
  end.

(** The vital-sign text inputs of the diagnosis page. *)
Record VitalInputs := {
  temperature : string;
  bloodPressure : string;
  heartRate : string;
  respiratoryRate : string;
  oxygenSaturation : string;
}.

(** The fields of the add-patient form. *)
Record NewPatientForm := {
  f_name : string;
  f_age : string;
  f_gender : string;
  f_weight : string;
  f_contactNumber : string;
  f_address : string;
}.

Section Forms.

(** [parseFloat] and [parseInt] of the JavaScript runtime. *)
Variables parseFloat parseInt : string -> jsval.

(** [vitalSignsData] as [handleAnalyze] fills it. *)
Definition vitalSignsData (v : VitalInputs) : list (string * jsval) :=
  (if nonempty (temperature v) then [("temperature", parseFloat (temperature v))] else [])
  ++ (if nonempty (bloodPressure v) then [("bloodPressure", VStr (bloodPressure v))] else [])
  ++ (if nonempty (heartRate v) then [("heartRate", parseInt (heartRate v))] else [])
  ++ (if nonempty (respiratoryRate v)
      then [("respiratoryRate", parseInt (respiratoryRate v))] else [])
  ++ (if nonempty (oxygenSaturation v)
      then [("oxygenSaturation", parseFloat (oxygenSaturation v))] else []).

(** [handleAnalyze()]: the data passed to [analyzeMutation.mutate], or
    [None] when the error toast is shown instead.  [selectedPatient] is
    the selected patient object or [null]. *)
Definition handleAnalyze (selectedPatient : jsval) (selectedSymptoms : list string)
  (vitals : VitalInputs) (language : string) : option jsval :=
  if negb (truthy selectedPatient) || (length selectedSymptoms =? 0)%nat then None
  else
    let data := vitalSignsData vitals in
    Some (VObj [("patientId", prop selectedPatient "id");
                ("symptoms", VArr (map VStr selectedSymptoms));
                ("vitalSigns", if (0 <? length data)%nat then VObj data else VUndefined);
                ("patientAge", prop selectedPatient "age");
                ("patientGender", prop selectedPatient "gender");
                ("patientWeight", prop selectedPatient "weight");
                ("language", VStr language)]).

(** [handleAddPatient()] of the patients page: the data passed to
    [addPatientMutation.mutate], or [None] when the error toast is shown. *)
Definition handleAddPatient (np : NewPatientForm) : option jsval :=
  if negb (nonempty (f_name np)) || negb (nonempty (f_age np)) then None
  else Some (VObj [("name", VStr (f_name np));
                   ("age", parseInt (f_age np));
                   ("gender", VStr (f_gender np));
                   ("weight", if nonempty (f_weight np) then parseInt (f_weight np)
                              else VUndefined);
                   ("contactNumber", if nonempty (f_contactNumber np)
                                     then VStr (f_contactNumber np) else VUndefined);
                   ("address", if nonempty (f_address np)
                               then VStr (f_address np) else VUndefined)]).

End Forms.

Section History.

(** [new Date(value).getTime()] of the JavaScript runtime; [None] for an
    invalid date (NaN). *)
Variable date_getTime : jsval -> option Z.

(** [parseCreatedAt(value)] of the history page. *)
Definition parseCreatedAt (value : jsval) : option Z :=
  if negb (truthy value) then None else date_getTime value.

(** The comparator of [sortedDiagnoses]. *)
Definition history_cmp (a b : jsval) : Z :=
  match parseCreatedAt (prop a "createdAt"), parseCreatedAt (prop b "createdAt") with
  | None, None => 0
  | None, Some _ => 1
  | Some _, None => -1
  | Some ta, Some tb => tb - ta
  end.

(** [[...diagnoses].sort(...)]: [a] goes strictly before [b] when the
    comparator is negative. *)
Definition sortedDiagnoses (diagnoses : list jsval) : list jsval :=
  sort_by (fun a b => Z.ltb (history_cmp a b) 0) diagnoses.

End History.

End Pages.

Module StoreSpec.
Import OfflineCache.

(** Values [createDiagnosis] stores and reads back unchanged: [null],
    [undefined], or a truthy JSON-plain value. *)
Definition stored_as_is (v : jsval) : Prop :=
  v = VUndefined \/ v = VNull \/ (truthy v = true /\ plain v = true).

(** A stored patient row that satisfies [insertPatientSchema]. *)
Definition patient_row_valid (r : Storage.PatientRow) : Prop :=
  (0 < String.length (Storage.p_name r))%nat /\
  (0 <= Storage.p_age r <= 150)%Q /\
  In (Storage.p_gender r) ["male"; "female"; "other"] /\
  match Storage.p_weight r with None => True | Some w => (1 <= w <= 300)%Q end.

(** The databases the storage layer's writes can build from an empty one,
    with [createPatient] as it stores every column. *)
Inductive reachable_db : Storage.Db -> Prop :=
| rdb_empty : reachable_db Storage.empty_db
| rdb_patient db n t f ins :
    reachable_db db -> reachable_db (fst (Patients.createPatient db n t f ins))
| rdb_diagnosis db n t f ins :
    reachable_db db -> reachable_db (fst (Storage.createDiagnosis db n t f ins))
| rdb_knowledge db n t f e :
    reachable_db db -> reachable_db (fst (Storage.addKnowledgeEntry db n t f e)).

(** Primary keys are unique in the three tables and every diagnosis
    refers to a stored patient. *)
Definition db_integrity (db : Storage.Db) : Prop :=
  List.NoDup (map Storage.p_id (Storage.patients db)) /\
  List.NoDup (map Storage.d_id (Storage.diagnoses db)) /\
  List.NoDup (map Storage.k_id (Storage.knowledge_base db)) /\
  (forall r, In r (Storage.diagnoses db) ->
     exists p, In p (Storage.patients db) /\ Storage.p_id p = Storage.d_patientId r).

End StoreSpec.

Module ClientSpec.
Import Pages.

(** The order of the history page: entries with a valid [createdAt] come
    newest first, entries without one come last. *)
Definition history_before (date_getTime : jsval -> option Z) (a b : jsval) : Prop :=
  match parseCreatedAt date_getTime (prop a "createdAt"),
        parseCreatedAt date_getTime (prop b "createdAt") with
  | Some ta, Some tb => (tb <= ta)%Z
  | Some _, None => True
  | None, None => True
  | None, Some _ => False
  end.

End ClientSpec.

(* ================================================================== *)
(** * Theorems *)

Module ResolverProofs.
Import Client ClientFacts.

Lemma diagnoseOffline_unreachable (input : jsval) (o : http_outcome) (tr : list call) :
  fallback_unreachable o ->
  diagnoseOffline input o tr = (app tr [CallFallback], inr (offline_sentinel input)).
Proof.
  intros [-> | [[st [b [-> Hst]]] | [st [-> Hst]]]];
    unfold diagnoseOffline, try_catch, bind, record, throw, ret; simpl;
    rewrite ?Hst; reflexivity.
Qed.

Lemma diagnoseOffline_ok (input : jsval) (st : Z) (kvs : list (string * jsval))
      (tr : list call) :
  ok_status st = true ->
  diagnoseOffline input (Response st (Some kvs)) tr
  = (app tr [CallFallback], inr (tag_offline kvs)).
Proof.
  intros Hst. unfold diagnoseOffline, try_catch, bind, record, throw, ret, tag_offline.
  simpl. rewrite Hst. simpl. by destruct (has_prop kvs "mode").
Qed.

Lemma apiRequest_fails (o : http_outcome) (tr : list call) :
  primary_fails o ->
  exists e, apiRequest o tr = (app tr [CallPrimary], inl e).
Proof.
  intros [-> | [[st [b [-> Hst]]] | [st ->]]];
    unfold apiRequest, bind, record, throw, ret; simpl.
  - eauto.
  - rewrite Hst. eauto.
  - destruct (ok_status st); eauto.
Qed.

Lemma apiRequest_ok (st : Z) (kvs : list (string * jsval)) (tr : list call) :
  ok_status st = true ->
  apiRequest (Response st (Some kvs)) tr = (app tr [CallPrimary], inr (VObj kvs)).
Proof. intros Hst. unfold apiRequest, bind, record, ret. simpl. by rewrite Hst. Qed.

Lemma analyze_offline_run (e : env) (data : jsval) :
  isOnline (navigator_onLine e) = false ->
  run_analyze e data = diagnoseOffline data (fallback e) [].
Proof. intros Hoff. unfold run_analyze, analyze. by rewrite Hoff. Qed.

Lemma analyze_primary_fails_run (e : env) (data : jsval) :
  isOnline (navigator_onLine e) = true -> primary_fails (primary e) ->
  run_analyze e data = diagnoseOffline data (fallback e) [CallPrimary].
Proof.
  intros Hon Hp. unfold run_analyze, analyze. rewrite Hon. simpl.
  destruct (apiRequest_fails (primary e) [] Hp) as [ex Hex].
  unfold try_catch. by rewrite Hex.
Qed.

End ResolverProofs.

Module Resolver.
Import Client ClientFacts ResolverProofs.

(** Claim C1 (as amended).  While [isOnline()] holds: when the primary
    call rejects, [analyze] calls the primary once and then the local
    fallback exactly once, and returns the fallback's JSON object as it is,
    with [mode = "offline"] added only when the object has no [mode] key,
    or the offline sentinel when the fallback is unreachable; when the
    primary call succeeds, its result is returned as it is, with no
    provenance tag added, and the fallback is never called. *)
Theorem analyze_online_provenance (e : env) (data : jsval) :
  isOnline (navigator_onLine e) = true ->
  (primary_fails (primary e) ->
     fst (run_analyze e data) = [CallPrimary; CallFallback] /\
     (forall st kvs, fallback e = Response st (Some kvs) -> ok_status st = true ->
        snd (run_analyze e data) = inr (tag_offline kvs)) /\
     (fallback_unreachable (fallback e) ->
        snd (run_analyze e data) = inr (offline_sentinel data))) /\
  (forall st kvs, primary e = Response st (Some kvs) -> ok_status st = true ->
     run_analyze e data = ([CallPrimary], inr (VObj kvs))).
Proof.
  intros Hon. unfold run_analyze, analyze. rewrite Hon. simpl. split.
  - intros Hp. destruct (apiRequest_fails (primary e) [] Hp) as [ex Hex].
    unfold try_catch. rewrite Hex. simpl. split; [|split].
    + destruct (fallback e) as [|st [kvs|]] eqn:Hf.
      * rewrite diagnoseOffline_unreachable; [done | by left].
      * destruct (ok_status st) eqn:Hst.
        -- by rewrite diagnoseOffline_ok.
        -- rewrite diagnoseOffline_unreachable; [done|]. right; left; eauto.
      * rewrite diagnoseOffline_unreachable; [done|].
        destruct (ok_status st) eqn:Hst; [right; right; eauto | right; left; eauto].
    + intros st kvs Hf Hst. rewrite Hf. by rewrite diagnoseOffline_ok.
    + intros Hu. by rewrite diagnoseOffline_unreachable.
  - intros st kvs Hp Hst. unfold try_catch. rewrite Hp, apiRequest_ok; done.
Qed.

Lemma analyze_online_provenance_witness :
  isOnline (navigator_onLine {| navigator_onLine := None;
                                primary := Response 500 None;
                                fallback := Response 200 (Some [("primaryDiagnosis", VStr "Flu")]) |})
  = true /\
  fst (run_analyze {| navigator_onLine := None;
                      primary := Response 500 None;
                      fallback := Response 200 (Some [("primaryDiagnosis", VStr "Flu")]) |}
                   (VObj [])) = [CallPrimary; CallFallback].
Proof.
  split; [reflexivity|].
  apply (analyze_online_provenance
           {| navigator_onLine := None;
              primary := Response 500 None;
              fallback := Response 200 (Some [("primaryDiagnosis", VStr "Flu")]) |}
           (VObj [])); [reflexivity|].
  right; left. exists 500%Z, None. split; reflexivity.
Defined.

(** Claim C1 fails as stated: a successful primary result carries no
    [mode = "online"] tag, and a fallback answer that sets its own [mode]
    (here ["online"]) keeps it, so provenance does not follow the backend. *)
Lemma analyze_provenance_counterexample :
  run_analyze {| navigator_onLine := Some true;
                 primary := Response 201 (Some [("id", VStr "d1")]);
                 fallback := NetworkError |} (VObj [])
  = ([CallPrimary], inr (VObj [("id", VStr "d1")])) /\
  prop (VObj [("id", VStr "d1")]) "mode" <> VStr "online" /\
  run_analyze {| navigator_onLine := Some true;
                 primary := Response 500 None;
                 fallback := Response 200 (Some [("mode", VStr "online")]) |} (VObj [])
  = ([CallPrimary; CallFallback], inr (VObj [("mode", VStr "online")])).
Proof. split; [reflexivity | split; [discriminate | reflexivity]]. Qed.

(** Claim C2.  While [isOnline()] is false, [analyze] never calls the
    primary backend: the only call made is one call to the local fallback,
    and the result is exactly that of [diagnoseOffline]. *)
Theorem analyze_offline_never_calls_primary (e : env) (data : jsval) :
  isOnline (navigator_onLine e) = false ->
  ~ In CallPrimary (fst (run_analyze e data)) /\
  fst (run_analyze e data) = [CallFallback] /\
  run_analyze e data = diagnoseOffline data (fallback e) [].
Proof.
  intros Hoff.
  assert (Hrun : run_analyze e data = diagnoseOffline data (fallback e) []).
  { unfold run_analyze, analyze. by rewrite Hoff. }
  rewrite Hrun.
  assert (Hfst : fst (diagnoseOffline data (fallback e) []) = [CallFallback]).
  { destruct (fallback e) as [|st [kvs|]].
    - rewrite diagnoseOffline_unreachable; [done | by left].
    - destruct (ok_status st) eqn:Hst.
      + by rewrite diagnoseOffline_ok.
      + rewrite diagnoseOffline_unreachable; [done|]. right; left; eauto.
    - destruct (ok_status st) eqn:Hst;
        (rewrite diagnoseOffline_unreachable; [done|]);
        [right; right; eauto | right; left; eauto]. }
  rewrite Hfst. split; [|done]. intros [H|H]; [discriminate | done].
Qed.

Lemma analyze_offline_never_calls_primary_witness :
  isOnline (navigator_onLine {| navigator_onLine := Some false;
                                primary := Response 200 (Some []);
                                fallback := Response 200 (Some []) |}) = false /\
  fst (run_analyze {| navigator_onLine := Some false;
                      primary := Response 200 (Some []);
                      fallback := Response 200 (Some []) |} (VObj []))
  = [CallFallback].
Proof.
  split; [reflexivity|].
  apply (analyze_offline_never_calls_primary
           {| navigator_onLine := Some false;
              primary := Response 200 (Some []);
              fallback := Response 200 (Some []) |} (VObj [])).
  reflexivity.
Defined.

(** Claim C3.  Whenever [analyze] goes to the local fallback (offline, or
    online after the primary call failed) and the fallback is unreachable,
    [analyze] still resolves (no exception) with the degraded result: a
    non-empty "service unavailable" primaryDiagnosis, an empty differential
    list, requiresReferral = false and a fixed referralReason. *)
Theorem analyze_degraded_when_fallback_unreachable (e : env) (data : jsval) :
  (isOnline (navigator_onLine e) = false \/ primary_fails (primary e)) ->
  fallback_unreachable (fallback e) ->
  exists r, snd (run_analyze e data) = inr r /\
    r = offline_sentinel data /\
    prop r "primaryDiagnosis" = VStr "Offline diagnosis service unavailable" /\
    truthy (prop r "primaryDiagnosis") = true /\
    prop r "differentialDiagnoses" = VArr [] /\
    prop r "requiresReferral" = VBool false /\
    prop r "referralReason" = VStr "Error in local NLP service".
Proof.
  intros Hroute Hu. exists (offline_sentinel data).
  split; [|repeat split; reflexivity].
  destruct (isOnline (navigator_onLine e)) eqn:Hon.
  - destruct Hroute as [Hc | Hp]; [discriminate|].
    rewrite (analyze_primary_fails_run e data Hon Hp).
    by rewrite diagnoseOffline_unreachable.
  - rewrite (analyze_offline_run e data Hon).
    by rewrite diagnoseOffline_unreachable.
Qed.

Lemma analyze_degraded_when_fallback_unreachable_witness :
  exists r, snd (run_analyze {| navigator_onLine := Some true;
                                primary := Response 500 None;
                                fallback := NetworkError |}
                             (VObj [("patientId", VStr "p1")])) = inr r /\
    prop r "primaryDiagnosis" = VStr "Offline diagnosis service unavailable".
Proof.
  destruct (analyze_degraded_when_fallback_unreachable
              {| navigator_onLine := Some true;
                 primary := Response 500 None;
                 fallback := NetworkError |}
              (VObj [("patientId", VStr "p1")]))
    as [r [H1 [_ [H2 _]]]].
  - right. right; left. exists 500%Z, None. split; reflexivity.
  - left. reflexivity.
  - exists r. split; assumption.
Defined.

End Resolver.

Module GatewayProofs.
Import Schema Storage Routes.

Lemma existsb_patient_iff (ps : list PatientRow) (pid : string) :
  existsb (fun p => String.eqb (p_id p) pid) ps = true <->
  exists p, In p ps /\ p_id p = pid.
Proof.
  rewrite existsb_exists. split; intros [p [Hin Heq]]; exists p; split; auto.
  - by apply String.eqb_eq.
  - by apply String.eqb_eq.
Qed.

Lemma existsb_diag_iff (rs : list DiagRow) (key : string) :
  existsb (fun r => String.eqb (d_id r) key) rs = true <->
  exists r, In r rs /\ d_id r = key.
Proof.
  rewrite existsb_exists. split; intros [r [Hin Heq]]; exists r; split; auto.
  - by apply String.eqb_eq.
  - by apply String.eqb_eq.
Qed.

Lemma existsb_kb_iff (rs : list KbRow) (key : string) :
  existsb (fun r => String.eqb (k_id r) key) rs = true <->
  exists r, In r rs /\ k_id r = key.
Proof.
  rewrite existsb_exists. split; intros [r [Hin Heq]]; exists r; split; auto.
  - by apply String.eqb_eq.
  - by apply String.eqb_eq.
Qed.

Lemma Qltb_iff (a b : Q) : Qltb a b = true <-> (a < b)%Q.
Proof.
  unfold Qltb. destruct (Qle_bool b a) eqn:E; simpl.
  - apply Qle_bool_iff in E. split; [discriminate | intros H; lra].
  - split; [intros _ | done].
    apply Qnot_le_lt. intros H. apply Qle_bool_iff in H. congruence.
Qed.

Lemma Qltb_false (a b : Q) : Qltb a b = false <-> (b <= a)%Q.
Proof.
  destruct (Qltb a b) eqn:E.
  - apply Qltb_iff in E. split; [discriminate | intros H; lra].
  - split; [intros _ | done]. apply Qnot_lt_le. intros H.
    apply Qltb_iff in H. congruence.
Qed.

(** A failed [addKnowledgeEntry] writes nothing. *)
Lemma addKnowledgeEntry_error_db (db : Db) (n t : string) (f : bool) (e : KnowledgeEntry)
      (err : sql_error) :
  snd (addKnowledgeEntry db n t f e) = inl err -> fst (addKnowledgeEntry db n t f e) = db.
Proof.
  unfold addKnowledgeEntry. destruct f; [done|].
  destruct (existsb _ _); simpl; [done | discriminate].
Qed.

(** [createDiagnosis] leaves the knowledge base and the patients alone. *)
Lemma createDiagnosis_other_tables (db : Db) (n t : string) (f : bool) (ins : InsertDiagnosis) :
  knowledge_base (fst (createDiagnosis db n t f ins)) = knowledge_base db /\
  patients (fst (createDiagnosis db n t f ins)) = patients db.
Proof.
  unfold createDiagnosis. destruct f; [done|].
  destruct (existsb _ (diagnoses db)); [done|].
  destruct (negb _); done.
Qed.

Lemma createDiagnosis_rows (db : Db) (n t : string) (f : bool) (ins : InsertDiagnosis) :
  diagnoses (fst (createDiagnosis db n t f ins)) = diagnoses db \/
  exists row, diagnoses (fst (createDiagnosis db n t f ins)) = diagnoses db ++ [row] /\
    d_symptoms row = Some (str_array_json (default [] (i_symptoms ins))) /\
    d_differentialDiagnoses row =
      match i_differentialDiagnoses ins with
      | Some ds => Some (JArr (map differential_json ds))
      | None => None
      end.
Proof.
  unfold createDiagnosis. destruct f; [by left|].
  destruct (existsb _ (diagnoses db)); [by left|].
  destruct (negb _); [by left|]. right. eexists. split; [reflexivity|]. split; reflexivity.
Qed.

Lemma createDiagnosis_success (db db1 : Db) (n t : string) (f : bool) (ins : InsertDiagnosis)
      (d : Diagnosis) :
  createDiagnosis db n t f ins = (db1, inr d) ->
  exists row, diagnoses db1 = diagnoses db ++ [row] /\ d_id row = n /\ id d = n /\
    patients db1 = patients db /\ knowledge_base db1 = knowledge_base db.
Proof.
  unfold createDiagnosis. destruct f; [discriminate|].
  destruct (existsb _ (diagnoses db)); [discriminate|].
  destruct (negb _); [discriminate|].
  intros H. injection H as <- <-. eexists. repeat split.
Qed.

Lemma find_fresh_app (l : list DiagRow) (row : DiagRow) (key : string) :
  (forall r, In r l -> d_id r <> key) -> d_id row = key ->
  find (fun r => String.eqb (d_id r) key) (l ++ [row]) = Some row.
Proof.
  intros Hfresh Hrow. induction l as [|r l IH]; simpl.
  - by rewrite Hrow, String.eqb_refl.
  - destruct (String.eqb (d_id r) key) eqn:E.
    + apply String.eqb_eq in E. exfalso. apply (Hfresh r); [by left | done].
    + apply IH. intros r' Hin. apply Hfresh. by right.
Qed.

End GatewayProofs.

Module Gateway.
Import Schema Storage Routes Samples GatewayProofs.

(** Claim C9.  [createDiagnosis] for a [patientId] that names no patient
    fails (with the foreign-key error, the spec's ReferenceError, when the
    generated id is fresh and the medium does not fail) and persists
    nothing; for a [patientId] naming an existing patient it appends one
    row carrying the fresh id and the timestamp, and returns the full record,
    which [getDiagnosis] then finds. *)
Theorem createDiagnosis_enforces_patient (db : Db) (newId now : string) (fault : bool)
        (ins : InsertDiagnosis) :
  ((forall p, In p (patients db) -> p_id p <> i_patientId ins) ->
     fst (createDiagnosis db newId now fault ins) = db /\
     (exists err, snd (createDiagnosis db newId now fault ins) = inl err) /\
     (fault = false -> (forall r, In r (diagnoses db) -> d_id r <> newId) ->
        snd (createDiagnosis db newId now fault ins) = inl SqliteConstraintForeignKey)) /\
  ((exists p, In p (patients db) /\ p_id p = i_patientId ins) ->
     fault = false -> (forall r, In r (diagnoses db) -> d_id r <> newId) ->
     exists row d,
       createDiagnosis db newId now fault ins =
         ({| patients := patients db; diagnoses := diagnoses db ++ [row];
             knowledge_base := knowledge_base db |}, inr d) /\
       d_id row = newId /\ d_createdAt row = now /\ d_patientId row = i_patientId ins /\
       id d = newId /\ createdAt d = now /\ patientId d = i_patientId ins /\
       primaryDiagnosis d = i_primaryDiagnosis ins /\
       symptoms d = VArr (map VStr (default [] (i_symptoms ins))) /\
       language d = default "en" (i_language ins) /\
       getDiagnosis {| patients := patients db; diagnoses := diagnoses db ++ [row];
                       knowledge_base := knowledge_base db |} newId
       = Some (rowToDiagnosis row)).
Proof.
  split.
  - intros Hnp.
    assert (Hp : existsb (fun p => String.eqb (p_id p) (i_patientId ins)) (patients db) = false).
    { destruct (existsb _ _) eqn:E; [|done].
      apply existsb_patient_iff in E as [p [Hin Heq]]. by destruct (Hnp p Hin). }
    unfold createDiagnosis. rewrite Hp.
    destruct fault; simpl; [split; [done | split; [eauto | discriminate]]|].
    destruct (existsb _ (diagnoses db)) eqn:Ed; simpl.
    + split; [done | split; [eauto|]]. intros _ Hfresh.
      apply existsb_diag_iff in Ed as [r [Hin Heq]]. by destruct (Hfresh r Hin).
    + split; [done | split; eauto].
  - intros Hp Hf Hfresh.
    apply existsb_patient_iff in Hp.
    assert (Hd : existsb (fun r => String.eqb (d_id r) newId) (diagnoses db) = false).
    { destruct (existsb (fun r => String.eqb (d_id r) newId) (diagnoses db)) eqn:E; [|done].
      apply existsb_diag_iff in E as [r [Hin Heq]]. by destruct (Hfresh r Hin). }
    unfold createDiagnosis. rewrite Hf, Hd, Hp. simpl.
    eexists _, _. split; [reflexivity|].
    do 9 (split; [reflexivity|]).
    unfold getDiagnosis. simpl. rewrite find_fresh_app; [done | exact Hfresh | done].
Qed.

Lemma createDiagnosis_enforces_patient_witness :
  snd (createDiagnosis db_p1 "d1" "2024-01-02T10:00:00.000Z" false
         {| i_patientId := "p9"; i_symptoms := Some ["fever"]; i_vitalSigns := VNull;
            i_primaryDiagnosis := "Influenza"; i_differentialDiagnoses := None;
            i_treatmentProtocol := VNull; i_requiresReferral := None;
            i_referralReason := None; i_language := None |})
  = inl SqliteConstraintForeignKey /\
  exists row d,
    createDiagnosis db_p1 "d1" "2024-01-02T10:00:00.000Z" false
      {| i_patientId := "p1"; i_symptoms := Some ["fever"]; i_vitalSigns := VNull;
         i_primaryDiagnosis := "Influenza"; i_differentialDiagnoses := None;
         i_treatmentProtocol := VNull; i_requiresReferral := None;
         i_referralReason := None; i_language := None |}
    = ({| patients := [patient_p1]; diagnoses := [row]; knowledge_base := [] |}, inr d) /\
    id d = "d1".
Proof.
  split.
  - apply (createDiagnosis_enforces_patient db_p1 "d1" "2024-01-02T10:00:00.000Z" false
             {| i_patientId := "p9"; i_symptoms := Some ["fever"]; i_vitalSigns := VNull;
                i_primaryDiagnosis := "Influenza"; i_differentialDiagnoses := None;
                i_treatmentProtocol := VNull; i_requiresReferral := None;
                i_referralReason := None; i_language := None |}).
    + intros p [<- | []]. simpl. discriminate.
    + reflexivity.
    + intros r [].
  - destruct (proj2 (createDiagnosis_enforces_patient db_p1 "d1" "2024-01-02T10:00:00.000Z" false
             {| i_patientId := "p1"; i_symptoms := Some ["fever"]; i_vitalSigns := VNull;
                i_primaryDiagnosis := "Influenza"; i_differentialDiagnoses := None;
                i_treatmentProtocol := VNull; i_requiresReferral := None;
                i_referralReason := None; i_language := None |}))
      as [row [d [Hc [_ [_ [_ [Hid _]]]]]]].
    + exists patient_p1. split; [left; reflexivity | reflexivity].
    + reflexivity.
    + intros r [].
    + exists row, d. split; [exact Hc | exact Hid].
Defined.

(** Claim C7.  A [POST /api/diagnose] body whose [symptoms] is the empty
    list is refused with status 400 and the zod issue list, which names the
    [symptoms] field; the NLP service is not called and the database is
    left as it was (no diagnosis row, no knowledge-base entry). *)
Theorem diagnose_empty_symptoms_rejected (db : Db) (env : ServerEnv)
        (kvs : list (string * jsval)) :
  get_prop kvs "symptoms" = VArr [] ->
  exists errors,
    diagnose db env (VObj kvs) = (db, [], Status400 "Invalid diagnosis data" errors) /\
    In (["symptoms"], "At least one symptom is required") errors.
Proof.
  intros Hs. unfold diagnose, parse_symptomAnalysis. cbv zeta. rewrite Hs.
  assert (Hz : z_symptoms (VArr []) = inl [(["symptoms"], "At least one symptom is required")])
    by reflexivity.
  rewrite Hz.
  destruct (z_string ["patientId"] _) as [e1|a1];
  destruct (z_optional z_vitalSigns _) as [e3|a3];
  destruct (z_number ["patientAge"] _) as [e4|a4];
  destruct (z_string ["patientGender"] _) as [e5|a5];
  destruct (z_optional (z_number ["patientWeight"]) _) as [e6|a6];
  destruct (z_language _) as [e7|a7];
  (eexists; split; [reflexivity|]);
  simpl; rewrite ?in_app_iff; simpl; tauto.
Qed.

Lemma diagnose_empty_symptoms_rejected_witness :
  get_prop [("patientId", VStr "p1"); ("symptoms", VArr []);
            ("patientAge", VNum 30); ("patientGender", VStr "male")] "symptoms" = VArr [] /\
  exists errors,
    diagnose db_p1 (env_flu false) (body_of 30 [])
    = (db_p1, [], Status400 "Invalid diagnosis data" errors).
Proof.
  split; [reflexivity|].
  destruct (diagnose_empty_symptoms_rejected db_p1 (env_flu false)
              [("patientId", VStr "p1"); ("symptoms", VArr []);
               ("patientAge", VNum 30); ("patientGender", VStr "male")])
    as [errors [H _]]; [reflexivity|].
  exists errors. exact H.
Defined.

(** Claim C5.  When the request validates, the NLP service answers and the
    Diagnosis row is created, and the knowledge-base INSERT goes through
    (fresh id, no failure of the medium), exactly one entry is appended to
    the knowledge base: it carries the request's symptoms and gender, the
    primary diagnosis, ageGroup "child" below 18, "adult" from 18 below 60,
    "senior" from 60, and the first differential's confidence, or 100 when
    the differential list is empty or absent; the response is 201 with the
    stored diagnosis. *)
Theorem diagnose_adds_one_knowledge_entry (db : Db) (env : ServerEnv) (body : jsval)
        (v : SymptomAnalysis) (ai : AiDiagnosis) (db1 : Db) (d : Diagnosis) :
  parse_symptomAnalysis body = inr v ->
  nlp env = Some ai ->
  createDiagnosis db (diag_newId env) (now env) (diag_fault env) (insert_of v ai)
  = (db1, inr d) ->
  kb_fault env = false ->
  (forall r, In r (knowledge_base db) -> k_id r <> kb_newId env) ->
  exists row,
    diagnose db env body
    = ({| patients := patients db1; diagnoses := diagnoses db1;
          knowledge_base := knowledge_base db ++ [row] |}, [CallNlp], Status201 d) /\
    k_symptoms row = Some (str_array_json (Schema.symptoms v)) /\
    k_gender row = patientGender v /\
    k_diagnosis row = a_primaryDiagnosis ai /\
    ((patientAge v < 18)%Q -> k_ageGroup row = "child") /\
    ((18 <= patientAge v)%Q -> (patientAge v < 60)%Q -> k_ageGroup row = "adult") /\
    ((60 <= patientAge v)%Q -> k_ageGroup row = "senior") /\
    (forall x rest, a_differentialDiagnoses ai = Some (x :: rest) ->
       k_confidence row = confidence x) /\
    (a_differentialDiagnoses ai = None \/ a_differentialDiagnoses ai = Some [] ->
       k_confidence row = 100%Q).
Proof.
  intros Hv Hai Hc Hkf Hfresh.
  destruct (createDiagnosis_success _ _ _ _ _ _ _ Hc) as [row0 [_ [_ [_ [_ Hkb]]]]].
  assert (Hk : existsb (fun r => String.eqb (k_id r) (kb_newId env)) (knowledge_base db1) = false).
  { rewrite Hkb. destruct (existsb _ _) eqn:E; [|done].
    apply existsb_kb_iff in E as [r [Hin Heq]]. by destruct (Hfresh r Hin). }
  unfold diagnose. rewrite Hv, Hai, Hc.
  unfold addKnowledgeEntry. rewrite Hkf, Hk. simpl. rewrite Hkb.
  eexists. split; [reflexivity|]. simpl.
  split; [reflexivity|]. split; [reflexivity|]. split; [reflexivity|].
  unfold ageGroup_of.
  split; [|split; [|split; [|split]]].
  - intros H. apply Qltb_iff in H. by rewrite H.
  - intros H1 H2. apply Qltb_iff in H2. apply Qltb_false in H1. by rewrite H1, H2.
  - intros H. assert (H1 : Qltb (patientAge v) 18 = false) by (apply Qltb_false; lra).
    apply Qltb_false in H. by rewrite H1, H.
  - intros x rest Hd. unfold first_confidence. by rewrite Hd.
  - intros [Hd | Hd]; unfold first_confidence; by rewrite Hd.
Qed.

Lemma diagnose_adds_one_knowledge_entry_witness :
  exists row db' d,
    diagnose db_p1 (env_flu false) (body_of 17 [VStr "fever"]) = (db', [CallNlp], Status201 d) /\
    knowledge_base db' = [row] /\ k_ageGroup row = "child" /\ k_confidence row = 80%Q.
Proof.
  destruct (parse_symptomAnalysis (body_of 17 [VStr "fever"])) as [errs|v] eqn:Ev;
    [vm_compute in Ev; discriminate|].
  destruct (createDiagnosis db_p1 (diag_newId (env_flu false)) (now (env_flu false))
              (diag_fault (env_flu false)) (insert_of v ai_flu)) as [db1 [err|d]] eqn:Ec.
  - exfalso. vm_compute in Ev. injection Ev as <-. vm_compute in Ec. discriminate.
  - destruct (diagnose_adds_one_knowledge_entry db_p1 (env_flu false) (body_of 17 [VStr "fever"])
                v ai_flu db1 d Ev eq_refl Ec eq_refl)
      as [row [Hrun [_ [_ [_ [Hchild [_ [_ [Hconf _]]]]]]]]].
    + intros r [].
    + exists row, {| patients := patients db1; diagnoses := diagnoses db1;
                     knowledge_base := knowledge_base db_p1 ++ [row] |}, d.
      split; [exact Hrun|]. split; [reflexivity|]. split.
      * apply Hchild. vm_compute in Ev. injection Ev as <-. reflexivity.
      * rewrite (Hconf _ [] eq_refl). reflexivity.
Defined.

(** Bucket values named by the spec. *)
Example ageGroup_of_thresholds :
  ageGroup_of 17 = "child" /\ ageGroup_of 18 = "adult" /\
  ageGroup_of 59 = "adult" /\ ageGroup_of 60 = "senior".
Proof. repeat split; reflexivity. Qed.

(** Claim C4 (as amended).  When the Diagnosis row has been created but
    [addKnowledgeEntry] fails, the handler answers 500 "NLP service
    unavailable" instead of the stored diagnosis, and the committed
    Diagnosis row stays in the database (no rollback). *)
Theorem diagnose_kb_failure_keeps_diagnosis (db : Db) (env : ServerEnv) (body : jsval)
        (v : SymptomAnalysis) (ai : AiDiagnosis) (db1 : Db) (d : Diagnosis) (err : sql_error) :
  parse_symptomAnalysis body = inr v ->
  nlp env = Some ai ->
  createDiagnosis db (diag_newId env) (now env) (diag_fault env) (insert_of v ai)
  = (db1, inr d) ->
  snd (addKnowledgeEntry db1 (kb_newId env) (now env) (kb_fault env) (entry_of v ai))
  = inl err ->
  diagnose db env body = (db1, [CallNlp], Status500 "NLP service unavailable") /\
  exists row, diagnoses db1 = diagnoses db ++ [row] /\ d_id row = id d.
Proof.
  intros Hv Hai Hc Hk.
  destruct (createDiagnosis_success _ _ _ _ _ _ _ Hc) as [row [Hrows [Hid [Hd _]]]].
  split.
  - unfold diagnose. rewrite Hv, Hai, Hc.
    pose proof (addKnowledgeEntry_error_db _ _ _ _ _ _ Hk) as Hdb.
    destruct (addKnowledgeEntry db1 _ _ _ _) as [db2 r] eqn:E.
    simpl in Hk, Hdb. subst. reflexivity.
  - exists row. split; [exact Hrows | congruence].
Qed.

Lemma diagnose_kb_failure_keeps_diagnosis_witness :
  exists db1,
    diagnose db_p1 (env_flu true) (body_of 30 [VStr "fever"])
    = (db1, [CallNlp], Status500 "NLP service unavailable") /\
    length (diagnoses db1) = 1%nat.
Proof.
  destruct (parse_symptomAnalysis (body_of 30 [VStr "fever"])) as [errs|v] eqn:Ev;
    [vm_compute in Ev; discriminate|].
  destruct (createDiagnosis db_p1 (diag_newId (env_flu true)) (now (env_flu true))
              (diag_fault (env_flu true)) (insert_of v ai_flu)) as [db1 [e|d]] eqn:Ec.
  - exfalso. vm_compute in Ev. injection Ev as <-. vm_compute in Ec. discriminate.
  - destruct (diagnose_kb_failure_keeps_diagnosis db_p1 (env_flu true)
                (body_of 30 [VStr "fever"]) v ai_flu db1 d SqliteIoErr Ev eq_refl Ec)
      as [Hrun [row [Hrows _]]].
    + reflexivity.
    + exists db1. split; [exact Hrun|]. rewrite Hrows. reflexivity.
Defined.

(** Claim C4 fails as stated: with the knowledge-base INSERT failing, the
    handler answers 500 rather than the stored diagnosis (while the new
    Diagnosis row is kept). *)
Lemma diagnose_kb_failure_counterexample :
  exists db1,
    diagnose db_p1 (env_flu true) (body_of 30 [VStr "fever"])
    = (db1, [CallNlp], Status500 "NLP service unavailable") /\
    length (diagnoses db1) = 1%nat /\ knowledge_base db1 = [].
Proof. eexists. split; [reflexivity | split; reflexivity]. Qed.

End Gateway.

Module SearchProofs.
Import Storage GatewaySpec.

Lemma insert_by_perm {A} (lt : A -> A -> bool) (x : A) (l : list A) :
  Permutation (insert_by lt x l) (x :: l).
Proof.
  induction l as [|y l IH]; simpl; [done|].
  destruct (lt y x); [|done].
  etransitivity; [apply perm_skip, IH | apply perm_swap].
Qed.

Lemma sort_by_perm {A} (lt : A -> A -> bool) (l : list A) :
  Permutation (sort_by lt l) l.
Proof.
  induction l as [|x l IH]; simpl; [done|].
  etransitivity; [apply insert_by_perm | by apply perm_skip].
Qed.

Definition conf_desc (a b : KnowledgeBase) : Prop :=
  (kb_confidence b <= kb_confidence a)%Q.

Lemma by_confidence_desc_true (a b : KnowledgeBase) :
  by_confidence_desc a b = true -> conf_desc a b.
Proof.
  unfold by_confidence_desc, conf_desc. intros H. apply GatewayProofs.Qltb_iff in H. lra.
Qed.

Lemma by_confidence_desc_false (a b : KnowledgeBase) :
  by_confidence_desc a b = false -> conf_desc b a.
Proof.
  unfold by_confidence_desc, conf_desc. intros H. apply GatewayProofs.Qltb_false in H. lra.
Qed.

Lemma HdRel_insert (a x : KnowledgeBase) (l : list KnowledgeBase) :
  conf_desc a x -> HdRel conf_desc a l -> HdRel conf_desc a (insert_by by_confidence_desc x l).
Proof.
  intros Hax Hl. destruct l as [|y l]; simpl; [by constructor|].
  destruct (by_confidence_desc y x); constructor; [by inversion Hl | done].
Qed.

Lemma insert_sorted (x : KnowledgeBase) (l : list KnowledgeBase) :
  Sorted conf_desc l -> Sorted conf_desc (insert_by by_confidence_desc x l).
Proof.
  induction l as [|y l IH]; simpl; intros Hs.
  - by repeat constructor.
  - destruct (by_confidence_desc y x) eqn:E.
    + inversion Hs as [|? ? Hl Hhd]; subst. constructor; [by apply IH|].
      apply HdRel_insert; [by apply by_confidence_desc_true | done].
    + constructor; [done|]. constructor. by apply by_confidence_desc_false.
Qed.

Lemma sort_by_sorted (l : list KnowledgeBase) :
  Sorted conf_desc (sort_by by_confidence_desc l).
Proof. induction l as [|x l IH]; simpl; [constructor | by apply insert_sorted]. Qed.

Lemma parse_str_array (xs : list string) : parse (str_array_json xs) = VArr (map VStr xs).
Proof. unfold str_array_json. simpl. f_equal. induction xs; simpl; congruence. Qed.

Lemma some_includes_strings (xs qs : list string) :
  some_includes (VArr (map VStr xs)) qs = Some (shares_element qs xs).
Proof.
  unfold shares_element. induction qs as [|q qs IH]; simpl; [done|].
  assert (Hx : existsb (fun x => match x with VStr s' => String.eqb q s' | _ => false end)
                       (map VStr xs) = existsb (String.eqb q) xs).
  { clear IH. induction xs as [|x xs IHx]; simpl; [done|]. by rewrite IHx. }
  rewrite Hx. destruct (existsb (String.eqb q) xs); [done | exact IH].
Qed.

Lemma stored_symptom_list_wf (r : KbRow) (xs : list string) :
  k_symptoms r = Some (str_array_json xs) -> stored_symptom_list r = xs.
Proof.
  intros H. unfold stored_symptom_list. rewrite H. unfold str_array_json. clear H.
  induction xs as [|x xs IH]; simpl; [done|]. by rewrite IH.
Qed.

Lemma filter_opt_total {A} (f : A -> option bool) (g : A -> bool) (l : list A) :
  (forall x, In x l -> f x = Some (g x)) -> filter_opt f l = Some (List.filter g l).
Proof.
  induction l as [|x l IH]; simpl; intros H; [done|].
  rewrite (H x (or_introl eq_refl)), IH; [by destruct (g x)|].
  intros y Hy. apply H. by right.
Qed.

Lemma filter_filter_andb {A} (p q : A -> bool) (l : list A) :
  List.filter q (List.filter p l) = List.filter (fun x => p x && q x) l.
Proof.
  induction l as [|x l IH]; simpl; [done|].
  destruct (p x); simpl; [destruct (q x); simpl; congruence | exact IH].
Qed.

End SearchProofs.

Module Search.
Import Storage GatewaySpec Samples SearchProofs.

(** Claim C6.  On every knowledge base whose symptom columns hold string
    arrays (as [addKnowledgeEntry] writes them), [searchKnowledge] returns
    exactly the stored entries with the query's ageGroup, the query's
    gender or "other", and a symptom in common with the query, each once,
    ordered by non-increasing confidence. *)
Theorem searchKnowledge_exact_and_sorted (db : Db) (qsymptoms : list string)
        (qageGroup qgender : string) :
  Forall kb_row_wf (knowledge_base db) ->
  exists l,
    searchKnowledge db qsymptoms qageGroup qgender = Some l /\
    Permutation l (map rowToKnowledge
                       (List.filter (kb_entry_matches qsymptoms qageGroup qgender)
                                    (knowledge_base db))) /\
    Sorted (fun a b => (kb_confidence b <= kb_confidence a)%Q) l.
Proof.
  intros Hwf. unfold searchKnowledge.
  rewrite (filter_opt_total _ (fun r => shares_element qsymptoms (stored_symptom_list r))).
  - eexists. split; [reflexivity|]. split.
    + etransitivity; [apply sort_by_perm|].
      apply Permutation_map. rewrite filter_filter_andb. done.
    + apply sort_by_sorted.
  - intros r Hin. apply List.filter_In in Hin as [Hin _].
    rewrite List.Forall_forall in Hwf. destruct (Hwf r Hin) as [xs Hxs].
    rewrite Hxs, parse_str_array, some_includes_strings.
    by rewrite (stored_symptom_list_wf r xs Hxs).
Qed.

Lemma searchKnowledge_exact_and_sorted_witness :
  Forall kb_row_wf (knowledge_base db_kb) /\
  searchKnowledge db_kb ["fever"] "adult" "male"
  = Some [rowToKnowledge (kb_row "k2" ["fever"] "adult" "other" 90);
          rowToKnowledge (kb_row "k1" ["cough"; "fever"] "adult" "male" 70)] /\
  exists l, searchKnowledge db_kb ["fever"] "adult" "male" = Some l /\
    Sorted (fun a b => (kb_confidence b <= kb_confidence a)%Q) l.
Proof.
  assert (Hwf : Forall kb_row_wf (knowledge_base db_kb)).
  { repeat constructor; eexists; reflexivity. }
  split; [exact Hwf | split; [reflexivity|]].
  destruct (searchKnowledge_exact_and_sorted db_kb ["fever"] "adult" "male" Hwf)
    as [l [Hl [_ Hs]]].
  exists l. split; [exact Hl | exact Hs].
Defined.

End Search.

Module ReadProofs.
Import Storage GatewaySpec SearchProofs.

(** What [createDiagnosis] writes in the JSON columns read back as lists. *)
Definition diag_row_wf (r : DiagRow) : Prop :=
  (exists xs, d_symptoms r = Some (str_array_json xs)) /\
  (d_differentialDiagnoses r = None \/
   exists ds, d_differentialDiagnoses r = Some (JArr (map differential_json ds))).

Lemma createPatient_diagnoses (db : Db) n t f name age g w :
  diagnoses (fst (createPatient db n t f name age g w)) = diagnoses db.
Proof.
  unfold createPatient. destruct f; [done|]. by destruct (existsb _ _).
Qed.

Lemma addKnowledgeEntry_diagnoses (db : Db) n t f e :
  diagnoses (fst (addKnowledgeEntry db n t f e)) = diagnoses db.
Proof.
  unfold addKnowledgeEntry. destruct f; [done|]. by destruct (existsb _ _).
Qed.

Lemma reachable_rows_wf (db : Db) : reachable db -> List.Forall diag_row_wf (diagnoses db).
Proof.
  induction 1 as [| db n t f name age g w _ IH | db n t f ins _ IH | db n t f e _ IH].
  - constructor.
  - by rewrite createPatient_diagnoses.
  - destruct (GatewayProofs.createDiagnosis_rows db n t f ins) as [-> | [row [-> [Hs Hd]]]];
      [exact IH|].
    apply List.Forall_app. split; [exact IH|]. constructor; [|constructor].
    split; [eexists; exact Hs|]. rewrite Hd.
    destruct (i_differentialDiagnoses ins); [right; eauto | by left].
  - by rewrite addKnowledgeEntry_diagnoses.
Qed.

Lemma read_diagnosis_row (db : Db) (d : Diagnosis) :
  read_diagnosis db d -> exists row, In row (diagnoses db) /\ d = rowToDiagnosis row.
Proof.
  intros [Hin | [[key Hget] | [pid Hin]]].
  - unfold getAllDiagnoses in Hin. apply in_map_iff in Hin as [row [<- Hrow]].
    exists row. split; [|done].
    eapply Permutation_in; [apply sort_by_perm | exact Hrow].
  - unfold getDiagnosis in Hget.
    destruct (find _ _) as [row|] eqn:E; [|discriminate].
    injection Hget as <-. exists row. split; [|done]. by apply find_some in E as [? _].
  - unfold getDiagnosesByPatient in Hin. apply in_map_iff in Hin as [row [<- Hrow]].
    exists row. split; [|done].
    eapply Permutation_in in Hrow; [|apply sort_by_perm].
    by apply List.filter_In in Hrow as [? _].
Qed.

End ReadProofs.

Module Reads.
Import Storage GatewaySpec ReadProofs.

(** Claim C10.  In every database the gateway's writes can build, each
    Diagnosis handed out by [getDiagnosis], [getAllDiagnoses] or
    [getDiagnosesByPatient] is [rowToDiagnosis] of a stored row and is
    normalized: [symptoms] and [differentialDiagnoses] are arrays (the
    empty array for a NULL column, which [createDiagnosis] writes for an
    absent differential list), [requiresReferral] is a boolean and
    [language] is "en" for a NULL column. *)
Theorem read_diagnoses_normalized (db : Db) (d : Diagnosis) :
  reachable db ->
  read_diagnosis db d ->
  exists row,
    In row (diagnoses db) /\ d = rowToDiagnosis row /\
    is_array (symptoms d) /\ is_array (differentialDiagnoses d) /\
    (d_symptoms row = None -> symptoms d = VArr []) /\
    (d_differentialDiagnoses row = None -> differentialDiagnoses d = VArr []) /\
    (requiresReferral d = true \/ requiresReferral d = false) /\
    (d_language row = None -> language d = "en").
Proof.
  intros Hreach Hread.
  destruct (read_diagnosis_row db d Hread) as [row [Hin ->]].
  pose proof (reachable_rows_wf db Hreach) as Hwf.
  rewrite List.Forall_forall in Hwf.
  destruct (Hwf row Hin) as [[xs Hs] Hdiff].
  exists row. split; [exact Hin|]. split; [reflexivity|].
  unfold rowToDiagnosis, is_array; simpl. rewrite Hs.
  split; [eexists; reflexivity|].
  split; [destruct Hdiff as [-> | [ds ->]]; eexists; reflexivity|].
  split; [discriminate|].
  split; [intros ->; reflexivity|].
  split; [destruct (negb _); auto|].
  intros ->. reflexivity.
Qed.

Lemma read_diagnoses_normalized_witness :
  let db := fst (createDiagnosis
                   (fst (createPatient empty_db "p1" "2024-01-01T00:00:00.000Z" false
                           "A" 30 "male" None))
                   "d1" "2024-01-02T10:00:00.000Z" false
                   {| i_patientId := "p1"; i_symptoms := Some ["fever"];
                      i_vitalSigns := VNull; i_primaryDiagnosis := "Influenza";
                      i_differentialDiagnoses := None; i_treatmentProtocol := VNull;
                      i_requiresReferral := None; i_referralReason := None;
                      i_language := None |}) in
  exists d, getDiagnosis db "d1" = Some d /\ differentialDiagnoses d = VArr [].
Proof.
  intros db.
  destruct (getDiagnosis db "d1") as [d|] eqn:Hget; [|discriminate].
  exists d. split; [reflexivity|].
  destruct (read_diagnoses_normalized db d) as [row [Hin [_ [_ [_ [_ [Hnone _]]]]]]].
  - apply reachable_diagnosis, reachable_patient, reachable_empty.
  - right; left. exists "d1". exact Hget.
  - apply Hnone. destruct Hin as [<- | []]. reflexivity.
Defined.

End Reads.

Module OfflineProofs.
Import OfflineCache.

(** Induction over [jsval] that reaches the elements of arrays and the
    values of objects. *)
Lemma jsval_nested_ind (P : jsval -> Prop)
  (hU : P VUndefined) (hN : P VNull) (hB : forall b, P (VBool b))
  (hQ : forall q, P (VNum q)) (hS : forall s, P (VStr s))
  (hA : forall xs, List.Forall P xs -> P (VArr xs))
  (hO : forall kvs, List.Forall (fun kv => P (snd kv)) kvs -> P (VObj kvs))
  (hD : forall iso, P (VDate iso)) :
  forall v, P v.
Proof.
  exact (fix F v := match v return P v with
    | VUndefined => hU | VNull => hN | VBool b => hB b | VNum q => hQ q
    | VStr s => hS s | VDate iso => hD iso
    | VArr xs => hA xs ((fix G l := match l return List.Forall P l with
                          | [] => @List.Forall_nil _ P
                          | x :: l' => @List.Forall_cons _ P x l' (F x) (G l')
                          end) xs)
    | VObj kvs => hO kvs ((fix G l := match l return
                                 List.Forall (fun kv => P (snd kv)) l with
                           | [] => @List.Forall_nil _ (fun kv => P (snd kv))
                           | (k, x) :: l' => @List.Forall_cons _ (fun kv => P (snd kv)) (k, x) l' (F x) (G l')
                           end) kvs)
    end).
Qed.

(** A value with no [undefined] and no [Date] inside comes back from
    [JSON.parse (JSON.stringify v)] unchanged. *)
Lemma plain_roundtrip (v : jsval) :
  plain v = true -> exists j, stringify v = Some j /\ parse j = v.
Proof.
  induction v as [| | b | q | s | xs IH | kvs IH | iso] using jsval_nested_ind;
    simpl; intros H; try discriminate; try (eexists; split; reflexivity).
  - eexists. split; [reflexivity|]. simpl. f_equal.
    induction IH as [|x xs Hx _ IHxs]; [reflexivity|].
    simpl in H. apply andb_prop in H as [H1 H2].
    destruct (Hx H1) as [j [-> <-]]. simpl. f_equal. exact (IHxs H2).
  - eexists. split; [reflexivity|]. simpl. f_equal.
    induction IH as [|[k x] kvs Hx _ IHkvs]; [reflexivity|].
    simpl in H. apply andb_prop in H as [H1 H2]. simpl in Hx.
    destruct (Hx H1) as [j [-> <-]]. simpl. f_equal. exact (IHkvs H2).
Qed.

Lemma plain_items_stringify (items : list jsval) :
  forallb plain items = true -> exists j, stringify (VArr items) = Some j /\ parse j = VArr items.
Proof. intros H. apply plain_roundtrip. exact H. Qed.

Lemma stringify_arr_cons (x : jsval) (xs : list jsval) :
  stringify (VArr (x :: xs)) =
  Some (JArr ((match stringify x with Some j => j | None => JNull end) ::
              match stringify (VArr xs) with Some (JArr l) => l | _ => [] end)).
Proof. reflexivity. Qed.

Lemma stringify_obj_cons (k : string) (x : jsval) (kvs : list (string * jsval)) :
  stringify (VObj ((k, x) :: kvs)) =
  Some (JObj ((match stringify x with Some j => [(k, j)] | None => [] end) ++
              match stringify (VObj kvs) with Some (JObj l) => l | _ => [] end)).
Proof. simpl. destruct (stringify x); reflexivity. Qed.

Lemma json_norm_arr_cons (x : jsval) (xs : list jsval) :
  json_norm (VArr (x :: xs)) =
  VArr ((match x with VUndefined => VNull | _ => json_norm x end) ::
        match json_norm (VArr xs) with VArr l => l | _ => [] end).
Proof. destruct x; reflexivity. Qed.

Lemma json_norm_obj_cons (k : string) (x : jsval) (kvs : list (string * jsval)) :
  json_norm (VObj ((k, x) :: kvs)) =
  VObj ((match x with VUndefined => [] | _ => [(k, json_norm x)] end) ++
        match json_norm (VObj kvs) with VObj l => l | _ => [] end).
Proof. destruct x; reflexivity. Qed.

(** [JSON.parse(JSON.stringify(v))] is [json_norm v] whenever [v] has a
    JSON text. *)
Lemma stringify_parse_norm (v : jsval) (j : json) :
  stringify v = Some j -> parse j = json_norm v.
Proof.
  revert j.
  induction v as [| | b | q | s | xs IH | kvs IH | iso] using jsval_nested_ind;
    intros j H; try (injection H as <-; reflexivity); try discriminate H.
  - revert j H. induction IH as [|x xs Hx _ IHxs]; intros j H.
    + injection H as <-. reflexivity.
    + rewrite stringify_arr_cons in H. injection H as <-.
      assert (Hl : exists l, stringify (VArr xs) = Some (JArr l)) by (eexists; reflexivity).
      destruct Hl as [l Hl]. pose proof Hl as Hl'. simpl in Hl'. injection Hl' as Hl'.
      rewrite Hl'. rewrite json_norm_arr_cons.
      rewrite <- (IHxs _ Hl). cbn [parse map]. f_equal. apply (f_equal2 cons); [|reflexivity].
      destruct (stringify x) as [jx|] eqn:Ex.
      * destruct x; try discriminate Ex; apply Hx; first [exact Ex | reflexivity].
      * destruct x; try discriminate Ex. reflexivity.
  - revert j H. induction IH as [|[k x] kvs Hx _ IHkvs]; intros j H.
    + injection H as <-. reflexivity.
    + rewrite stringify_obj_cons in H. injection H as <-.
      assert (Hl : exists l, stringify (VObj kvs) = Some (JObj l)) by (eexists; reflexivity).
      destruct Hl as [l Hl]. pose proof Hl as Hl'. simpl in Hl'. injection Hl' as Hl'.
      rewrite Hl'. rewrite json_norm_obj_cons.
      rewrite <- (IHkvs _ Hl). cbn [parse]. rewrite map_app. f_equal. f_equal.
      simpl in Hx. destruct (stringify x) as [jx|] eqn:Ex.
      * destruct x; try discriminate Ex; simpl;
          rewrite (Hx jx ltac:(first [exact Ex | reflexivity])); reflexivity.
      * destruct x; try discriminate Ex. reflexivity.
Qed.

Lemma key_of_ne_last_sync (c : collection) : key_of c <> LAST_SYNC.
Proof. by destruct c. Qed.

Lemma clearAll_lookup (ls : local_storage) (k : string) :
  k = PATIENTS \/ k = DIAGNOSES \/ k = LAST_SYNC -> clearAll ls !! k = None.
Proof.
  unfold clearAll; simpl. intros [-> | [-> | ->]];
    unfold PATIENTS, DIAGNOSES, LAST_SYNC;
    repeat first [ apply lookup_delete_eq
                 | rewrite lookup_delete_ne; [|discriminate] ].
Qed.

End OfflineProofs.

Module Offline.
Import OfflineCache OfflineProofs.

(** Claim C8 (as amended).  When [localStorage] accepts the write,
    reading a collection after saving a list gives back the list's JSON
    round trip [json_norm], whatever was stored before: the list itself
    when its items are JSON-plain (no [undefined], no [Date] inside),
    otherwise with every [Date] as its ISO string, [undefined] array slots
    as [null] and [undefined]-valued keys dropped.  The last-sync key
    reads back as the save time, and no other key changes.  When the
    collection's [setItem] throws, the error is swallowed and the
    collection reads back as before.  After [clearAll], both collections
    and the last-sync time read back as [null]. *)
Theorem save_then_get_roundtrip (c : collection) (ls : local_storage)
  (items : list jsval) (now : string) :
  now <> "" ->
  get c (save c ls items now true) = json_norm (VArr items) /\
  (forallb plain items = true -> get c (save c ls items now true) = VArr items) /\
  getLastSync (save c ls items now true) = VDate now /\
  (forall k, k <> key_of c -> k <> LAST_SYNC -> save c ls items now true !! k = ls !! k) /\
  get c (save c ls items now false) = get c ls /\
  (forall (c' : collection) (ls0 : local_storage),
     get c' (clearAll ls0) = VNull /\ getLastSync (clearAll ls0) = VNull).
Proof.
  intros Hnow.
  assert (Hj : exists j, stringify (VArr items) = Some j) by (eexists; reflexivity).
  destruct Hj as [j Hj].
  assert (Hget : get c (save c ls items now true) = parse j).
  { unfold save, get. rewrite Hj.
    rewrite lookup_insert_ne; [|apply not_eq_sym, key_of_ne_last_sync].
    rewrite lookup_insert_eq. reflexivity. }
  split; [|split; [|split; [|split; [|split]]]].
  - rewrite Hget. exact (stringify_parse_norm _ _ Hj).
  - intros Hplain. destruct (plain_items_stringify items Hplain) as [j' [Hj' Hparse]].
    rewrite Hj in Hj'. injection Hj' as <-. rewrite Hget. exact Hparse.
  - unfold save, getLastSync. rewrite Hj, lookup_insert_eq.
    destruct (String.eqb_spec now "") as [E|_]; [contradiction|reflexivity].
  - intros k Hk Hl. unfold save. rewrite Hj.
    rewrite lookup_insert_ne; [|congruence].
    rewrite lookup_insert_ne; [|congruence]. reflexivity.
  - unfold save. rewrite Hj. reflexivity.
  - intros c' ls0. split.
    + unfold get. rewrite clearAll_lookup; [reflexivity|].
      destruct c'; simpl; auto.
    + unfold getLastSync. rewrite clearAll_lookup; auto.
Qed.

Lemma save_then_get_roundtrip_witness :
  get Patients (save Patients ∅
                  [VObj [("id", VStr "p1"); ("weight", VUndefined);
                         ("createdAt", VDate "2024-01-01T00:00:00.000Z")]]
                  "2024-01-02T00:00:00.000Z" true)
  = VArr [VObj [("id", VStr "p1"); ("createdAt", VStr "2024-01-01T00:00:00.000Z")]].
Proof.
  destruct (save_then_get_roundtrip Patients ∅
              [VObj [("id", VStr "p1"); ("weight", VUndefined);
                     ("createdAt", VDate "2024-01-01T00:00:00.000Z")]]
              "2024-01-02T00:00:00.000Z") as [H _].
  - discriminate.
  - rewrite H. reflexivity.
Defined.

(** Claim C8, as stated.  A saved [Patient] carries its [createdAt] as a
    [Date]; after the JSON round trip it reads back as the ISO string, so
    the list read back is not deep-equal to the one saved.  And when
    [localStorage] rejects the write (quota exceeded), the error is
    swallowed and the collection still reads back as the list stored
    before. *)
Lemma save_then_get_counterexample :
  let items := [VObj [("id", VStr "p1");
                      ("createdAt", VDate "2024-01-01T00:00:00.000Z")]] in
  let old := <[PATIENTS := JsonText (JArr [])]> (∅ : local_storage) in
  (get Patients (save Patients ∅ items "2024-01-02T00:00:00.000Z" true) =
     VArr [VObj [("id", VStr "p1"); ("createdAt", VStr "2024-01-01T00:00:00.000Z")]] /\
   get Patients (save Patients ∅ items "2024-01-02T00:00:00.000Z" true) <> VArr items) /\
  (get Patients (save Patients old [VObj [("id", VStr "p1")]] "2024-01-02T00:00:00.000Z" false)
     = VArr [] /\
   get Patients (save Patients old [VObj [("id", VStr "p1")]] "2024-01-02T00:00:00.000Z" false)
     <> VArr [VObj [("id", VStr "p1")]]).
Proof.
  cbv zeta. split; split.
  - vm_compute. reflexivity.
  - vm_compute. discriminate.
  - vm_compute. reflexivity.
  - vm_compute. discriminate.
Qed.

End Offline.

Module ExtraProofs.
Import Schema Storage Routes GatewaySpec OfflineCache Patients DiagnosisRoutes Pages
       StoreSpec GatewayProofs SearchProofs ReadProofs OfflineProofs.

(** [insert_by]/[sort_by] give a list sorted by [R] when [lt] decides
    [R] in both directions. *)
Lemma sort_by_sorted_gen {A} (lt : A -> A -> bool) (R : A -> A -> Prop) (l : list A) :
  (forall x y, lt y x = true -> R y x) ->
  (forall x y, lt y x = false -> R x y) ->
  Sorted R (sort_by lt l).
Proof.
  intros Ht Hf.
  assert (Hhd : forall a x l, R a x -> HdRel R a l -> HdRel R a (insert_by lt x l)).
  { intros a x l' Hax Hl. destruct l' as [|y l']; simpl; [by constructor|].
    destruct (lt y x); constructor; [by inversion Hl | done]. }
  assert (Hins : forall x l, Sorted R l -> Sorted R (insert_by lt x l)).
  { intros x l'. induction l' as [|y l' IH]; simpl; intros Hs.
    - by repeat constructor.
    - destruct (lt y x) eqn:E.
      + inversion Hs as [|? ? Hl Hh]; subst. constructor; [by apply IH|].
        apply Hhd; [by apply Ht | done].
      + constructor; [done|]. constructor. by apply Hf. }
  induction l as [|x l IH]; simpl; [constructor | by apply Hins].
Qed.

(** A value [JSON.parse] produces has no [undefined] and no [Date]. *)
Lemma plain_parse (j : json) : plain (parse j) = true.
Proof.
  revert j. fix IH 1. intros [| b | q | s | xs | kvs]; simpl; try reflexivity.
  - induction xs as [|x xs IHxs]; simpl; [reflexivity|]. by rewrite IH, IHxs.
  - induction kvs as [|[k x] kvs IHkvs]; simpl; [reflexivity|]. by rewrite IH, IHkvs.
Qed.

(** Reading a property back from the JSON round trip of an object. *)
Lemma json_prop (kvs : list (string * jsval)) (k : string) (v : jsval) (j jo : json) :
  get_prop kvs k = v -> stringify v = Some j -> stringify (VObj kvs) = Some jo ->
  prop (parse jo) k = parse j.
Proof.
  revert jo. induction kvs as [|[k' x] kvs IH]; simpl; intros jo Hg Hs Ho.
  - subst. discriminate.
  - injection Ho as <-. destruct (String.eqb k k') eqn:E.
    + apply String.eqb_eq in E. subst. rewrite Hs. simpl. by rewrite String.eqb_refl.
    + destruct (stringify x) as [jx|]; simpl.
      * rewrite E. apply (IH (JObj _)); [exact Hg | exact Hs | reflexivity].
      * apply (IH (JObj _)); [exact Hg | exact Hs | reflexivity].
Qed.

(** A key whose every occurrence is [undefined] is absent after the JSON
    round trip. *)
Lemma json_prop_undefined (kvs : list (string * jsval)) (k : string) (jo : json) :
  List.Forall (fun kv => fst kv = k -> snd kv = VUndefined) kvs ->
  stringify (VObj kvs) = Some jo -> prop (parse jo) k = VUndefined.
Proof.
  revert jo. induction kvs as [|[k' x] kvs IH]; simpl; intros jo Hall Ho.
  - by injection Ho as <-.
  - injection Ho as <-. inversion Hall as [|? ? Hx Hrest]; subst. simpl in Hx.
    destruct (String.eqb k k') eqn:E.
    + apply String.eqb_eq in E. subst. rewrite (Hx eq_refl). simpl.
      apply (IH (JObj _)); [exact Hrest | reflexivity].
    + destruct (stringify x) as [jx|]; simpl.
      * rewrite E. apply (IH (JObj _)); [exact Hrest | reflexivity].
      * apply (IH (JObj _)); [exact Hrest | reflexivity].
Qed.

Lemma stringify_obj (kvs : list (string * jsval)) : exists jo, stringify (VObj kvs) = Some jo.
Proof. eexists. reflexivity. Qed.

Lemma find_fresh_app_gen {A} (key_of : A -> string) (l : list A) (row : A) (key : string) :
  existsb (fun r => String.eqb (key_of r) key) l = false -> key_of row = key ->
  find (fun r => String.eqb (key_of r) key) (l ++ [row]) = Some row.
Proof.
  intros Hfresh Hrow. induction l as [|r l IH]; simpl in *.
  - by rewrite Hrow, String.eqb_refl.
  - destruct (String.eqb (key_of r) key); [discriminate | exact (IH Hfresh)].
Qed.

Lemma stored_as_is_read (v : jsval) :
  stored_as_is v ->
  match stringify_if_truthy v with Some j => parse j | None => VNull end = nullish_or v VNull.
Proof.
  unfold stringify_if_truthy. intros [-> | [-> | [Ht Hp]]]; [reflexivity | reflexivity|].
  rewrite Ht. destruct (plain_roundtrip v Hp) as [j [-> <-]].
  by destruct (parse j).
Qed.

Lemma parse_differentials (ds : list Differential) :
  parse (JArr (map differential_json ds)) = VArr (map differential_val ds).
Proof. simpl. f_equal. induction ds as [|d ds IH]; simpl; [done | by rewrite IH]. Qed.

(** A successful [createDiagnosis] stores a row that reads back as the
    returned [Diagnosis]. *)
Lemma createDiagnosis_row_reads_back (db db1 : Db) (n t : string) (f : bool)
      (ins : InsertDiagnosis) (d : Diagnosis) :
  createDiagnosis db n t f ins = (db1, inr d) ->
  stored_as_is (i_vitalSigns ins) -> stored_as_is (i_treatmentProtocol ins) ->
  exists row,
    diagnoses db1 = diagnoses db ++ [row] /\
    existsb (fun r => String.eqb (d_id r) n) (diagnoses db) = false /\
    d_id row = n /\ id d = n /\ d_patientId row = i_patientId ins /\
    patientId d = i_patientId ins /\
    patients db1 = patients db /\ knowledge_base db1 = knowledge_base db /\
    rowToDiagnosis row = d.
Proof.
  intros H Hv Ht. unfold createDiagnosis in H. destruct f; [discriminate|].
  destruct (existsb _ (diagnoses db)) eqn:Ed; [discriminate|].
  destruct (negb _); [discriminate|].
  injection H as <- <-. eexists. do 8 (split; [reflexivity|]).
  unfold rowToDiagnosis. simpl. f_equal.
  - apply parse_str_array.
  - by apply stored_as_is_read.
  - destruct (i_differentialDiagnoses ins); [apply parse_differentials | reflexivity].
  - by apply stored_as_is_read.
  - by destruct (i_requiresReferral ins) as [[]|].
Qed.

Lemma in_reads (db : Db) (row : DiagRow) :
  In row (diagnoses db) ->
  In (rowToDiagnosis row) (getAllDiagnoses db) /\
  In (rowToDiagnosis row) (getDiagnosesByPatient db (d_patientId row)).
Proof.
  intros Hin. unfold getAllDiagnoses, getDiagnosesByPatient. split; apply in_map.
  - eapply Permutation_in; [symmetry; apply sort_by_perm | exact Hin].
  - eapply Permutation_in; [symmetry; apply sort_by_perm|].
    apply List.filter_In. split; [exact Hin | apply String.eqb_refl].
Qed.

(** The vital signs [symptomAnalysisSchema] lets through are numbers and
    strings. *)
Lemma z_vitalSigns_plain (v : jsval) (kvs : list (string * jsval)) :
  z_vitalSigns v = inr kvs -> forallb (fun '(_, x) => plain x) kvs = true.
Proof.
  unfold z_vitalSigns. destruct v; try discriminate. cbv zeta.
  repeat match goal with
         | |- context [z_optional ?p ?x] => destruct (z_optional p x) as [?|[?|]]
         end; simpl; intros H;
    first [ injection H as <-; reflexivity
          | lazymatch type of H with
            | context [match ?e with [] => _ | _ :: _ => _ end] =>
                destruct e; [injection H as <-; reflexivity | discriminate]
            end ].
Qed.

Lemma insert_of_vitalSigns (v : SymptomAnalysis) (ai : AiDiagnosis) (body : jsval) :
  parse_symptomAnalysis body = inr v -> stored_as_is (i_vitalSigns (insert_of v ai)).
Proof.
  unfold parse_symptomAnalysis. destruct body as [| | b | q | s | xs | kvs | iso]; try discriminate. cbv zeta.
  destruct (z_string _ _); [destruct (z_symptoms _), (z_optional z_vitalSigns _),
    (z_number _ _), (z_string _ _), (z_optional (z_number _) _), (z_language _);
    discriminate|].
  destruct (z_symptoms _); [destruct (z_optional z_vitalSigns _),
    (z_number _ _), (z_string _ _), (z_optional (z_number _) _), (z_language _);
    discriminate|].
  destruct (z_optional z_vitalSigns _) as [|[vs|]] eqn:Ev;
    [destruct (z_number _ _), (z_string _ _), (z_optional (z_number _) _), (z_language _);
     discriminate| |];
    destruct (z_number _ _), (z_string _ _), (z_optional (z_number _) _), (z_language _);
    try discriminate; intros H; injection H as <-; unfold insert_of; simpl.
  - right; right. split; [reflexivity|]. simpl.
    unfold z_optional in Ev. destruct (get_prop kvs "vitalSigns"); try discriminate;
      destruct (z_vitalSigns _) eqn:Ez; try discriminate; injection Ev as <-;
      exact (z_vitalSigns_plain _ _ Ez).
  - right; left. reflexivity.
Qed.

Lemma stored_as_is_nullish (v : jsval) : stored_as_is v -> stored_as_is (nullish_or v VNull).
Proof.
  intros [-> | [-> | [Ht Hp]]]; [right; left; reflexivity | right; left; reflexivity|].
  destruct v; try discriminate; right; right; split; assumption.
Qed.

End ExtraProofs.

Module ExtraStorageProofs.
Import Schema Storage Routes GatewaySpec Patients DiagnosisRoutes StoreSpec
       GatewayProofs SearchProofs ReadProofs ExtraProofs.

Lemma createDiagnosis_found (db db1 : Db) (newId now : string) (fault : bool)
      (ins : InsertDiagnosis) (d : Diagnosis) :
  createDiagnosis db newId now fault ins = (db1, inr d) ->
  stored_as_is (i_vitalSigns ins) -> stored_as_is (i_treatmentProtocol ins) ->
  getDiagnosis db1 newId = Some d /\
  In d (getAllDiagnoses db1) /\ In d (getDiagnosesByPatient db1 (i_patientId ins)).
Proof.
  intros H Hv Ht.
  destruct (createDiagnosis_row_reads_back db db1 newId now fault ins d H Hv Ht)
    as [row [Hdb [Hfresh [Hid [_ [Hpid [_ [_ [_ Hrow]]]]]]]]].
  assert (Hin : In row (diagnoses db1)).
  { rewrite Hdb. apply in_or_app. right. by left. }
  destruct (in_reads db1 row Hin) as [H1 H2]. rewrite Hrow, Hpid in *.
  split; [|split; assumption].
  unfold getDiagnosis. rewrite Hdb, (find_fresh_app_gen d_id); [| exact Hfresh | exact Hid].
  by rewrite Hrow.
Qed.

Lemma getDiagnosis_diagnoses (db db' : Db) (key : string) :
  diagnoses db' = diagnoses db -> getDiagnosis db' key = getDiagnosis db key.
Proof. intros H. unfold getDiagnosis. by rewrite H. Qed.

Lemma getAllDiagnoses_diagnoses (db db' : Db) :
  diagnoses db' = diagnoses db -> getAllDiagnoses db' = getAllDiagnoses db.
Proof. intros H. unfold getAllDiagnoses. by rewrite H. Qed.

Lemma getDiagnosesByPatient_diagnoses (db db' : Db) (pid : string) :
  diagnoses db' = diagnoses db -> getDiagnosesByPatient db' pid = getDiagnosesByPatient db pid.
Proof. intros H. unfold getDiagnosesByPatient. by rewrite H. Qed.

Lemma shares_element_in (qs xs : list string) (s : string) :
  In s qs -> In s xs -> shares_element qs xs = true.
Proof.
  intros Hq Hx. unfold shares_element. apply existsb_exists. exists s. split; [exact Hq|].
  apply existsb_exists. exists s. split; [exact Hx | apply String.eqb_refl].
Qed.

Lemma search_total (rows : list KbRow) (qs : list string) :
  List.Forall kb_row_wf rows ->
  filter_opt (fun r => some_includes
                         (match k_symptoms r with Some j => parse j | None => VArr [] end) qs)
             rows
  = Some (List.filter (fun r => shares_element qs (stored_symptom_list r)) rows).
Proof.
  intros Hwf. apply filter_opt_total. intros r Hr.
  rewrite List.Forall_forall in Hwf. destruct (Hwf r Hr) as [xs Hxs].
  rewrite Hxs, parse_str_array, some_includes_strings.
  by rewrite (stored_symptom_list_wf r xs Hxs).
Qed.

Lemma createPatient_found (db db1 : Db) (newId now : string) (fault : bool)
      (ins : InsertPatient) (p : Patient) :
  Patients.createPatient db newId now fault ins = (db1, inr p) ->
  getPatient db1 newId = Some p /\ get_patient db1 newId = PStatus200 p /\
  In p (getAllPatients db1) /\
  diagnoses db1 = diagnoses db /\ knowledge_base db1 = knowledge_base db.
Proof.
  unfold Patients.createPatient. destruct fault; [discriminate|].
  destruct (existsb _ (patients db)) eqn:Ef; [discriminate|].
  intros H. injection H as <- <-.
  assert (Hg : getPatient {| patients := patients db ++ [{| p_id := newId; p_name := ip_name ins;
                p_age := ip_age ins; p_gender := ip_gender ins; p_weight := ip_weight ins;
                p_contactNumber := ip_contactNumber ins; p_address := ip_address ins;
                p_createdAt := now |}]; diagnoses := diagnoses db;
                knowledge_base := knowledge_base db |} newId
             = Some (rowToPatient {| p_id := newId; p_name := ip_name ins;
                p_age := ip_age ins; p_gender := ip_gender ins; p_weight := ip_weight ins;
                p_contactNumber := ip_contactNumber ins; p_address := ip_address ins;
                p_createdAt := now |})).
  { unfold getPatient. simpl. by rewrite (find_fresh_app_gen p_id). }
  split; [exact Hg|]. split; [unfold get_patient; by rewrite Hg|].
  split; [|split; reflexivity].
  unfold getAllPatients. apply in_map_iff. eexists. split; cycle 1.
  { eapply Permutation_in; [symmetry; apply sort_by_perm|]. simpl.
    apply in_or_app. right. left. reflexivity. }
  reflexivity.
Qed.

End ExtraStorageProofs.

Module ExtraStorage.
Import Schema Storage Routes GatewaySpec Patients DiagnosisRoutes StoreSpec Samples
       GatewayProofs SearchProofs ReadProofs ExtraProofs ExtraStorageProofs.

(** Extra.  When [createDiagnosis] succeeds and the vital signs and the
    treatment protocol are [null], [undefined] or a truthy JSON value, the
    [Diagnosis] it returns is exactly what [getDiagnosis] then reads for the
    new id, and it is listed by [getAllDiagnoses] and by
    [getDiagnosesByPatient] for its patient. *)
Theorem createDiagnosis_read_back (db db1 : Db) (newId now : string) (fault : bool)
        (ins : InsertDiagnosis) (d : Diagnosis) :
  createDiagnosis db newId now fault ins = (db1, inr d) ->
  stored_as_is (i_vitalSigns ins) -> stored_as_is (i_treatmentProtocol ins) ->
  getDiagnosis db1 newId = Some d /\
  In d (getAllDiagnoses db1) /\ In d (getDiagnosesByPatient db1 (i_patientId ins)).
Proof.
  intros H Hv Ht.
  destruct (createDiagnosis_found db db1 newId now fault ins d H Hv Ht) as [H1 [H2 H3]].
  split; [exact H1 | split; [exact H2 | exact H3]].
Qed.

Lemma createDiagnosis_read_back_witness :
  exists db1 d,
    createDiagnosis db_p1 "d1" "2024-01-02T10:00:00.000Z" false
      {| i_patientId := "p1"; i_symptoms := Some ["fever"];
         i_vitalSigns := VObj [("temperature", VNum 39)];
         i_primaryDiagnosis := "Influenza"; i_differentialDiagnoses := None;
         i_treatmentProtocol := VNull; i_requiresReferral := Some true;
         i_referralReason := Some "high fever"; i_language := Some "hi" |} = (db1, inr d) /\
    getDiagnosis db1 "d1" = Some d.
Proof.
  eexists _, _. split; [reflexivity|].
  apply (createDiagnosis_read_back db_p1 _ "d1" "2024-01-02T10:00:00.000Z" false
           {| i_patientId := "p1"; i_symptoms := Some ["fever"];
              i_vitalSigns := VObj [("temperature", VNum 39)];
              i_primaryDiagnosis := "Influenza"; i_differentialDiagnoses := None;
              i_treatmentProtocol := VNull; i_requiresReferral := Some true;
              i_referralReason := Some "high fever"; i_language := Some "hi" |}).
  - reflexivity.
  - right; right. split; reflexivity.
  - right; left. reflexivity.
Defined.

(** Extra.  After [POST /api/diagnose] answers 201 with a diagnosis, and
    the NLP service's treatment protocol was [null], absent or a truthy
    JSON value, [GET /api/diagnoses/:id] for its id answers 200 with the
    same diagnosis, and the patient's and the full diagnosis lists contain
    it. *)
Theorem diagnose_then_get_diagnosis (db db2 : Db) (env : ServerEnv) (body : jsval)
        (calls : list server_call) (d : Diagnosis) (ai : AiDiagnosis) :
  diagnose db env body = (db2, calls, Status201 d) ->
  nlp env = Some ai -> stored_as_is (a_treatmentProtocol ai) ->
  get_diagnosis db2 (id d) = DStatus200 d /\
  In d (getDiagnosesByPatient db2 (patientId d)) /\ In d (getAllDiagnoses db2).
Proof.
  intros H Hnlp Htp. unfold diagnose in H.
  destruct (parse_symptomAnalysis body) as [errs|v] eqn:Ep; [discriminate|].
  rewrite Hnlp in H.
  destruct (createDiagnosis db (diag_newId env) (now env) (diag_fault env) (insert_of v ai))
    as [db1 [e|d1]] eqn:Ec; [discriminate|].
  destruct (addKnowledgeEntry db1 (kb_newId env) (now env) (kb_fault env) (entry_of v ai))
    as [db2' [e|k]] eqn:Ek; [discriminate|].
  injection H as <- <- <-.
  assert (Hd : diagnoses db2' = diagnoses db1).
  { pose proof (addKnowledgeEntry_diagnoses db1 (kb_newId env) (now env) (kb_fault env)
                  (entry_of v ai)) as Hk. by rewrite Ek in Hk. }
  assert (Hv : stored_as_is (i_vitalSigns (insert_of v ai))) by exact (insert_of_vitalSigns v ai body Ep).
  assert (Ht : stored_as_is (i_treatmentProtocol (insert_of v ai)))
    by exact (stored_as_is_nullish _ Htp).
  destruct (createDiagnosis_row_reads_back _ _ _ _ _ _ _ Ec Hv Ht)
    as [row [_ [_ [_ [Hid [_ [Hpid _]]]]]]].
  destruct (createDiagnosis_found _ _ _ _ _ _ _ Ec Hv Ht) as [H1 [H2 H3]].
  unfold get_diagnosis.
  rewrite (getDiagnosis_diagnoses db1 db2' _ Hd), (getAllDiagnoses_diagnoses db1 db2' Hd),
          (getDiagnosesByPatient_diagnoses db1 db2' _ Hd), Hid, H1, Hpid.
  split; [reflexivity | split; [exact H3 | exact H2]].
Qed.

Lemma diagnose_then_get_diagnosis_witness :
  exists db2 calls d,
    diagnose db_p1 (env_flu false) (body_of 30 [VStr "fever"]) = (db2, calls, Status201 d) /\
    get_diagnosis db2 "d1" = DStatus200 d.
Proof.
  eexists _, _, _. split; [reflexivity|].
  exact (proj1 (diagnose_then_get_diagnosis db_p1 _ (env_flu false) (body_of 30 [VStr "fever"])
                  _ _ ai_flu eq_refl eq_refl (or_introl eq_refl))).
Defined.

(** Extra.  When [createPatient] succeeds, the [Patient] it returns is
    exactly what [getPatient] reads for the new id ([GET /api/patients/:id]
    answers 200 with it) and [getAllPatients] lists it; the other tables
    are unchanged. *)
Theorem createPatient_read_back (db db1 : Db) (newId now : string) (fault : bool)
        (ins : InsertPatient) (p : Patient) :
  Patients.createPatient db newId now fault ins = (db1, inr p) ->
  getPatient db1 newId = Some p /\ get_patient db1 newId = PStatus200 p /\
  In p (getAllPatients db1) /\
  diagnoses db1 = diagnoses db /\ knowledge_base db1 = knowledge_base db.
Proof.
  intros H. destruct (createPatient_found db db1 newId now fault ins p H)
    as [H1 [H2 [H3 [H4 H5]]]].
  repeat split; assumption.
Qed.

Lemma createPatient_read_back_witness :
  exists db1 p,
    Patients.createPatient db_p1 "p2" "2024-01-03T08:00:00.000Z" false
      {| ip_name := "B"; ip_age := 41; ip_gender := "female"; ip_weight := Some 60%Q;
         ip_contactNumber := None; ip_address := Some "Village" |} = (db1, inr p) /\
    get_patient db1 "p2" = PStatus200 p.
Proof.
  eexists _, _. split; [reflexivity|].
  exact (proj1 (proj2 (createPatient_read_back db_p1 _ "p2" "2024-01-03T08:00:00.000Z" false
    {| ip_name := "B"; ip_age := 41; ip_gender := "female"; ip_weight := Some 60%Q;
       ip_contactNumber := None; ip_address := Some "Village" |} _ eq_refl))).
Defined.

(** Extra.  On a knowledge base whose symptom columns hold string arrays,
    an entry that [addKnowledgeEntry] has just stored is returned by
    [searchKnowledge] for its own ageGroup and gender and any symptom list
    sharing a symptom with it. *)
Theorem addKnowledgeEntry_then_search (db db1 : Db) (newId now : string) (fault : bool)
        (e : KnowledgeEntry) (k : KnowledgeBase) (qs : list string) :
  addKnowledgeEntry db newId now fault e = (db1, inr k) ->
  List.Forall kb_row_wf (knowledge_base db) ->
  (exists s, In s qs /\ In s (e_symptoms e)) ->
  exists l, searchKnowledge db1 qs (e_ageGroup e) (e_gender e) = Some l /\ In k l.
Proof.
  unfold addKnowledgeEntry. destruct fault; [discriminate|].
  destruct (existsb _ (knowledge_base db)); [discriminate|].
  intros H Hwf [s [Hq Hs]]. injection H as <- <-.
  unfold searchKnowledge. simpl. rewrite search_total.
  - eexists. split; [reflexivity|].
    eapply Permutation_in; [symmetry; apply sort_by_perm|]. apply in_map.
    apply List.filter_In. split.
    + apply List.filter_In. split; [apply in_or_app; right; by left|]. simpl.
      by rewrite !String.eqb_refl.
    + simpl. rewrite (stored_symptom_list_wf _ (e_symptoms e)); [|reflexivity].
      exact (shares_element_in qs (e_symptoms e) s Hq Hs).
  - apply List.Forall_forall. intros r Hr. apply List.filter_In in Hr as [Hr _].
    apply in_app_or in Hr as [Hr | [<- | []]].
    + rewrite List.Forall_forall in Hwf. exact (Hwf r Hr).
    + eexists. reflexivity.
Qed.

Lemma addKnowledgeEntry_then_search_witness :
  exists db1 k l,
    addKnowledgeEntry db_kb "k6" "2024-01-03T08:00:00.000Z" false
      {| e_symptoms := ["rash"; "fever"]; e_ageGroup := "child"; e_gender := "female";
         e_diagnosis := "Measles"; e_confidence := 75; e_outcome := None |} = (db1, inr k) /\
    searchKnowledge db1 ["rash"] "child" "female" = Some l /\ In k l.
Proof.
  eexists _, _. 
  destruct (addKnowledgeEntry_then_search db_kb _ "k6" "2024-01-03T08:00:00.000Z" false
    {| e_symptoms := ["rash"; "fever"]; e_ageGroup := "child"; e_gender := "female";
       e_diagnosis := "Measles"; e_confidence := 75; e_outcome := None |} _ ["rash"] eq_refl)
    as [l [Hl Hin]].
  - repeat constructor; eexists; reflexivity.
  - exists "rash". split; [by left | by left].
  - exists l. split; [reflexivity | split; [exact Hl | exact Hin]].
Defined.

End ExtraStorage.

Module ExtraPatientProofs.
Import Schema Storage Patients StoreSpec GatewayProofs ExtraStorageProofs.

Lemma jsval_eq_undefined (v : jsval) : {v = VUndefined} + {v <> VUndefined}.
Proof. destruct v; [left; reflexivity | right; discriminate ..]. Qed.

Lemma z_name_ok (v : jsval) (s : string) :
  z_name v = inr s -> v = VStr s /\ (0 < String.length s)%nat.
Proof.
  unfold z_name. destruct v; simpl; try discriminate.
  destruct (Nat.eqb_spec (String.length s0) 0); [discriminate|].
  intros H. injection H as <-. split; [reflexivity | lia].
Qed.

Lemma z_number_min_max_ok (path : list string) (lo : Q) (lt : string) (hi : Q) (ht : string)
      (v : jsval) (q : Q) :
  z_number_min_max path lo lt hi ht v = inr q -> v = VNum q /\ (lo <= q <= hi)%Q.
Proof.
  unfold z_number_min_max. destruct v as [| | b | r | s | xs | kvs | iso]; simpl; try discriminate.
  destruct (Qltb r lo) eqn:E1, (Qltb hi r) eqn:E2; simpl; try discriminate.
  intros H. injection H as <-. apply Qltb_false in E1, E2. split; [reflexivity | lra].
Qed.

Lemma z_gender_ok (v : jsval) (s : string) :
  z_gender v = inr s -> v = VStr s /\ In s ["male"; "female"; "other"].
Proof.
  unfold z_gender. destruct v as [| | b | r | s' | xs | kvs | iso]; try discriminate.
  destruct (existsb (String.eqb s') _) eqn:E; [|discriminate].
  intros H. injection H as <-. split; [reflexivity|].
  apply existsb_exists in E as [x [Hx Hxe]]. apply String.eqb_eq in Hxe. by subst.
Qed.

Lemma z_optional_defined {A} (p : jsval -> list issue + A) (v : jsval) (o : option A) :
  v <> VUndefined -> z_optional p v = inr o -> exists a, p v = inr a /\ o = Some a.
Proof.
  intros Hv. unfold z_optional.
  destruct v; try congruence; destruct (p _) as [is|a]; try discriminate;
    intros H; injection H as <-; by exists a.
Qed.

Lemma z_weight_ok (v : jsval) (o : option Q) :
  z_optional (z_number_min_max ["weight"] 1 "1" 300 "300") v = inr o ->
  nullish_or v VNull = opt_num o /\
  match o with None => True | Some w => (1 <= w <= 300)%Q end.
Proof.
  destruct (jsval_eq_undefined v) as [-> | Hv].
  - intros H. injection H as <-. split; [reflexivity | exact I].
  - intros H. destruct (z_optional_defined _ v o Hv H) as [w [Hw ->]].
    apply z_number_min_max_ok in Hw as [-> Hw]. split; [reflexivity | exact Hw].
Qed.

Lemma z_nullish_string_ok (path : list string) (v : jsval) (o : option string) :
  z_nullish_string path v = inr o -> nullish_or v VNull = opt_str o.
Proof.
  unfold z_nullish_string. destruct v; simpl; try discriminate;
    intros H; injection H as <-; reflexivity.
Qed.

Lemma parse_insertPatient_ok (body : jsval) (ins : InsertPatient) :
  parse_insertPatient body = inr ins ->
  exists kvs, body = VObj kvs /\
    get_prop kvs "name" = VStr (ip_name ins) /\ (0 < String.length (ip_name ins))%nat /\
    get_prop kvs "age" = VNum (ip_age ins) /\ (0 <= ip_age ins <= 150)%Q /\
    get_prop kvs "gender" = VStr (ip_gender ins) /\
    In (ip_gender ins) ["male"; "female"; "other"] /\
    nullish_or (get_prop kvs "weight") VNull = opt_num (ip_weight ins) /\
    match ip_weight ins with None => True | Some w => (1 <= w <= 300)%Q end /\
    nullish_or (get_prop kvs "contactNumber") VNull = opt_str (ip_contactNumber ins) /\
    nullish_or (get_prop kvs "address") VNull = opt_str (ip_address ins).
Proof.
  destruct body as [| | b | r | s | xs | kvs | iso]; try discriminate. unfold parse_insertPatient.
  destruct (z_name _) as [?|a] eqn:E1; [discriminate|].
  destruct (z_number_min_max _ _ _ _ _ _) as [?|b] eqn:E2; [discriminate|].
  destruct (z_gender _) as [?|c] eqn:E3; [discriminate|].
  destruct (z_optional _ _) as [?|d] eqn:E4; [discriminate|].
  destruct (z_nullish_string ["contactNumber"] _) as [?|e] eqn:E5; [discriminate|].
  destruct (z_nullish_string ["address"] _) as [?|f] eqn:E6; [discriminate|].
  intros H. injection H as <-. simpl.
  apply z_name_ok in E1 as [E1 E1']. apply z_number_min_max_ok in E2 as [E2 E2'].
  apply z_gender_ok in E3 as [E3 E3']. apply z_weight_ok in E4 as [E4 E4'].
  apply z_nullish_string_ok in E5, E6.
  exists kvs. split; [reflexivity|]. repeat (split; [assumption|]). assumption.
Qed.

Lemma parse_insertPatient_issue (kvs : list (string * jsval)) (i : issue) :
  In i (errors_of (z_name (get_prop kvs "name"))
        ++ errors_of (z_number_min_max ["age"] 0 "0" 150 "150" (get_prop kvs "age"))
        ++ errors_of (z_gender (get_prop kvs "gender"))
        ++ errors_of (z_optional (z_number_min_max ["weight"] 1 "1" 300 "300")
                                 (get_prop kvs "weight"))
        ++ errors_of (z_nullish_string ["contactNumber"] (get_prop kvs "contactNumber"))
        ++ errors_of (z_nullish_string ["address"] (get_prop kvs "address"))) ->
  exists errs, parse_insertPatient (VObj kvs) = inl errs /\ In i errs.
Proof.
  unfold parse_insertPatient.
  destruct (z_name _), (z_number_min_max _ _ _ _ _ _), (z_gender _), (z_optional _ _),
    (z_nullish_string ["contactNumber"] _), (z_nullish_string ["address"] _);
    simpl; intros Hi; first [ contradiction | eexists; split; [reflexivity | exact Hi] ].
Qed.

Lemma min_max_low (path : list string) (lo : Q) (lt : string) (hi : Q) (ht : string) (q : Q) :
  (q < lo)%Q ->
  In (path, String.append "Number must be greater than or equal to " lt)
     (errors_of (z_number_min_max path lo lt hi ht (VNum q))).
Proof.
  intros H. apply Qltb_iff in H. unfold z_number_min_max. simpl. rewrite H. simpl. by left.
Qed.

Lemma min_max_high (path : list string) (lo : Q) (lt : string) (hi : Q) (ht : string) (q : Q) :
  (lo <= hi)%Q -> (hi < q)%Q ->
  In (path, String.append "Number must be less than or equal to " ht)
     (errors_of (z_number_min_max path lo lt hi ht (VNum q))).
Proof.
  intros Hlh H. assert (E1 : Qltb q lo = false) by (apply Qltb_false; lra).
  apply Qltb_iff in H. unfold z_number_min_max. simpl. rewrite E1, H. simpl. by left.
Qed.

Lemma errors_of_optional {A} (p : jsval -> list issue + A) (v : jsval) :
  v <> VUndefined -> errors_of (z_optional p v) = errors_of (p v).
Proof.
  intros H. unfold z_optional. destruct v; try congruence; destruct (p _); reflexivity.
Qed.

Lemma not_in_existsb (s : string) (l : list string) :
  ~ In s l -> existsb (String.eqb s) l = false.
Proof.
  intros H. destruct (existsb (String.eqb s) l) eqn:E; [|reflexivity].
  apply existsb_exists in E as [x [Hx Hxe]]. apply String.eqb_eq in Hxe. subst. contradiction.
Qed.

Lemma post_patients_db (db db1 : Db) (n t : string) (f : bool) (body : jsval)
      (resp : patient_response) :
  post_patients db n t f body = (db1, resp) ->
  db1 = db \/
  exists ins, parse_insertPatient body = inr ins /\ f = false /\
    existsb (fun p => String.eqb (p_id p) n) (patients db) = false /\
    db1 = {| patients := patients db ++
               [{| p_id := n; p_name := ip_name ins; p_age := ip_age ins;
                   p_gender := ip_gender ins; p_weight := ip_weight ins;
                   p_contactNumber := ip_contactNumber ins; p_address := ip_address ins;
                   p_createdAt := t |}];
             diagnoses := diagnoses db; knowledge_base := knowledge_base db |}.
Proof.
  unfold post_patients. destruct (parse_insertPatient body) as [errs|ins] eqn:Ep.
  - intros H. injection H as <- _. by left.
  - unfold Patients.createPatient. destruct f.
    + intros H. injection H as <- _. by left.
    + destruct (existsb _ (patients db)) eqn:Ee.
      * intros H. injection H as <- _. by left.
      * intros H. injection H as <- _. right. exists ins. repeat split; assumption.
Qed.

Lemma post_patients_created_fields (db db1 : Db) (n t : string) (f : bool)
      (kvs : list (string * jsval)) (p : Patient) :
  post_patients db n t f (VObj kvs) = (db1, PStatus201 p) ->
  pt_id p = n /\ pt_createdAt p = t /\
  get_prop kvs "name" = VStr (pt_name p) /\ get_prop kvs "age" = VNum (pt_age p) /\
  get_prop kvs "gender" = VStr (pt_gender p) /\
  pt_weight p = nullish_or (get_prop kvs "weight") VNull /\
  pt_contactNumber p = nullish_or (get_prop kvs "contactNumber") VNull /\
  pt_address p = nullish_or (get_prop kvs "address") VNull /\
  get_patient db1 n = PStatus200 p.
Proof.
  unfold post_patients. destruct (parse_insertPatient (VObj kvs)) as [errs|ins] eqn:Ep;
    [discriminate|].
  destruct (Patients.createPatient db n t f ins) as [db1' [e|p']] eqn:Ec; [discriminate|].
  intros H. injection H as <- <-.
  destruct (createPatient_found db db1' n t f ins p' Ec) as [_ [Hg _]].
  destruct (parse_insertPatient_ok (VObj kvs) ins Ep)
    as [kvs' [Hk [Hn [_ [Ha [_ [Hgd [_ [Hw [_ [Hc Had]]]]]]]]]]].
  injection Hk as <-.
  unfold Patients.createPatient in Ec. destruct f; [discriminate|].
  destruct (existsb _ _); [discriminate|]. injection Ec as _ <-. simpl.
  rewrite Hw, Hc, Had. repeat split; assumption.
Qed.

End ExtraPatientProofs.

Module ExtraPatients.
Import Schema Storage Patients StoreSpec Samples GatewayProofs ExtraStorageProofs
       ExtraPatientProofs.

(** Extra.  [POST /api/patients] answers 400 "Invalid patient data" and
    leaves the database unchanged when an object body has an empty name, an
    age outside [0, 150], a gender outside the enum, a [null] weight or a
    weight outside [1, 300]; the Zod error list holds the field's issue. *)
Theorem post_patients_rejects_field (db : Db) (n t : string) (f : bool)
        (kvs : list (string * jsval)) (i : issue) :
  (get_prop kvs "name" = VStr "" /\ i = (["name"], "Name is required")) \/
  (exists q, get_prop kvs "age" = VNum q /\ (q < 0)%Q /\
             i = (["age"], "Number must be greater than or equal to 0")) \/
  (exists q, get_prop kvs "age" = VNum q /\ (150 < q)%Q /\
             i = (["age"], "Number must be less than or equal to 150")) \/
  (exists s, get_prop kvs "gender" = VStr s /\ ~ In s ["male"; "female"; "other"] /\
             i = (["gender"], String.append
                    "Invalid enum value. Expected 'male' | 'female' | 'other', received '"
                    (String.append s "'"))) \/
  (get_prop kvs "weight" = VNull /\ i = (["weight"], "Expected number, received null")) \/
  (exists w, get_prop kvs "weight" = VNum w /\ (w < 1)%Q /\
             i = (["weight"], "Number must be greater than or equal to 1")) \/
  (exists w, get_prop kvs "weight" = VNum w /\ (300 < w)%Q /\
             i = (["weight"], "Number must be less than or equal to 300")) ->
  exists errs, post_patients db n t f (VObj kvs) = (db, PStatus400 "Invalid patient data" errs)
               /\ In i errs.
Proof.
  intros Hc.
  destruct (parse_insertPatient_issue kvs i) as [errs [Hp Hi]].
  - rewrite !in_app_iff.
    destruct Hc as [[Hn ->] | [[q [Hq [Hlt ->]]] | [[q [Hq [Hlt ->]]] | [[s [Hs [Hns ->]]] |
                   [[Hw ->] | [[w [Hw [Hlt ->]]] | [w [Hw [Hlt ->]]]]]]]]].
    + left. rewrite Hn. simpl. by left.
    + right; left. rewrite Hq. by apply min_max_low.
    + right; left. rewrite Hq. apply min_max_high; [lra | exact Hlt].
    + right; right; left. rewrite Hs. unfold z_gender. rewrite (not_in_existsb s _ Hns).
      simpl. by left.
    + right; right; right; left. rewrite Hw. simpl. by left.
    + right; right; right; left. rewrite Hw, errors_of_optional; [|discriminate].
      by apply min_max_low.
    + right; right; right; left. rewrite Hw, errors_of_optional; [|discriminate].
      apply min_max_high; [lra | exact Hlt].
  - exists errs. unfold post_patients. rewrite Hp. split; [reflexivity | exact Hi].
Qed.

Lemma post_patients_rejects_field_witness :
  exists errs,
    post_patients db_p1 "p2" "2024-01-03T08:00:00.000Z" false
      (VObj [("name", VStr "B"); ("age", VNum 200); ("gender", VStr "female")])
    = (db_p1, PStatus400 "Invalid patient data" errs) /\
    In (["age"], "Number must be less than or equal to 150") errs.
Proof.
  apply (post_patients_rejects_field db_p1 "p2" "2024-01-03T08:00:00.000Z" false
           [("name", VStr "B"); ("age", VNum 200); ("gender", VStr "female")]).
  right; right; left. exists 200%Q. split; [reflexivity|]. split; [lra | reflexivity].
Defined.

(** Extra.  [POST /api/patients] keeps the patients table valid: if every
    stored row satisfies [insertPatientSchema]'s constraints (non-empty
    name, age in [0, 150], gender in the enum, weight absent or in
    [1, 300]), so does every row afterwards, whatever the body. *)
Theorem post_patients_keeps_rows_valid (db db1 : Db) (n t : string) (f : bool)
        (body : jsval) (resp : patient_response) :
  post_patients db n t f body = (db1, resp) ->
  List.Forall patient_row_valid (patients db) -> List.Forall patient_row_valid (patients db1).
Proof.
  intros H Hv. destruct (post_patients_db db db1 n t f body resp H)
    as [-> | [ins [Hp [_ [_ ->]]]]]; [exact Hv|].
  destruct (parse_insertPatient_ok body ins Hp)
    as [kvs [_ [_ [Hn [_ [Ha [_ [Hg [_ Hw]]]]]]]]].
  simpl. apply List.Forall_app. split; [exact Hv|].
  constructor; [|constructor]. unfold patient_row_valid. simpl.
  split; [exact Hn | split; [exact Ha | split; [exact Hg | exact (proj1 Hw)]]].
Qed.

Lemma post_patients_keeps_rows_valid_witness :
  exists db1 resp,
    post_patients db_p1 "p2" "2024-01-03T08:00:00.000Z" false
      (VObj [("name", VStr "B"); ("age", VNum 41); ("gender", VStr "female");
             ("weight", VNum 60)]) = (db1, resp) /\
    List.Forall patient_row_valid (patients db1).
Proof.
  eexists _, _. split; [reflexivity|].
  apply (post_patients_keeps_rows_valid db_p1 _ "p2" "2024-01-03T08:00:00.000Z" false
    (VObj [("name", VStr "B"); ("age", VNum 41); ("gender", VStr "female");
           ("weight", VNum 60)]) _ eq_refl).
  constructor; [|constructor]. unfold patient_row_valid. simpl.
  split; [lia|]. split; [lra|]. split; [by left | exact I].
Defined.

(** Extra.  When [POST /api/patients] answers 201 with a patient, the
    patient carries the new id and the body's name, age and gender, and its
    weight, contactNumber and address are the body's values with [undefined]
    and [null] turned into [null]; [GET /api/patients/:id] then answers 200
    with the same patient. *)
Theorem post_patients_created (db db1 : Db) (n t : string) (f : bool)
        (kvs : list (string * jsval)) (p : Patient) :
  post_patients db n t f (VObj kvs) = (db1, PStatus201 p) ->
  pt_id p = n /\ pt_createdAt p = t /\
  get_prop kvs "name" = VStr (pt_name p) /\ get_prop kvs "age" = VNum (pt_age p) /\
  get_prop kvs "gender" = VStr (pt_gender p) /\
  pt_weight p = nullish_or (get_prop kvs "weight") VNull /\
  pt_contactNumber p = nullish_or (get_prop kvs "contactNumber") VNull /\
  pt_address p = nullish_or (get_prop kvs "address") VNull /\
  get_patient db1 n = PStatus200 p.
Proof.
  intros H. exact (post_patients_created_fields db db1 n t f kvs p H).
Qed.

Lemma post_patients_created_witness :
  exists db1 p,
    post_patients db_p1 "p2" "2024-01-03T08:00:00.000Z" false
      (VObj [("name", VStr "B"); ("age", VNum 41); ("gender", VStr "female");
             ("contactNumber", VNull)]) = (db1, PStatus201 p) /\
    pt_weight p = VNull /\ get_patient db1 "p2" = PStatus200 p.
Proof.
  eexists _, _. split; [reflexivity|].
  destruct (post_patients_created db_p1 _ "p2" "2024-01-03T08:00:00.000Z" false
    [("name", VStr "B"); ("age", VNum 41); ("gender", VStr "female");
     ("contactNumber", VNull)] _ eq_refl)
    as [_ [_ [_ [_ [_ [Hw [_ [_ Hg]]]]]]]].
  split; [exact Hw | exact Hg].
Defined.

End ExtraPatients.

Module ExtraClientProofs.
Import Schema Storage Routes Patients Pages OfflineCache StoreSpec ClientSpec
       OfflineProofs ExtraProofs ExtraPatientProofs.

Lemma parse_symptomAnalysis_issue (kvs : list (string * jsval)) (i : issue) :
  In i (errors_of (z_string ["patientId"] (get_prop kvs "patientId"))
        ++ errors_of (z_symptoms (get_prop kvs "symptoms"))
        ++ errors_of (z_optional z_vitalSigns (get_prop kvs "vitalSigns"))
        ++ errors_of (z_number ["patientAge"] (get_prop kvs "patientAge"))
        ++ errors_of (z_string ["patientGender"] (get_prop kvs "patientGender"))
        ++ errors_of (z_optional (z_number ["patientWeight"]) (get_prop kvs "patientWeight"))
        ++ errors_of (z_language (get_prop kvs "language"))) ->
  exists errs, parse_symptomAnalysis (VObj kvs) = inl errs /\ In i errs.
Proof.
  unfold parse_symptomAnalysis.
  destruct (z_string ["patientId"] _), (z_symptoms _), (z_optional z_vitalSigns _),
    (z_number _ _), (z_string ["patientGender"] _), (z_optional (z_number _) _),
    (z_language _);
    simpl; intros Hi; first [ contradiction | eexists; split; [reflexivity | exact Hi] ].
Qed.

Lemma parse_symptomAnalysis_ok (kvs : list (string * jsval)) a b c d e f g :
  z_string ["patientId"] (get_prop kvs "patientId") = inr a ->
  z_symptoms (get_prop kvs "symptoms") = inr b ->
  z_optional z_vitalSigns (get_prop kvs "vitalSigns") = inr c ->
  z_number ["patientAge"] (get_prop kvs "patientAge") = inr d ->
  z_string ["patientGender"] (get_prop kvs "patientGender") = inr e ->
  z_optional (z_number ["patientWeight"]) (get_prop kvs "patientWeight") = inr f ->
  z_language (get_prop kvs "language") = inr g ->
  parse_symptomAnalysis (VObj kvs) =
    inr {| Schema.patientId := a; Schema.symptoms := b; Schema.vitalSigns := c;
           Schema.patientAge := d; Schema.patientGender := e; Schema.patientWeight := f;
           Schema.language := g |}.
Proof.
  intros H1 H2 H3 H4 H5 H6 H7. lazy beta iota delta [parse_symptomAnalysis].
  rewrite H1, H2, H3, H4, H5, H6, H7. reflexivity.
Qed.

Lemma json_prop' (jo : json) (kvs : list (string * jsval)) (k : string) (v : jsval) (j : json) :
  stringify (VObj kvs) = Some jo -> get_prop kvs k = v -> stringify v = Some j ->
  prop (parse jo) k = parse j.
Proof. intros Ho Hg Hs. exact (json_prop kvs k v j jo Hg Hs Ho). Qed.

Lemma stringify_obj_parse (kvs : list (string * jsval)) (jo : json) :
  stringify (VObj kvs) = Some jo -> exists kvs', parse jo = VObj kvs'.
Proof. simpl. intros H. injection H as <-. simpl. eexists. reflexivity. Qed.

Lemma handleAddPatient_no_weight (parseInt : string -> jsval) (np : NewPatientForm) (b : jsval) :
  handleAddPatient parseInt np = Some b -> f_weight np = "" ->
  exists kvs, b = VObj kvs /\ List.Forall (fun kv => fst kv = "weight" -> snd kv = VUndefined) kvs.
Proof.
  unfold handleAddPatient. destruct (negb _ || negb _); [discriminate|].
  intros H Hw. injection H as <-. eexists. split; [reflexivity|]. rewrite Hw.
  repeat constructor; simpl; intros E; first [discriminate | reflexivity].
Qed.

Lemma handleAnalyze_some (parseFloat parseInt : string -> jsval) (sel : jsval)
      (syms : list string) (vitals : VitalInputs) (lang : string) (b : jsval) :
  handleAnalyze parseFloat parseInt sel syms vitals lang = Some b ->
  syms <> [] /\
  b = VObj [("patientId", prop sel "id");
            ("symptoms", VArr (map VStr syms));
            ("vitalSigns", if (0 <? length (vitalSignsData parseFloat parseInt vitals))%nat
                           then VObj (vitalSignsData parseFloat parseInt vitals)
                           else VUndefined);
            ("patientAge", prop sel "age");
            ("patientGender", prop sel "gender");
            ("patientWeight", prop sel "weight");
            ("language", VStr lang)].
Proof.
  unfold handleAnalyze. destruct (negb (truthy sel) || _) eqn:E; [discriminate|].
  intros H. injection H as <-. split; [|reflexivity].
  apply orb_false_iff in E as [_ E]. destruct syms; [discriminate | congruence].
Qed.

Lemma index_strings_strs (i : nat) (ss : list string) (path : list string) :
  index_strings i (map VStr ss) path = ([], ss).
Proof.
  revert i. induction ss as [|s ss IH]; intros i; simpl; [reflexivity|]. by rewrite IH.
Qed.

Lemma z_symptoms_strs (ss : list string) : ss <> [] -> z_symptoms (VArr (map VStr ss)) = inr ss.
Proof.
  intros Hne. unfold z_symptoms. rewrite index_strings_strs.
  destruct ss; [contradiction | reflexivity].
Qed.

Lemma stringify_strs (ss : list string) :
  stringify (VArr (map VStr ss)) = Some (JArr (map JStr ss)).
Proof.
  induction ss as [|s ss IH]; [reflexivity|]. simpl in *. injection IH as IH. by rewrite IH.
Qed.

Lemma parse_strs (ss : list string) : parse (JArr (map JStr ss)) = VArr (map VStr ss).
Proof. simpl. f_equal. rewrite map_map. reflexivity. Qed.

Lemma z_language_ok (lang : string) :
  In lang ["en"; "hi"; "ta"; "te"; "bn"] -> z_language (VStr lang) = inr lang.
Proof. intros H. repeat destruct H as [<- | H]; try reflexivity. destruct H. Qed.

Lemma vitals_ok (parseFloat parseInt : string -> jsval) (vitals : VitalInputs) :
  (forall s, nonempty s = true -> exists q, parseFloat s = VNum q) ->
  (forall s, nonempty s = true -> exists q, parseInt s = VNum q) ->
  plain (VObj (vitalSignsData parseFloat parseInt vitals)) = true /\
  exists a, z_vitalSigns (VObj (vitalSignsData parseFloat parseInt vitals)) = inr a.
Proof.
  intros Hf Hi. unfold vitalSignsData.
  destruct (nonempty (temperature vitals)) eqn:E1; [destruct (Hf _ E1) as [q1 ->]|];
  destruct (nonempty (bloodPressure vitals)) eqn:E2;
  destruct (nonempty (heartRate vitals)) eqn:E3; try (destruct (Hi _ E3) as [q3 ->]);
  destruct (nonempty (respiratoryRate vitals)) eqn:E4; try (destruct (Hi _ E4) as [q4 ->]);
  destruct (nonempty (oxygenSaturation vitals)) eqn:E5; try (destruct (Hf _ E5) as [q5 ->]);
  simpl; (split; [reflexivity | eexists; reflexivity]).
Qed.

Lemma get_plain (c : collection) (ls : local_storage) : plain (get c ls) = true.
Proof.
  unfold get. destruct (ls !! key_of c) as [[j|s]|]; [apply plain_parse | reflexivity ..].
Qed.

Lemma filter_not_in (s : string) (l : list string) :
  ~ In s l -> List.filter (fun x => negb (String.eqb x s)) l = l.
Proof.
  induction l as [|x l IH]; simpl; intros H; [reflexivity|].
  destruct (String.eqb_spec x s) as [<-|_]; [tauto|]. simpl. f_equal. tauto.
Qed.

Lemma existsb_eqb_in (s : string) (l : list string) :
  existsb (String.eqb s) l = true <-> In s l.
Proof.
  rewrite existsb_exists. split.
  - intros [x [Hx E]]. apply String.eqb_eq in E. by subst.
  - intros H. exists s. split; [exact H | apply String.eqb_refl].
Qed.

Lemma history_before_trans (gt : jsval -> option Z) :
  Transitive (history_before gt).
Proof.
  intros a b c. unfold history_before.
  destruct (parseCreatedAt gt (prop a "createdAt")),
    (parseCreatedAt gt (prop b "createdAt")),
    (parseCreatedAt gt (prop c "createdAt")); simpl; intros; try tauto; lia.
Qed.

End ExtraClientProofs.

Module ExtraClient.
Import Schema Storage Routes Patients Pages OfflineCache StoreSpec ClientSpec Samples
       OfflineProofs SearchProofs ExtraProofs ExtraPatientProofs ExtraClientProofs.

(** Extra.  A patient added on the patients page with an empty weight field
    can never be diagnosed online: [POST /api/patients] stores the weight
    as [null], the patient list sends it back as [weight: null],
    [handleAnalyze] forwards it as [patientWeight], and
    [POST /api/diagnose] answers 400 "Invalid diagnosis data" with the issue
    "Expected number, received null" at [patientWeight], without calling
    the NLP service or touching the database. *)
Theorem weightless_patient_not_diagnosable
        (parseFloat parseInt : string -> jsval) (np : NewPatientForm)
        (db db1 : Db) (n t : string) (f : bool) (b1 : jsval) (j1 : json)
        (p : Patient) (jp : json) (syms : list string) (vitals : VitalInputs)
        (lang : string) (b2 : jsval) (j2 : json) (env : ServerEnv) :
  handleAddPatient parseInt np = Some b1 -> f_weight np = "" -> stringify b1 = Some j1 ->
  post_patients db n t f (parse j1) = (db1, PStatus201 p) ->
  stringify (patient_val p) = Some jp ->
  handleAnalyze parseFloat parseInt (parse jp) syms vitals lang = Some b2 ->
  stringify b2 = Some j2 ->
  pt_weight p = VNull /\
  exists errs, diagnose db1 env (parse j2) = (db1, [], Status400 "Invalid diagnosis data" errs)
               /\ In (["patientWeight"], "Expected number, received null") errs.
Proof.
  intros Ha Hw Hj1 Hpost Hjp Han Hj2.
  destruct (handleAddPatient_no_weight _ _ _ Ha Hw) as [kvs1 [-> Hall]].
  pose proof (json_prop_undefined kvs1 "weight" j1 Hall Hj1) as Hw1.
  destruct (stringify_obj_parse kvs1 j1 Hj1) as [kvs1' Hp1].
  rewrite Hp1 in Hpost, Hw1. simpl in Hw1.
  destruct (post_patients_created_fields _ _ _ _ _ _ _ Hpost) as [_ [_ [_ [_ [_ [Hpw _]]]]]].
  rewrite Hw1 in Hpw. simpl in Hpw. split; [exact Hpw|].
  unfold patient_val in Hjp.
  assert (Hsel : prop (parse jp) "weight" = VNull).
  { refine (json_prop _ "weight" VNull JNull jp _ eq_refl Hjp). simpl. exact Hpw. }
  destruct (handleAnalyze_some _ _ _ _ _ _ _ Han) as [_ ->].
  assert (Hw2 : prop (parse j2) "patientWeight" = VNull).
  { refine (json_prop _ "patientWeight" VNull JNull j2 _ eq_refl Hj2). simpl. exact Hsel. }
  destruct (stringify_obj_parse _ j2 Hj2) as [kvs2 Hp2]. rewrite Hp2 in Hw2 |- *.
  simpl in Hw2.
  destruct (parse_symptomAnalysis_issue kvs2 (["patientWeight"], "Expected number, received null"))
    as [errs [Hps Hin]].
  { rewrite Hw2, !in_app_iff. right; right; right; right; right; left. simpl. by left. }
  exists errs. unfold diagnose. rewrite Hps. split; [reflexivity | exact Hin].
Qed.

Lemma weightless_patient_not_diagnosable_witness :
  exists b1 j1 db1 p jp b2 j2 errs,
    handleAddPatient (fun _ => VNum 41)
      {| f_name := "B"; f_age := "41"; f_gender := "female"; f_weight := "";
         f_contactNumber := ""; f_address := "" |} = Some b1 /\
    stringify b1 = Some j1 /\
    post_patients db_p1 "p2" "2024-01-03T08:00:00.000Z" false (parse j1) = (db1, PStatus201 p) /\
    stringify (patient_val p) = Some jp /\
    handleAnalyze (fun _ => VNum 37) (fun _ => VNum 80) (parse jp) ["fever"]
      {| temperature := "37"; bloodPressure := ""; heartRate := ""; respiratoryRate := "";
         oxygenSaturation := "" |} "en" = Some b2 /\
    stringify b2 = Some j2 /\
    diagnose db1 (env_flu false) (parse j2) = (db1, [], Status400 "Invalid diagnosis data" errs) /\
    In (["patientWeight"], "Expected number, received null") errs.
Proof.
  destruct (weightless_patient_not_diagnosable (fun _ => VNum 37) (fun _ => VNum 41)
     {| f_name := "B"; f_age := "41"; f_gender := "female"; f_weight := "";
        f_contactNumber := ""; f_address := "" |} db_p1 _ "p2" "2024-01-03T08:00:00.000Z" false
     _ _ _ _ ["fever"]
     {| temperature := "37"; bloodPressure := ""; heartRate := ""; respiratoryRate := "";
        oxygenSaturation := "" |} "en" _ _ (env_flu false)
     eq_refl eq_refl eq_refl eq_refl eq_refl eq_refl eq_refl) as [_ [errs [HD HE]]].
  do 7 eexists. exists errs.
  split; [reflexivity|]. split; [reflexivity|]. split; [reflexivity|]. split; [reflexivity|].
  split; [reflexivity|]. split; [reflexivity|].
  exact (conj HD HE).
Defined.

(** Extra.  For a patient whose stored weight is a number, the request
    [handleAnalyze] builds passes [symptomAnalysisSchema] after its JSON
    round trip when the vital-sign fields parse to numbers and the language
    is one of the five: the parsed request carries the patient's id, age,
    gender and weight, the selected symptoms and the language. *)
Theorem weighted_patient_request_validates
        (parseFloat parseInt : string -> jsval) (p : Patient) (w : Q) (jp : json)
        (syms : list string) (vitals : VitalInputs) (lang : string) (b2 : jsval) (j2 : json) :
  pt_weight p = VNum w -> stringify (patient_val p) = Some jp ->
  (forall s, nonempty s = true -> exists q, parseFloat s = VNum q) ->
  (forall s, nonempty s = true -> exists q, parseInt s = VNum q) ->
  In lang ["en"; "hi"; "ta"; "te"; "bn"] ->
  handleAnalyze parseFloat parseInt (parse jp) syms vitals lang = Some b2 ->
  stringify b2 = Some j2 ->
  exists v, parse_symptomAnalysis (parse j2) = inr v /\
    Schema.patientId v = pt_id p /\ Schema.symptoms v = syms /\
    Schema.patientAge v = pt_age p /\ Schema.patientGender v = pt_gender p /\
    Schema.patientWeight v = Some w /\ Schema.language v = lang.
Proof.
  intros Hw Hjp Hf Hi Hl Han Hj2.
  unfold patient_val in Hjp.
  pose proof (json_prop' _ _ "id" _ _ Hjp eq_refl eq_refl) as Hid.
  pose proof (json_prop' _ _ "age" _ _ Hjp eq_refl eq_refl) as Hage.
  pose proof (json_prop' _ _ "gender" _ _ Hjp eq_refl eq_refl) as Hgen.
  assert (Hwt : prop (parse jp) "weight" = VNum w).
  { refine (json_prop _ "weight" (VNum w) (JNum w) jp _ eq_refl Hjp). simpl. exact Hw. }
  simpl in Hid, Hage, Hgen, Hwt.
  destruct (handleAnalyze_some _ _ _ _ _ _ _ Han) as [Hne ->].
  rewrite Hid, Hage, Hgen, Hwt in Hj2.
  destruct (vitals_ok parseFloat parseInt vitals Hf Hi) as [Hpl [a Ha]].
  assert (Hvs : exists o, forall kvs2, parse j2 = VObj kvs2 ->
                  z_optional z_vitalSigns (get_prop kvs2 "vitalSigns") = inr o).
  { destruct (0 <? length (vitalSignsData parseFloat parseInt vitals))%nat eqn:E.
    - destruct (plain_roundtrip _ Hpl) as [jv [Hjv Hpv]].
      exists (Some a). intros kvs2 Hp2.
      pose proof (json_prop' _ _ "vitalSigns" _ _ Hj2 eq_refl Hjv) as Hv.
      rewrite Hp2, Hpv in Hv. simpl in Hv. rewrite Hv. unfold z_optional. rewrite Ha. reflexivity.
    - exists None. intros kvs2 Hp2.
      assert (Hv : prop (parse j2) "vitalSigns" = VUndefined).
      { refine (json_prop_undefined _ _ j2 _ Hj2).
        repeat constructor; simpl; intros Ek; first [discriminate | reflexivity]. }
      rewrite Hp2 in Hv. simpl in Hv. by rewrite Hv. }
  destruct Hvs as [o Hvs].
  pose proof (json_prop' _ _ "patientId" _ _ Hj2 eq_refl eq_refl) as P1.
  pose proof (json_prop' _ _ "symptoms" _ _ Hj2 eq_refl (stringify_strs syms)) as P2.
  pose proof (json_prop' _ _ "patientAge" _ _ Hj2 eq_refl eq_refl) as P4.
  pose proof (json_prop' _ _ "patientGender" _ _ Hj2 eq_refl eq_refl) as P5.
  pose proof (json_prop' _ _ "patientWeight" _ _ Hj2 eq_refl eq_refl) as P6.
  pose proof (json_prop' _ _ "language" _ _ Hj2 eq_refl eq_refl) as P7.
  destruct (stringify_obj_parse _ j2 Hj2) as [kvs2 Hp2].
  specialize (Hvs kvs2 Hp2).
  rewrite Hp2 in P1, P2, P4, P5, P6, P7. rewrite parse_strs in P2. simpl in P1, P2, P4, P5, P6, P7.
  rewrite Hp2. eexists. split.
  - apply parse_symptomAnalysis_ok.
    + rewrite P1. reflexivity.
    + rewrite P2. exact (z_symptoms_strs syms Hne).
    + exact Hvs.
    + rewrite P4. reflexivity.
    + rewrite P5. reflexivity.
    + rewrite P6. reflexivity.
    + rewrite P7. exact (z_language_ok lang Hl).
  - simpl. repeat split.
Qed.

Lemma weighted_patient_request_validates_witness :
  exists jp b2 j2 v,
    stringify (patient_val {| pt_id := "p1"; pt_name := "A"; pt_age := 30;
                              pt_gender := "male"; pt_weight := VNum 70;
                              pt_contactNumber := VNull; pt_address := VNull;
                              pt_createdAt := "2024-01-01T00:00:00.000Z" |}) = Some jp /\
    handleAnalyze (fun _ => VNum 37) (fun _ => VNum 80) (parse jp) ["fever"; "cough"]
      {| temperature := "37.5"; bloodPressure := "120/80"; heartRate := "80";
         respiratoryRate := ""; oxygenSaturation := "" |} "hi" = Some b2 /\
    stringify b2 = Some j2 /\
    parse_symptomAnalysis (parse j2) = inr v /\ Schema.patientWeight v = Some 70%Q.
Proof.
  do 3 eexists. 
  destruct (weighted_patient_request_validates (fun _ => VNum 37) (fun _ => VNum 80)
    {| pt_id := "p1"; pt_name := "A"; pt_age := 30; pt_gender := "male"; pt_weight := VNum 70;
       pt_contactNumber := VNull; pt_address := VNull;
       pt_createdAt := "2024-01-01T00:00:00.000Z" |} 70 _ ["fever"; "cough"]
    {| temperature := "37.5"; bloodPressure := "120/80"; heartRate := "80";
       respiratoryRate := ""; oxygenSaturation := "" |} "hi" _ _
    eq_refl eq_refl (fun _ _ => ex_intro _ 37%Q eq_refl) (fun _ _ => ex_intro _ 80%Q eq_refl)
    ltac:(simpl; tauto) eq_refl eq_refl) as [v [Hv [_ [_ [_ [_ [Hw _]]]]]]].
  exists v. split; [reflexivity|]. split; [reflexivity|]. split; [reflexivity|].
  split; [exact Hv | exact Hw].
Defined.

(** Extra.  [handleSymptomToggle] removes a selected symptom and appends an
    unselected one: afterwards the symptom is selected exactly when it was
    not before, every other symptom keeps its state, and a selection
    without duplicates stays without duplicates. *)
Theorem handleSymptomToggle_spec (prev : list string) (s : string) :
  (forall x, In x (handleSymptomToggle prev s) <->
             (x = s /\ ~ In s prev) \/ (x <> s /\ In x prev)) /\
  (List.NoDup prev -> List.NoDup (handleSymptomToggle prev s)).
Proof.
  unfold handleSymptomToggle. destruct (existsb (String.eqb s) prev) eqn:E.
  - apply existsb_eqb_in in E. split.
    + intros x. rewrite List.filter_In. split.
      * intros [Hx Hn]. right. split; [|exact Hx].
        intros ->. rewrite String.eqb_refl in Hn. discriminate.
      * intros [[_ Hn] | [Hne Hx]]; [contradiction|]. split; [exact Hx|].
        apply negb_true_iff, String.eqb_neq. exact Hne.
    + intros Hd. apply List.NoDup_filter. exact Hd.
  - assert (Hn : ~ In s prev) by (rewrite <- existsb_eqb_in; congruence). split.
    + intros x. rewrite in_app_iff. simpl. split.
      * intros [Hx | [<- | []]]; [right | left; split; [reflexivity | exact Hn]].
        split; [intros ->; contradiction | exact Hx].
      * intros [[-> _] | [_ Hx]]; [right; left; reflexivity | left; exact Hx].
    + intros Hd. apply (Stdlib.Sorting.Permutation.Permutation_NoDup (Permutation_cons_append prev s)).
      constructor; assumption.
Qed.

(** Extra.  Toggling the same symptom twice gives back the same set of
    selected symptoms on a selection without duplicates, and the very same
    list when the symptom was not selected. *)
Theorem handleSymptomToggle_twice (prev : list string) (s : string) :
  List.NoDup prev ->
  Permutation (handleSymptomToggle (handleSymptomToggle prev s) s) prev /\
  (~ In s prev -> handleSymptomToggle (handleSymptomToggle prev s) s = prev).
Proof.
  intros Hd.
  assert (Hout : ~ In s prev -> handleSymptomToggle (handleSymptomToggle prev s) s = prev).
  { intros Hn. unfold handleSymptomToggle at 2.
    assert (E : existsb (String.eqb s) prev = false).
    { destruct (existsb (String.eqb s) prev) eqn:E; [|reflexivity].
      apply existsb_eqb_in in E. contradiction. }
    rewrite E. unfold handleSymptomToggle.
    assert (E2 : existsb (String.eqb s) (prev ++ [s]) = true).
    { apply existsb_eqb_in. apply in_or_app. right. by left. }
    rewrite E2, List.filter_app, filter_not_in; [|exact Hn]. simpl.
    rewrite String.eqb_refl. simpl. apply app_nil_r. }
  split; [|exact Hout].
  destruct (in_dec String.string_dec s prev) as [Hin | Hn]; [|rewrite (Hout Hn); reflexivity].
  apply in_split in Hin as [l1 [l2 ->]].
  apply List.NoDup_remove in Hd as [Hd Hs]. rewrite in_app_iff in Hs.
  assert (E1 : List.filter (fun x => negb (String.eqb x s)) (l1 ++ s :: l2) = l1 ++ l2).
  { rewrite List.filter_app. simpl. rewrite String.eqb_refl. simpl.
    rewrite !filter_not_in; tauto. }
  unfold handleSymptomToggle at 2.
  assert (E2 : existsb (String.eqb s) (l1 ++ s :: l2) = true).
  { apply existsb_eqb_in. apply in_or_app. right. by left. }
  rewrite E2, E1. unfold handleSymptomToggle.
  assert (E3 : existsb (String.eqb s) (l1 ++ l2) = false).
  { destruct (existsb (String.eqb s) (l1 ++ l2)) eqn:E; [|reflexivity].
    apply existsb_eqb_in, in_app_iff in E. tauto. }
  rewrite E3, <- app_assoc. apply Permutation_app_head. simpl.
  symmetry. apply Permutation_cons_append.
Qed.

Lemma handleSymptomToggle_twice_witness :
  List.NoDup ["fever"; "cough"] /\
  Permutation (handleSymptomToggle (handleSymptomToggle ["fever"; "cough"] "fever") "fever")
              ["fever"; "cough"].
Proof.
  assert (Hd : List.NoDup ["fever"; "cough"]).
  { constructor; [simpl; intros [H | []]; discriminate|]. constructor; [simpl; tauto | constructor]. }
  split; [exact Hd | exact (proj1 (handleSymptomToggle_twice _ "fever" Hd))].
Defined.

(** Extra.  Each successful analysis appends its result to the cached
    diagnoses: when [localStorage] accepts the write and the result is
    JSON-plain, [onSuccess] on a cache holding the list [xs] (or nothing)
    leaves [getDiagnoses] returning [xs] followed by the result, records the
    save time and leaves the cached patients alone. *)
Theorem onSuccess_appends (ls : local_storage) (data : jsval) (now : string)
        (xs : list jsval) :
  plain data = true -> now <> "" ->
  get Diagnoses ls = VArr xs \/ (truthy (get Diagnoses ls) = false /\ xs = []) ->
  exists ls' msg, onSuccess ls data now true = Some (ls', msg) /\
    get Diagnoses ls' = VArr (xs ++ [data]) /\ getLastSync ls' = VDate now /\
    get Patients ls' = get Patients ls.
Proof.
  intros Hd Hnow Hc.
  assert (Hpl : forallb plain (xs ++ [data]) = true).
  { rewrite forallb_app. simpl. rewrite Hd. destruct Hc as [Hc | [_ ->]]; [|reflexivity].
    pose proof (get_plain Diagnoses ls) as Hp. rewrite Hc in Hp. simpl in Hp.
    rewrite Hp. reflexivity. }
  destruct (plain_items_stringify _ Hpl) as [j [Hj Hparse]].
  assert (Hs : spread (if truthy (get Diagnoses ls) then get Diagnoses ls else VArr [])
               = Some xs).
  { destruct Hc as [Hc | [Hc ->]]; rewrite Hc; reflexivity. }
  unfold onSuccess. rewrite Hs. do 2 eexists. split; [reflexivity|].
  unfold save. rewrite Hj. split; [|split].
  - unfold get. rewrite lookup_insert_ne; [|discriminate]. rewrite lookup_insert_eq.
    exact Hparse.
  - unfold getLastSync. rewrite lookup_insert_eq.
    destruct (String.eqb_spec now "") as [E|_]; [contradiction | reflexivity].
  - unfold get. rewrite !lookup_insert_ne; [reflexivity | discriminate ..].
Qed.

Lemma onSuccess_appends_witness :
  exists ls' msg,
    onSuccess (save Diagnoses ∅ [VObj [("id", VStr "d1")]] "2024-01-02T10:00:00.000Z" true)
      (VObj [("id", VStr "d2"); ("mode", VStr "offline")]) "2024-01-02T11:00:00.000Z" true
    = Some (ls', msg) /\
    get Diagnoses ls' = VArr [VObj [("id", VStr "d1")];
                              VObj [("id", VStr "d2"); ("mode", VStr "offline")]].
Proof.
  destruct (onSuccess_appends
    (save Diagnoses ∅ [VObj [("id", VStr "d1")]] "2024-01-02T10:00:00.000Z" true)
    (VObj [("id", VStr "d2"); ("mode", VStr "offline")]) "2024-01-02T11:00:00.000Z"
    [VObj [("id", VStr "d1")]] eq_refl ltac:(discriminate) (or_introl eq_refl))
    as [ls' [msg [H1 [H2 _]]]].
  exists ls', msg. split; [exact H1 | exact H2].
Defined.

(** Extra.  The history page's [sortedDiagnoses] reorders the diagnoses
    (nothing lost, nothing added) so that every entry with a valid
    [createdAt] comes before every entry without one, and dated entries are
    newest first. *)
Theorem sortedDiagnoses_order (date_getTime : jsval -> option Z) (ds : list jsval) :
  Permutation (sortedDiagnoses date_getTime ds) ds /\
  StronglySorted (history_before date_getTime) (sortedDiagnoses date_getTime ds).
Proof.
  split; [apply sort_by_perm|].
  apply Sorted_StronglySorted; [apply history_before_trans|].
  unfold sortedDiagnoses. apply sort_by_sorted_gen; intros x y;
    unfold history_cmp, history_before;
    destruct (parseCreatedAt date_getTime (prop y "createdAt")),
      (parseCreatedAt date_getTime (prop x "createdAt")); simpl;
    intros H; try exact I; try discriminate;
    first [ apply Z.ltb_lt in H | apply Z.ltb_ge in H ]; lia.
Qed.

End ExtraClient.

Module ExtraIntegrityProofs.
Import Storage Patients StoreSpec GatewayProofs ExtraStorageProofs.

Lemma nodup_snoc {A} (l : list A) (x : A) :
  List.NoDup l -> ~ In x l -> List.NoDup (l ++ [x]).
Proof.
  intros Hd Hn. apply (Stdlib.Sorting.Permutation.Permutation_NoDup (Permutation_cons_append l x)).
  constructor; assumption.
Qed.

Lemma fresh_not_in {A} (key_of : A -> string) (l : list A) (key : string) :
  existsb (fun r => String.eqb (key_of r) key) l = false -> ~ In key (map key_of l).
Proof.
  intros H Hin. apply in_map_iff in Hin as [r [Hr Hin]].
  assert (E : existsb (fun r => String.eqb (key_of r) key) l = true).
  { apply existsb_exists. exists r. split; [exact Hin | by apply String.eqb_eq]. }
  congruence.
Qed.

Lemma reachable_db_integrity (db : Db) : reachable_db db -> db_integrity db.
Proof.
  induction 1 as [| db n t f ins _ IH | db n t f ins _ IH | db n t f e _ IH].
  - repeat split; try constructor. intros r [].
  - destruct IH as [H1 [H2 [H3 H4]]]. unfold Patients.createPatient.
    destruct f; [repeat split; assumption|].
    destruct (existsb _ (patients db)) eqn:E; [repeat split; assumption|].
    unfold db_integrity; cbn [fst Storage.patients Storage.diagnoses Storage.knowledge_base].
    split; [|split; [exact H2 | split; [exact H3|]]].
    + rewrite List.map_app. apply nodup_snoc; [exact H1 | exact (fresh_not_in p_id _ _ E)].
    + intros r Hr. destruct (H4 r Hr) as [p [Hp Hpid]]. exists p.
      split; [apply in_or_app; left; exact Hp | exact Hpid].
  - destruct IH as [H1 [H2 [H3 H4]]]. unfold createDiagnosis.
    destruct f; [repeat split; assumption|].
    destruct (existsb _ (diagnoses db)) eqn:E; [repeat split; assumption|].
    destruct (negb (existsb _ (patients db))) eqn:Ep; [repeat split; assumption|].
    unfold db_integrity; cbn [fst Storage.patients Storage.diagnoses Storage.knowledge_base].
    split; [exact H1 | split; [|split; [exact H3|]]].
    + rewrite List.map_app. apply nodup_snoc; [exact H2 | exact (fresh_not_in d_id _ _ E)].
    + intros r Hr. apply in_app_or in Hr as [Hr | [<- | []]]; [exact (H4 r Hr)|].
      apply negb_false_iff, existsb_patient_iff in Ep. exact Ep.
  - destruct IH as [H1 [H2 [H3 H4]]]. unfold addKnowledgeEntry.
    destruct f; [repeat split; assumption|].
    destruct (existsb _ (knowledge_base db)) eqn:E; [repeat split; assumption|].
    unfold db_integrity; cbn [fst Storage.patients Storage.diagnoses Storage.knowledge_base].
    split; [exact H1 | split; [exact H2 | split; [|exact H4]]].
    rewrite List.map_app. apply nodup_snoc; [exact H3 | exact (fresh_not_in k_id _ _ E)].
Qed.

End ExtraIntegrityProofs.

Module ExtraIntegrity.
Import Storage Patients StoreSpec Samples GatewayProofs ExtraStorageProofs
       ExtraIntegrityProofs.

(** Extra.  Every database the storage layer's writes build from an empty
    one has unique ids in each of its three tables, and every stored
    diagnosis refers to a stored patient: [createPatient],
    [createDiagnosis] and [addKnowledgeEntry] never insert a duplicate
    primary key or a dangling [patientId]. *)
Theorem storage_integrity (db : Db) : reachable_db db -> db_integrity db.
Proof. exact (reachable_db_integrity db). Qed.

Lemma storage_integrity_witness :
  let db := fst (createDiagnosis
                   (fst (Patients.createPatient empty_db "p1" "2024-01-01T00:00:00.000Z" false
                           {| ip_name := "A"; ip_age := 30; ip_gender := "male";
                              ip_weight := None; ip_contactNumber := None;
                              ip_address := None |}))
                   "d1" "2024-01-02T10:00:00.000Z" false
                   {| i_patientId := "p1"; i_symptoms := Some ["fever"];
                      i_vitalSigns := VUndefined; i_primaryDiagnosis := "Influenza";
                      i_differentialDiagnoses := None; i_treatmentProtocol := VNull;
                      i_requiresReferral := None; i_referralReason := None;
                      i_language := None |}) in
  reachable_db db /\ db_integrity db.
Proof.
  cbv zeta. assert (H : reachable_db (fst (createDiagnosis
                   (fst (Patients.createPatient empty_db "p1" "2024-01-01T00:00:00.000Z" false
                           {| ip_name := "A"; ip_age := 30; ip_gender := "male";
                              ip_weight := None; ip_contactNumber := None;
                              ip_address := None |}))
                   "d1" "2024-01-02T10:00:00.000Z" false
                   {| i_patientId := "p1"; i_symptoms := Some ["fever"];
                      i_vitalSigns := VUndefined; i_primaryDiagnosis := "Influenza";
                      i_differentialDiagnoses := None; i_treatmentProtocol := VNull;
                      i_requiresReferral := None; i_referralReason := None;
                      i_language := None |}))).
  { apply rdb_diagnosis, rdb_patient, rdb_empty. }
  split; [exact H | exact (storage_integrity _ H)].
Defined.

(** Extra.  On a database the storage layer built, a patient that
    [createPatient] has just stored has no diagnoses yet:
    [getDiagnosesByPatient] for the new id is empty. *)
Theorem new_patient_has_no_diagnoses (db db1 : Db) (n t : string) (f : bool)
        (ins : InsertPatient) (p : Patient) :
  reachable_db db ->
  Patients.createPatient db n t f ins = (db1, inr p) ->
  getDiagnosesByPatient db1 n = [].
Proof.
  intros Hr H. destruct (reachable_db_integrity db Hr) as [_ [_ [_ Hfk]]].
  unfold Patients.createPatient in H. destruct f; [discriminate|].
  destruct (existsb _ (patients db)) eqn:E; [discriminate|]. injection H as <- _.
  unfold getDiagnosesByPatient. simpl.
  assert (Hf : List.filter (fun r => String.eqb (d_patientId r) n) (diagnoses db) = []).
  { destruct (List.filter _ (diagnoses db)) as [|r rs] eqn:Ef; [reflexivity|].
    assert (Hin : In r (List.filter (fun r => String.eqb (d_patientId r) n) (diagnoses db)))
      by (rewrite Ef; left; reflexivity).
    apply List.filter_In in Hin as [Hin Hpid]. apply String.eqb_eq in Hpid.
    destruct (Hfk r Hin) as [q [Hq Hqid]].
    exfalso. apply (fresh_not_in p_id (patients db) n E). apply in_map_iff.
    exists q. split; [congruence | exact Hq]. }
  rewrite Hf. reflexivity.
Qed.

Lemma new_patient_has_no_diagnoses_witness :
  exists db1 p,
    Patients.createPatient (fst (createDiagnosis db_p1 "d1" "2024-01-02T10:00:00.000Z" false
                   {| i_patientId := "p1"; i_symptoms := Some ["fever"];
                      i_vitalSigns := VUndefined; i_primaryDiagnosis := "Influenza";
                      i_differentialDiagnoses := None; i_treatmentProtocol := VNull;
                      i_requiresReferral := None; i_referralReason := None;
                      i_language := None |}))
      "p2" "2024-01-03T08:00:00.000Z" false
      {| ip_name := "B"; ip_age := 41; ip_gender := "female"; ip_weight := None;
         ip_contactNumber := None; ip_address := None |} = (db1, inr p) /\
    getDiagnosesByPatient db1 "p2" = [].
Proof.
  assert (Hr : reachable_db (fst (createDiagnosis db_p1 "d1" "2024-01-02T10:00:00.000Z" false
                   {| i_patientId := "p1"; i_symptoms := Some ["fever"];
                      i_vitalSigns := VUndefined; i_primaryDiagnosis := "Influenza";
                      i_differentialDiagnoses := None; i_treatmentProtocol := VNull;
                      i_requiresReferral := None; i_referralReason := None;
                      i_language := None |}))).
  { apply rdb_diagnosis.
    change db_p1 with (fst (Patients.createPatient empty_db "p1" "2024-01-01T00:00:00.000Z" false
                              {| ip_name := "A"; ip_age := 30; ip_gender := "male";
                                 ip_weight := None; ip_contactNumber := None;
                                 ip_address := None |})).
    apply rdb_patient, rdb_empty. }
  eexists _, _. split; [reflexivity|].
  exact (new_patient_has_no_diagnoses _ _ "p2" "2024-01-03T08:00:00.000Z" false _ _ Hr eq_refl).
Defined.

End ExtraIntegrity.

Module ExtraDrugProofs.
Import Schema DrugRoutes ExtraClientProofs.

Lemma index_strings_nil_inv (i : nat) (xs : list jsval) (path : list string) (ss : list string) :
  index_strings i xs path = ([], ss) -> xs = map VStr ss.
Proof.
  revert i ss. induction xs as [|x xs IH]; intros i ss; simpl.
  - intros H. injection H as <-. reflexivity.
  - destruct (index_strings (S i) xs path) as [is ss'] eqn:E.
    destruct x; intros H; try discriminate. injection H as -> <-.
    simpl. f_equal. exact (IH (S i) ss' E).
Qed.

Lemma z_medications_ok (v : jsval) (ss : list string) :
  z_medications v = inr ss -> v = VArr (map VStr ss) /\ ss <> [].
Proof.
  unfold z_medications. destruct v as [| | | | | xs | |]; try discriminate.
  destruct (index_strings 0 xs ["medications"]) as [is ss'] eqn:E.
  destruct xs as [|x xs]; [simpl in E; injection E as <- <-; discriminate|].
  simpl (length _). cbn iota beta. destruct is as [|i is]; [|discriminate].
  intros H. injection H as <-. apply index_strings_nil_inv in E. rewrite E.
  split; [reflexivity|]. destruct ss'; discriminate.
Qed.

Lemma z_medications_strs (ss : list string) :
  ss <> [] -> z_medications (VArr (map VStr ss)) = inr ss.
Proof.
  intros Hne. unfold z_medications. rewrite index_strings_strs.
  destruct ss; [contradiction | reflexivity].
Qed.

Lemma z_medications_empty : z_medications (VArr []) =
  inl [(["medications"], "Array must contain at least 1 element(s)")].
Proof. reflexivity. Qed.

Lemma z_optional_number (v : jsval) (o : option Q) :
  z_optional (z_number ["patientWeight"]) v = inr o ->
  v = match o with Some w => VNum w | None => VUndefined end.
Proof.
  unfold z_optional. destruct v; simpl; try discriminate;
    intros H; injection H as <-; reflexivity.
Qed.

Lemma parse_drugInteraction_ok (body : jsval) (d : DrugInteraction) :
  parse_drugInteraction body = inr d <->
  exists kvs, body = VObj kvs /\
    get_prop kvs "medications" = VArr (map VStr (medications d)) /\ medications d <> [] /\
    get_prop kvs "patientAge" = VNum (patientAge d) /\
    get_prop kvs "patientWeight" =
      match patientWeight d with Some w => VNum w | None => VUndefined end.
Proof.
  split.
  - unfold parse_drugInteraction. destruct body as [| | | | | | kvs |]; try discriminate.
    destruct (z_medications (get_prop kvs "medications")) as [e1|a] eqn:E1;
      [destruct (z_number _ _), (z_optional _ _); discriminate|].
    destruct (z_number ["patientAge"] (get_prop kvs "patientAge")) as [e2|b] eqn:E2;
      [destruct (z_optional _ _); discriminate|].
    destruct (z_optional (z_number ["patientWeight"]) (get_prop kvs "patientWeight"))
      as [e3|c] eqn:E3; [discriminate|].
    intros H. injection H as <-. exists kvs. simpl.
    destruct (z_medications_ok _ _ E1) as [Hm Hne].
    apply z_optional_number in E3.
    unfold z_number in E2. destruct (get_prop kvs "patientAge"); try discriminate.
    injection E2 as <-. repeat split; assumption.
  - intros [kvs [-> [Hm [Hne [Ha Hw]]]]]. unfold parse_drugInteraction.
    rewrite Hm, Ha, Hw, (z_medications_strs _ Hne). simpl.
    destruct d as [ms a [w|]]; reflexivity.
Qed.

Lemma stringify_drug (d : DrugInteraction) :
  stringify (drugInteraction_val d) =
  Some (JObj ([("medications", JArr (map JStr (medications d)));
               ("patientAge", JNum (patientAge d))] ++
              match patientWeight d with Some w => [("patientWeight", JNum w)] | None => [] end)).
Proof.
  assert (H := stringify_strs (medications d)). destruct d as [ms a w].
  unfold drugInteraction_val. simpl in *. injection H as H. rewrite H.
  destruct w; reflexivity.
Qed.

End ExtraDrugProofs.

Module ExtraDrug.
Import Schema DrugRoutes ExtraClientProofs ExtraDrugProofs.

(** Extra.  [POST /api/drug-interactions] answers 200 with [d] as
    [receivedPayload] exactly when the body is an object whose
    [medications] is a non-empty array of the strings of [d], whose
    [patientAge] is the number of [d] and whose [patientWeight] is absent
    or the number of [d]; the payload keeps no other key.  Every other body
    gets 400 "Invalid request data". *)
Theorem post_drug_interactions_200_iff (body : jsval) (m : string) (d : DrugInteraction) :
  post_drug_interactions body = DIStatus200 m d <->
  m = drug_ok_message /\
  exists kvs, body = VObj kvs /\
    get_prop kvs "medications" = VArr (map VStr (medications d)) /\ medications d <> [] /\
    get_prop kvs "patientAge" = VNum (patientAge d) /\
    get_prop kvs "patientWeight" =
      match patientWeight d with Some w => VNum w | None => VUndefined end.
Proof.
  unfold post_drug_interactions. rewrite <- parse_drugInteraction_ok.
  destruct (parse_drugInteraction body) as [errs|d'].
  - split; [discriminate | intros [_ H]; discriminate].
  - split.
    + intros H. injection H as <- <-. split; reflexivity.
    + intros [-> H]. injection H as ->. reflexivity.
Qed.

(** Extra.  The route echoes what a client sends: for a payload with at
    least one medication, the JSON text of [drugInteraction_val d], parsed
    by [express.json()], is answered 200 with [d] itself as
    [receivedPayload]. *)
Theorem post_drug_interactions_echo (d : DrugInteraction) (j : json) :
  medications d <> [] -> stringify (drugInteraction_val d) = Some j ->
  post_drug_interactions (parse j) = DIStatus200 drug_ok_message d.
Proof.
  intros Hne Hj. rewrite stringify_drug in Hj. injection Hj as <-.
  unfold post_drug_interactions.
  replace (parse_drugInteraction _) with (inr d : list issue + DrugInteraction);
    [reflexivity|].
  symmetry. apply parse_drugInteraction_ok.
  destruct d as [ms a [w|]]; simpl in *; eexists; split; try reflexivity;
    rewrite <- (parse_strs ms); simpl; (split; [reflexivity|]); (split; [exact Hne|]);
    split; reflexivity.
Qed.

Lemma post_drug_interactions_echo_witness :
  post_drug_interactions
    (parse (JObj [("medications", JArr [JStr "warfarin"; JStr "aspirin"]);
                  ("patientAge", JNum 67)]))
  = DIStatus200 drug_ok_message
      {| medications := ["warfarin"; "aspirin"]; patientAge := 67; patientWeight := None |}.
Proof.
  apply (post_drug_interactions_echo
           {| medications := ["warfarin"; "aspirin"]; patientAge := 67; patientWeight := None |}).
  - discriminate.
  - reflexivity.
Defined.

(** Extra.  An object body whose [medications] is an empty array is
    answered 400 "Invalid request data", and the Zod error list holds the
    [medications] issue "Array must contain at least 1 element(s)",
    whatever the other keys hold. *)
Theorem post_drug_interactions_rejects_empty (kvs : list (string * jsval)) :
  get_prop kvs "medications" = VArr [] ->
  exists errs, post_drug_interactions (VObj kvs) = DIStatus400 "Invalid request data" errs /\
    In (["medications"], "Array must contain at least 1 element(s)") errs.
Proof.
  intros Hm. unfold post_drug_interactions, parse_drugInteraction.
  rewrite Hm, z_medications_empty.
  eexists. split; [reflexivity|]. simpl. left. reflexivity.
Qed.

Lemma post_drug_interactions_rejects_empty_witness :
  exists errs,
    post_drug_interactions (VObj [("medications", VArr []); ("patientAge", VStr "67")])
    = DIStatus400 "Invalid request data" errs /\
    In (["medications"], "Array must contain at least 1 element(s)") errs.
Proof.
  apply (post_drug_interactions_rejects_empty [("medications", VArr []); ("patientAge", VStr "67")]).
  reflexivity.
Defined.

End ExtraDrug.

Module ExtraKnowledgeRoute.
Import Storage KnowledgeRoutes.

(** Extra.  [POST /api/knowledge/search] answers 400 "Symptoms are
    required" exactly when the body's [symptoms] is not a non-empty array,
    whatever the storage call would do; a body with a non-empty array is
    always passed on to [searchKnowledge] (200 with its results, or 500
    when it throws). *)
Theorem post_knowledge_search_guard
        (search : jsval -> jsval -> jsval -> option (list KnowledgeBase)) (body : jsval) :
  (post_knowledge_search search body = KStatus400 "Symptoms are required" <->
   forall x xs, prop body "symptoms" <> VArr (x :: xs)) /\
  forall x xs, prop body "symptoms" = VArr (x :: xs) ->
    post_knowledge_search search body =
      match search (VArr (x :: xs)) (prop body "ageGroup") (prop body "gender") with
      | None => KStatus500 "Failed to search knowledge base"
      | Some results => KStatus200 results
      end.
Proof.
  unfold post_knowledge_search. split.
  - destruct (prop body "symptoms") as [| | | | | [|x xs] | |]; simpl; rewrite ?orb_true_r;
      try (split; [intros _ y ys E; discriminate E | reflexivity]).
    destruct (search _ _ _); split; try discriminate;
        intros H; exfalso; exact (H x xs eq_refl).
  - intros x xs ->. reflexivity.
Qed.

End ExtraKnowledgeRoute.

Module ExtraFormProofs.
Import Schema Storage Patients Pages.

Lemma nonempty_length (s : string) : nonempty s = true -> (0 < String.length s)%nat.
Proof. destruct s; simpl; [discriminate | intros _; lia]. Qed.

Lemma z_name_str (s : string) : (0 < String.length s)%nat -> z_name (VStr s) = inr s.
Proof.
  intros H. unfold z_name. simpl. destruct (Nat.eqb_spec (String.length s) 0); [lia | reflexivity].
Qed.

Lemma z_number_min_max_in (path : list string) (lo : Q) (lt : string) (hi : Q) (ht : string)
      (q : Q) :
  (lo <= q <= hi)%Q -> z_number_min_max path lo lt hi ht (VNum q) = inr q.
Proof.
  intros [H1 H2]. unfold z_number_min_max, Qltb. simpl.
  apply Qle_bool_iff in H1, H2. rewrite H1, H2. reflexivity.
Qed.

Lemma z_gender_in (s : string) : In s ["male"; "female"; "other"] -> z_gender (VStr s) = inr s.
Proof. intros H. repeat destruct H as [<- | H]; try reflexivity. destruct H. Qed.

Definition opt_val {A} (f : A -> jsval) (o : option A) : jsval :=
  match o with Some a => f a | None => VUndefined end.

(** [insertPatientSchema] accepts an object holding valid fields. *)
Lemma parse_insertPatient_of (kvs : list (string * jsval)) (nm : string) (a : Q) (g : string)
      (ow : option Q) (cn ad : option string) :
  get_prop kvs "name" = VStr nm -> (0 < String.length nm)%nat ->
  get_prop kvs "age" = VNum a -> (0 <= a <= 150)%Q ->
  get_prop kvs "gender" = VStr g -> In g ["male"; "female"; "other"] ->
  get_prop kvs "weight" = opt_val VNum ow ->
  match ow with Some w => (1 <= w <= 300)%Q | None => True end ->
  get_prop kvs "contactNumber" = opt_val VStr cn ->
  get_prop kvs "address" = opt_val VStr ad ->
  parse_insertPatient (VObj kvs) =
  inr {| ip_name := nm; ip_age := a; ip_gender := g; ip_weight := ow;
         ip_contactNumber := cn; ip_address := ad |}.
Proof.
  intros Hn Hnl Ha Har Hg Hgi Hw Hwr Hc Had. unfold parse_insertPatient.
  rewrite Hn, Ha, Hg, Hw, Hc, Had, (z_name_str _ Hnl),
    (z_number_min_max_in _ _ _ _ _ _ Har), (z_gender_in _ Hgi).
  destruct ow as [w|], cn, ad; unfold opt_val, z_optional;
    try rewrite (z_number_min_max_in _ _ _ _ _ _ Hwr); reflexivity.
Qed.

Lemma form_text (s : string) :
  (if nonempty s then VStr s else VUndefined) =
  opt_val VStr (if nonempty s then Some s else None).
Proof. destruct (nonempty s); reflexivity. Qed.

End ExtraFormProofs.

Module ExtraForm.
Import Schema Storage Patients Pages ExtraStorageProofs ExtraFormProofs.

(** Extra.  The add-patient form and [POST /api/patients] fit together:
    when [handleAddPatient] sends a body (name and age filled in), the age
    parses to a number in [0, 150], the gender is one of the enum's values
    and the weight is empty or parses to a number in [1, 300], then the
    JSON text of the body is answered 201 with the patient the form
    describes (empty contact fields absent), which [GET /api/patients/:id]
    then returns, provided the new id is fresh and the INSERT does not
    fail. *)
Theorem addPatient_form_accepted (parseInt : string -> jsval) (np : NewPatientForm)
        (b : jsval) (j : json) (a : Q) (ow : option Q) (db : Db) (n t : string) :
  handleAddPatient parseInt np = Some b ->
  stringify b = Some j ->
  parseInt (f_age np) = VNum a -> (0 <= a <= 150)%Q ->
  In (f_gender np) ["male"; "female"; "other"] ->
  match ow with
  | None => nonempty (f_weight np) = false
  | Some w => nonempty (f_weight np) = true /\ parseInt (f_weight np) = VNum w /\
              (1 <= w <= 300)%Q
  end ->
  existsb (fun r => String.eqb (p_id r) n) (patients db) = false ->
  exists db1 p,
    post_patients db n t false (parse j) = (db1, PStatus201 p) /\
    p = {| pt_id := n; pt_name := f_name np; pt_age := a; pt_gender := f_gender np;
           pt_weight := opt_num ow;
           pt_contactNumber :=
             opt_str (if nonempty (f_contactNumber np) then Some (f_contactNumber np) else None);
           pt_address :=
             opt_str (if nonempty (f_address np) then Some (f_address np) else None);
           pt_createdAt := t |} /\
    get_patient db1 n = PStatus200 p.
Proof.
  intros H Hj Ha Har Hg Hw Hfresh.
  unfold handleAddPatient in H.
  destruct (negb (nonempty (f_name np)) || negb (nonempty (f_age np))) eqn:Eg; [discriminate|].
  injection H as <-. apply orb_false_iff in Eg as [En _]. apply negb_false_iff in En.
  assert (Hwv : (if nonempty (f_weight np) then parseInt (f_weight np) else VUndefined)
                = opt_val VNum ow).
  { destruct ow as [w|]; [destruct Hw as [-> [-> _]] | rewrite Hw]; reflexivity. }
  assert (Hwr : match ow with Some w => (1 <= w <= 300)%Q | None => True end).
  { destruct ow as [w|]; [exact (proj2 (proj2 Hw)) | exact I]. }
  rewrite Ha, Hwv, !form_text in Hj. clear Hw Hwv.
  set (cn := if nonempty (f_contactNumber np) then Some (f_contactNumber np) else None) in *.
  set (ad := if nonempty (f_address np) then Some (f_address np) else None) in *.
  assert (Hp : parse_insertPatient (parse j) =
               inr {| ip_name := f_name np; ip_age := a; ip_gender := f_gender np;
                      ip_weight := ow; ip_contactNumber := cn; ip_address := ad |}).
  { clearbody cn ad.
    destruct ow as [w|], cn as [c|], ad as [d|]; simpl in Hj; injection Hj as <-;
      apply parse_insertPatient_of; try reflexivity; try assumption;
      exact (nonempty_length _ En). }
  unfold post_patients. rewrite Hp.
  destruct (Patients.createPatient db n t false _) as [db1 r] eqn:Ec.
  unfold Patients.createPatient in Ec. rewrite Hfresh in Ec. injection Ec as Hdb Hr.
  rewrite <- Hr. eexists _, _. split; [reflexivity|]. split; [reflexivity|].
  refine (proj1 (proj2 (createPatient_found db db1 n t false
    {| ip_name := f_name np; ip_age := a; ip_gender := f_gender np;
       ip_weight := ow; ip_contactNumber := cn; ip_address := ad |} _ _))).
  unfold Patients.createPatient. rewrite Hfresh. rewrite <- Hdb. reflexivity.
Qed.

Lemma addPatient_form_accepted_witness :
  exists db1 p,
    post_patients Samples.db_p1 "p2" "2024-01-03T08:00:00.000Z" false
      (parse (JObj [("name", JStr "Ravi"); ("age", JNum 42); ("gender", JStr "male");
                    ("weight", JNum 70)]))
    = (db1, PStatus201 p) /\
    p = {| pt_id := "p2"; pt_name := "Ravi"; pt_age := 42; pt_gender := "male";
           pt_weight := VNum 70; pt_contactNumber := VNull; pt_address := VNull;
           pt_createdAt := "2024-01-03T08:00:00.000Z" |} /\
    get_patient db1 "p2" = PStatus200 p.
Proof.
  exact (addPatient_form_accepted
           (fun s => if String.eqb s "42" then VNum 42 else if String.eqb s "70" then VNum 70
                     else VUndefined)
           {| f_name := "Ravi"; f_age := "42"; f_gender := "male"; f_weight := "70";
              f_contactNumber := ""; f_address := "" |}
           _ _ 42 (Some 70%Q) Samples.db_p1 "p2" "2024-01-03T08:00:00.000Z"
           eq_refl eq_refl eq_refl ltac:(split; lra) ltac:(left; reflexivity)
           ltac:(split; [reflexivity | split; [reflexivity | split; lra]]) eq_refl).
Defined.

End ExtraForm.

Module ExtraRoutesProofs.
Import Schema Storage Routes Patients StoreSpec.

Lemma diagnose_reachable (db db1 : Db) (env : ServerEnv) (body : jsval)
      (calls : list server_call) (r : response) :
  diagnose db env body = (db1, calls, r) -> reachable_db db -> reachable_db db1.
Proof.
  intros H Hr. unfold diagnose in H.
  destruct (parse_symptomAnalysis body) as [errs|v]; [injection H as <- _ _; exact Hr|].
  destruct (nlp env) as [ai|]; [|injection H as <- _ _; exact Hr].
  destruct (createDiagnosis db _ _ _ _) as [dbA [e|d]] eqn:Ec.
  - injection H as <- _ _. change dbA with (fst (dbA, @inl sql_error Diagnosis e)).
    rewrite <- Ec. apply rdb_diagnosis, Hr.
  - destruct (addKnowledgeEntry dbA _ _ _ _) as [dbB [e|k]] eqn:Ek;
      injection H as <- _ _;
      match type of Ek with
      | ?lhs = ?rhs => change dbB with (fst rhs); rewrite <- Ek
      end;
      apply rdb_knowledge;
      match type of Ec with
      | ?lhs = ?rhs => change dbA with (fst rhs); rewrite <- Ec
      end;
      apply rdb_diagnosis, Hr.
Qed.

Lemma post_patients_reachable (db db1 : Db) (n t : string) (f : bool) (body : jsval)
      (r : patient_response) :
  post_patients db n t f body = (db1, r) -> reachable_db db -> reachable_db db1.
Proof.
  intros H Hr. unfold post_patients in H.
  destruct (parse_insertPatient body) as [errs|ins]; [injection H as <- _; exact Hr|].
  destruct (Patients.createPatient db n t f ins) as [dbA res] eqn:Ec.
  assert (HA : reachable_db dbA).
  { change dbA with (fst (dbA, res)). rewrite <- Ec. apply rdb_patient, Hr. }
  destruct res; injection H as <- _; exact HA.
Qed.

End ExtraRoutesProofs.

Module ExtraRoutes.
Import Schema Storage Routes Patients StoreSpec Samples ExtraIntegrityProofs
       ExtraRoutesProofs.

(** Extra.  [POST /api/diagnose] for a valid body whose [patientId] names
    no stored patient still calls the NLP service once, then answers 500
    "NLP service unavailable" (the foreign-key failure of the INSERT lands
    in the same catch) and leaves the database as it was: no diagnosis and
    no knowledge entry is written. *)
Theorem diagnose_unknown_patient (db : Db) (env : ServerEnv) (body : jsval)
        (v : SymptomAnalysis) (ai : AiDiagnosis) :
  parse_symptomAnalysis body = inr v -> nlp env = Some ai ->
  existsb (fun p => String.eqb (p_id p) (Schema.patientId v)) (patients db) = false ->
  diagnose db env body = (db, [CallNlp], Status500 "NLP service unavailable").
Proof.
  intros Hv Hn Hp. unfold diagnose. rewrite Hv, Hn. unfold createDiagnosis.
  destruct (diag_fault env); [reflexivity|].
  destruct (existsb _ (diagnoses db)); [reflexivity|].
  simpl. rewrite Hp. reflexivity.
Qed.

Lemma diagnose_unknown_patient_witness :
  diagnose empty_db (env_flu false) (body_of 30 [VStr "fever"])
  = (empty_db, [CallNlp], Status500 "NLP service unavailable").
Proof.
  apply (diagnose_unknown_patient empty_db (env_flu false) (body_of 30 [VStr "fever"])
           {| Schema.patientId := "p1"; Schema.symptoms := ["fever"];
              Schema.vitalSigns := None; Schema.patientAge := 30;
              Schema.patientGender := "male"; Schema.patientWeight := None;
              Schema.language := "en" |} ai_flu); reflexivity.
Defined.

(** Extra.  The two server routes that write keep the storage's integrity:
    starting from a database built by the storage writes, after any
    request to [POST /api/patients] or [POST /api/diagnose] (whatever the
    body, the NLP answer, the ids and the INSERT failures) ids stay unique
    in every table and every diagnosis refers to a stored patient. *)
Theorem routes_keep_integrity (db : Db) :
  reachable_db db ->
  (forall n t f body db1 r, post_patients db n t f body = (db1, r) -> db_integrity db1) /\
  (forall env body db1 calls r, diagnose db env body = (db1, calls, r) -> db_integrity db1).
Proof.
  intros Hr. split.
  - intros n t f body db1 r H.
    exact (reachable_db_integrity _ (post_patients_reachable _ _ _ _ _ _ _ H Hr)).
  - intros env body db1 calls r H.
    exact (reachable_db_integrity _ (diagnose_reachable _ _ _ _ _ _ H Hr)).
Qed.

Lemma routes_keep_integrity_witness :
  reachable_db db_p1 /\
  db_integrity (fst (fst (diagnose db_p1 (env_flu false) (body_of 30 [VStr "fever"])))).
Proof.
  assert (Hr : reachable_db db_p1).
  { change db_p1 with (fst (Patients.createPatient empty_db "p1" "2024-01-01T00:00:00.000Z" false
                              {| ip_name := "A"; ip_age := 30; ip_gender := "male";
                                 ip_weight := None; ip_contactNumber := None;
                                 ip_address := None |})).
    apply rdb_patient, rdb_empty. }
  split; [exact Hr|].
  destruct (diagnose db_p1 (env_flu false) (body_of 30 [VStr "fever"]))
    as [[db1 calls] r] eqn:E.
  exact (proj2 (routes_keep_integrity db_p1 Hr) _ _ db1 calls r E).
Defined.

End ExtraRoutes.
